(** * The JSON schedule scraper of hockey_scraper, verified

    A shallow embedding of [hockey_scraper/nhl/json_schedule.py]
    ([get_schedule], [chunk_schedule_calls], [get_dates] and
    [scrape_schedule]) together with the parts of the Python runtime the
    module relies on: dynamically typed JSON values, exceptions, string
    slicing, [int()], [str()] and the [datetime] operations that are used.

    Layout: the Python runtime ([Py]), the calendar ([Datetime]), the
    external collaborators and the effect monad ([Env], [M]), the four
    functions of the module, a typed view of the upstream schema, and then
    the theorems. *)

From Stdlib Require Import ZArith List String Ascii Bool Lia DecimalString.
From Stdlib Require Import Sorted.
From Stdlib Require DecimalFacts DecimalPos.
From ExtLib Require Import Structures.Monad.
Import ListNotations MonadNotation.

Set Warnings "-register-all".

Local Open Scope string_scope.
Local Open Scope Z_scope.
Local Open Scope monad_scope.

(* ===================================================================== *)
(** * Python values, exceptions and builtins                              *)
(* ===================================================================== *)

Module Py.

(** Exceptions the module can run into.  [Foreign] stands for an exception
    class raised by an external collaborator (the page fetcher, the JSON
    decoder); the module itself defines and raises no class of its own. *)
Inductive exc : Type :=
| KeyError (key : string)
| IndexError
| TypeError
| ValueError
| AttributeError
| OverflowError
| Foreign (cls : string) (msg : string).

Definition exc_class (e : exc) : string :=
  match e with
  | KeyError _ => "KeyError"
  | IndexError => "IndexError"
  | TypeError => "TypeError"
  | ValueError => "ValueError"
  | AttributeError => "AttributeError"
  | OverflowError => "OverflowError"
  | Foreign cls _ => cls
  end.

(** What the exception carries as its argument: the missing key of a
    [KeyError], the message of a foreign exception. *)
Definition exc_arg (e : exc) : string :=
  match e with
  | KeyError key => key
  | Foreign _ msg => msg
  | _ => ""
  end.

(** A computation that returns or raises. *)
Inductive result (A : Type) : Type :=
| Ok (a : A)
| Raise (e : exc).
Arguments Ok {A} a.
Arguments Raise {A} e.

#[global] Instance Monad_result : Monad result :=
  {| ret := fun _ a => Ok a;
     bind := fun _ _ m k => match m with Ok a => k a | Raise e => Raise e end |}.

(** The objects [json.loads] builds: [None], booleans, integers, strings,
    lists and dicts (a dict keeps its entries in insertion order, keys
    distinct).  Floating point numbers do not occur in the schedule schema
    and are left out. *)
Inductive json : Type :=
| JNull
| JBool (b : bool)
| JInt (z : Z)
| JStr (s : string)
| JList (l : list json)
| JDict (d : list (string * json)).

(** ** Strings *)

(** [s[n:]] for [n >= 0]. *)
Fixpoint str_drop (n : nat) (s : string) : string :=
  match n, s with
  | O, _ => s
  | S _, EmptyString => EmptyString
  | S n', String _ s' => str_drop n' s'
  end.

(** [s[:n]] for [n >= 0]. *)
Fixpoint str_take (n : nat) (s : string) : string :=
  match n, s with
  | O, _ => EmptyString
  | S _, EmptyString => EmptyString
  | S n', String c s' => String c (str_take n' s')
  end.

(** [s[:-1]]: everything but the last character; empty for the empty
    string. *)
Definition str_init (s : string) : string :=
  str_take (String.length s - 1) s.

(** [sep.join(parts)]. *)
Fixpoint str_join (sep : string) (parts : list string) : string :=
  match parts with
  | [] => ""
  | [p] => p
  | p :: ps => p ++ sep ++ str_join sep ps
  end.

Definition is_digit (c : ascii) : bool :=
  let n := Z.of_nat (nat_of_ascii c) in (48 <=? n) && (n <=? 57).

Definition digit_value (c : ascii) : Z := Z.of_nat (nat_of_ascii c) - 48.

(** The ASCII characters [int()] skips around a number: tab, line feed,
    vertical tab, form feed, carriage return and space. *)
Definition is_space (c : ascii) : bool :=
  let n := Z.of_nat (nat_of_ascii c) in
  ((9 <=? n) && (n <=? 13)) || (n =? 32).

Fixpoint lstrip (s : string) : string :=
  match s with
  | String c s' => if is_space c then lstrip s' else s
  | EmptyString => EmptyString
  end.

Fixpoint rstrip (s : string) : string :=
  match s with
  | EmptyString => EmptyString
  | String c s' =>
      match rstrip s' with
      | EmptyString => if is_space c then EmptyString else String c EmptyString
      | t => String c t
      end
  end.

(** ** [str()] *)

(** [str(n)] for an integer: decimal, with a minus sign when negative. *)
Definition str_of_int (z : Z) : string := NilZero.string_of_int (Z.to_int z).

(** [repr(v)] given [str(v)]: a string is printed between quotes (the
    escaping [repr] applies to quotes and control characters is left out). *)
Definition repr_of (v : json) (printed : string) : string :=
  match v with
  | JStr _ => "'" ++ printed ++ "'"
  | _ => printed
  end.

(** [str(v)].  A list or a dict prints the [repr] of its elements. *)
Fixpoint py_str (v : json) : string :=
  let fix elems (l : list json) : list string :=
    match l with
    | [] => []
    | x :: l' => repr_of x (py_str x) :: elems l'
    end in
  let fix items (d : list (string * json)) : list string :=
    match d with
    | [] => []
    | (k, x) :: d' => ("'" ++ k ++ "': " ++ repr_of x (py_str x)) :: items d'
    end in
  match v with
  | JNull => "None"
  | JBool true => "True"
  | JBool false => "False"
  | JInt z => str_of_int z
  | JStr s => s
  | JList l => "[" ++ str_join ", " (elems l) ++ "]"
  | JDict d => "{" ++ str_join ", " (items d) ++ "}"
  end.

(** ** [int()] of a string *)

(** Digits with single underscores between them, as [int] accepts. *)
Fixpoint digits_value (acc : Z) (after_underscore : bool) (s : string)
  : option Z :=
  match s with
  | EmptyString => if after_underscore then None else Some acc
  | String c s' =>
      if is_digit c then digits_value (10 * acc + digit_value c) false s'
      else if (Ascii.eqb c "_") && negb after_underscore
           then digits_value acc true s'
           else None
  end.

Definition unsigned_value (s : string) : option Z :=
  match s with
  | String c _ => if is_digit c then digits_value 0 false s else None
  | EmptyString => None
  end.

(** [int(s)] in base ten: surrounding white space, an optional sign, then
    digits; anything else, the empty string included, is a [ValueError]. *)
Definition py_int (s : string) : result Z :=
  let t := rstrip (lstrip s) in
  let signed :=
    match t with
    | String "-" t' => option_map Z.opp (unsigned_value t')
    | String "+" t' => unsigned_value t'
    | _ => unsigned_value t
    end in
  match signed with
  | Some z => Ok z
  | None => Raise ValueError
  end.

(** ** Subscripts, [dict.get], iteration, comparison *)

Fixpoint assoc (k : string) (d : list (string * json)) : option json :=
  match d with
  | [] => None
  | (k', v) :: d' => if String.eqb k k' then Some v else assoc k d'
  end.

(** [v[k]] with a string key: a dict looks the key up, every other type
    rejects a string subscript. *)
Definition getitem (v : json) (k : string) : result json :=
  match v with
  | JDict d =>
      match assoc k d with
      | Some x => Ok x
      | None => Raise (KeyError k)
      end
  | _ => Raise TypeError
  end.

(** [v.get(k)]: only dicts have the method. *)
Definition dict_get (v : json) (k : string) : result json :=
  match v with
  | JDict d =>
      match assoc k d with
      | Some x => Ok x
      | None => Ok JNull
      end
  | _ => Raise AttributeError
  end.

Fixpoint chars (s : string) : list json :=
  match s with
  | EmptyString => []
  | String c s' => JStr (String c EmptyString) :: chars s'
  end.

(** What a [for] loop sees: the elements of a list, the keys of a dict,
    the characters of a string. *)
Definition py_iter (v : json) : result (list json) :=
  match v with
  | JList l => Ok l
  | JDict d => Ok (map (fun kv => JStr (fst kv)) d)
  | JStr s => Ok (chars s)
  | _ => Raise TypeError
  end.

(** [v == s] for a string [s]: only an equal string is equal. *)
Definition eq_str (v : json) (s : string) : bool :=
  match v with
  | JStr t => String.eqb t s
  | _ => false
  end.

(** [v[:-1]]: strings and lists can be sliced. *)
Definition slice_init (v : json) : result json :=
  match v with
  | JStr s => Ok (JStr (str_init s))
  | JList l => Ok (JList (removelast l))
  | _ => Raise TypeError
  end.

(** [range(0, stop, step)] for a positive step. *)
Definition py_range (stop step : Z) : list Z :=
  map (fun i => Z.of_nat i * step)
      (seq 0 (Z.to_nat ((stop + step - 1) / step))).

(** [for x in xs: acc = body(acc, x)], stopping at the first exception. *)
Fixpoint for_each {m : Type -> Type} {Mm : Monad m} {A B : Type}
  (xs : list A) (acc : B) (body : B -> A -> m B) : m B :=
  match xs with
  | [] => ret acc
  | x :: xs' => acc' <- body acc x ;; for_each xs' acc' body
  end.

(** [list.sort()] on strings: ascending by code point.  Any stable sort
    yields the same list; insertion is used here. *)
Fixpoint insert_sorted (x : string) (l : list string) : list string :=
  match l with
  | [] => [x]
  | y :: l' => if String.leb x y then x :: l else y :: insert_sorted x l'
  end.

Definition sort (l : list string) : list string :=
  fold_right insert_sorted [] l.

(** [x in l] for a list of strings. *)
Definition str_in (x : string) (l : list string) : bool :=
  existsb (String.eqb x) l.

(** [l[0]] and [l[-1]]. *)
Definition first {A : Type} (l : list A) : result A :=
  match l with
  | x :: _ => Ok x
  | [] => Raise IndexError
  end.

Definition last_item {A : Type} (l : list A) : result A :=
  match rev l with
  | x :: _ => Ok x
  | [] => Raise IndexError
  end.

End Py.
Import Py.

(* ===================================================================== *)
(** * The [datetime] operations the module uses                           *)
(* ===================================================================== *)

Module Datetime.

(** A [datetime] is kept as its proleptic Gregorian ordinal (day 1 is
    0001-01-01) and the second of the day; [datetime] itself does all its
    arithmetic on ordinals.  Microseconds are not observed by this module. *)
Record datetime : Type := mk_datetime { toordinal : Z; second_of_day : Z }.

Definition _MAXORDINAL : Z := 3652059.

Definition _is_leap (year : Z) : bool :=
  (year mod 4 =? 0) && (negb (year mod 100 =? 0) || (year mod 400 =? 0)).

Definition _days_before_year (year : Z) : Z :=
  let y := year - 1 in y * 365 + y / 4 - y / 100 + y / 400.

Definition _DAYS_IN_MONTH : list Z :=
  [-1; 31; 28; 31; 30; 31; 30; 31; 31; 30; 31; 30; 31].

Definition _DAYS_BEFORE_MONTH : list Z :=
  [-1; 0; 31; 59; 90; 120; 151; 181; 212; 243; 273; 304; 334].

Definition _days_in_month (year month : Z) : Z :=
  if (month =? 2) && _is_leap year then 29
  else nth (Z.to_nat month) _DAYS_IN_MONTH 0.

Definition _days_before_month (year month : Z) : Z :=
  nth (Z.to_nat month) _DAYS_BEFORE_MONTH 0
  + (if (2 <? month) && _is_leap year then 1 else 0).

Definition _ymd2ord (year month day : Z) : Z :=
  _days_before_year year + _days_before_month year month + day.

Definition _DI400Y : Z := 146097.
Definition _DI100Y : Z := 36524.
Definition _DI4Y : Z := 1461.

Definition _ord2ymd (n : Z) : Z * Z * Z :=
  let n := n - 1 in
  let n400 := n / _DI400Y in
  let n := n mod _DI400Y in
  let year := n400 * 400 + 1 in
  let n100 := n / _DI100Y in
  let n := n mod _DI100Y in
  let n4 := n / _DI4Y in
  let n := n mod _DI4Y in
  let n1 := n / 365 in
  let n := n mod 365 in
  let year := year + n100 * 100 + n4 * 4 + n1 in
  if (n1 =? 4) || (n100 =? 4) then (year - 1, 12, 31)
  else
    let leapyear := (n1 =? 3) && (negb (n4 =? 24) || (n100 =? 3)) in
    let month := Z.shiftr (n + 50) 5 in
    let preceding :=
      nth (Z.to_nat month) _DAYS_BEFORE_MONTH 0
      + (if (2 <? month) && leapyear then 1 else 0) in
    if n <? preceding then
      let month := month - 1 in
      let preceding :=
        preceding
        - (nth (Z.to_nat month) _DAYS_IN_MONTH 0
           + (if (month =? 2) && leapyear then 1 else 0)) in
      (year, month, n - preceding + 1)
    else (year, month, n - preceding + 1).

Definition year (d : datetime) : Z := fst (fst (_ord2ymd (toordinal d))).
Definition month (d : datetime) : Z := snd (fst (_ord2ymd (toordinal d))).
Definition day (d : datetime) : Z := snd (_ord2ymd (toordinal d)).

(** [timedelta(days=n)]. *)
Definition timedelta (days : Z) : result Z :=
  if Z.abs days <=? 999999999 then Ok days else Raise OverflowError.

(** [d + delta] for a delta of whole days. *)
Definition add (d : datetime) (delta : Z) : result datetime :=
  let o := toordinal d + delta in
  if (0 <? o) && (o <=? _MAXORDINAL)
  then Ok (mk_datetime o (second_of_day d))
  else Raise OverflowError.

(** [(a - b).days]: the difference rounded down to whole days. *)
Definition sub_days (a b : datetime) : Z :=
  (86400 * (toordinal a - toordinal b) + (second_of_day a - second_of_day b))
  / 86400.

(** ** [strptime]

    [_strptime] turns the format into a regular expression and takes the
    first match of the backtracking engine; a matcher lists the ways to
    match a prefix in the order the engine tries them. *)
Definition matcher (A : Type) : Type := string -> list (A * string).

#[global] Instance Monad_matcher : Monad matcher :=
  {| ret := fun _ a s => [(a, s)];
     bind := fun _ _ p k s => flat_map (fun r => k (fst r) (snd r)) (p s) |}.

Definition alt {A : Type} (p q : matcher A) : matcher A :=
  fun s => (p s ++ q s)%list.

(** A digit between [lo] and [hi]. *)
Definition digit (lo hi : Z) : matcher Z :=
  fun s =>
    match s with
    | String c s' =>
        if is_digit c && (lo <=? digit_value c) && (digit_value c <=? hi)
        then [(digit_value c, s')] else []
    | EmptyString => []
    end.

Definition lower (c : ascii) : ascii :=
  let n := nat_of_ascii c in
  if (Nat.leb 65 n && Nat.leb n 90)%bool then ascii_of_nat (n + 32) else c.

(** A literal character of the format; the expression is compiled with
    [IGNORECASE]. *)
Definition lit (c : ascii) : matcher unit :=
  fun s =>
    match s with
    | String c' s' => if Ascii.eqb (lower c) (lower c') then [(tt, s')] else []
    | EmptyString => []
    end.

Definition two (hi_lo hi_hi lo_lo lo_hi : Z) : matcher Z :=
  a <- digit hi_lo hi_hi ;; b <- digit lo_lo lo_hi ;; ret (10 * a + b).

Record fields : Type := mk_fields
  { f_year : Z; f_month : Z; f_day : Z;
    f_hour : Z; f_minute : Z; f_second : Z }.

(** The directives and their expressions, as in [_strptime.TimeRE]. *)
Definition directive (d : ascii) (f : fields) : matcher fields :=
  if Ascii.eqb d "Y" then
    a <- digit 0 9 ;; b <- digit 0 9 ;; c <- digit 0 9 ;; e <- digit 0 9 ;;
    ret (mk_fields (1000 * a + 100 * b + 10 * c + e) (f_month f) (f_day f)
           (f_hour f) (f_minute f) (f_second f))
  else if Ascii.eqb d "m" then
    v <- alt (two 1 1 0 2) (alt (two 0 0 1 9) (digit 1 9)) ;;
    ret (mk_fields (f_year f) v (f_day f) (f_hour f) (f_minute f) (f_second f))
  else if Ascii.eqb d "d" then
    v <- alt (two 3 3 0 1) (alt (two 1 2 0 9) (alt (two 0 0 1 9)
           (alt (digit 1 9) (lit " " ;; digit 1 9)))) ;;
    ret (mk_fields (f_year f) (f_month f) v (f_hour f) (f_minute f) (f_second f))
  else if Ascii.eqb d "H" then
    v <- alt (two 2 2 0 3) (alt (two 0 1 0 9) (digit 0 9)) ;;
    ret (mk_fields (f_year f) (f_month f) (f_day f) v (f_minute f) (f_second f))
  else if Ascii.eqb d "M" then
    v <- alt (two 0 5 0 9) (digit 0 9) ;;
    ret (mk_fields (f_year f) (f_month f) (f_day f) (f_hour f) v (f_second f))
  else if Ascii.eqb d "S" then
    v <- alt (two 6 6 0 1) (alt (two 0 5 0 9) (digit 0 9)) ;;
    ret (mk_fields (f_year f) (f_month f) (f_day f) (f_hour f) (f_minute f) v)
  else fun _ => [].

Fixpoint match_format (fmt : string) (f : fields) : matcher fields :=
  match fmt with
  | EmptyString => ret f
  | String "%" (String d fmt') => f' <- directive d f ;; match_format fmt' f'
  | String c fmt' => lit c ;; match_format fmt' f
  end.

(** [datetime(year, month, day, hour, minute, second)] with its range
    checks. *)
Definition make (f : fields) : result datetime :=
  if (1 <=? f_year f) && (f_year f <=? 9999)
     && (1 <=? f_month f) && (f_month f <=? 12)
     && (1 <=? f_day f) && (f_day f <=? _days_in_month (f_year f) (f_month f))
     && (0 <=? f_hour f) && (f_hour f <=? 23)
     && (0 <=? f_minute f) && (f_minute f <=? 59)
     && (0 <=? f_second f) && (f_second f <=? 59)
  then Ok (mk_datetime (_ymd2ord (f_year f) (f_month f) (f_day f))
             (3600 * f_hour f + 60 * f_minute f + f_second f))
  else Raise ValueError.

(** [datetime.strptime(data, fmt)]: no match, text left over after the
    match, and field values no date has, are all a [ValueError]. *)
Definition strptime (data fmt : string) : result datetime :=
  match match_format fmt (mk_fields 1900 1 1 0 0 0) data with
  | (f, EmptyString) :: _ => make f
  | _ => Raise ValueError
  end.

(** [strptime] applied to an arbitrary object: only a [str] is accepted. *)
Definition strptime_obj (data : json) (fmt : string) : result datetime :=
  match data with
  | JStr s => strptime s fmt
  | _ => Raise TypeError
  end.

(** ** [strftime] *)

Definition pad2 (n : Z) : string :=
  if n <? 10 then "0" ++ str_of_int n else str_of_int n.

(** [datetime.strftime(d, fmt)] for the directives of this module.  The
    year is printed by the C library, which does not pad it: a year below
    1000 comes out on fewer than four digits. *)
Fixpoint strftime (d : datetime) (fmt : string) : string :=
  match fmt with
  | EmptyString => EmptyString
  | String "%" (String c fmt') =>
      (if Ascii.eqb c "Y" then str_of_int (year d)
       else if Ascii.eqb c "m" then pad2 (month d)
       else if Ascii.eqb c "d" then pad2 (day d)
       else if Ascii.eqb c "H" then pad2 (second_of_day d / 3600)
       else if Ascii.eqb c "M" then pad2 (second_of_day d / 60 mod 60)
       else if Ascii.eqb c "S" then pad2 (second_of_day d mod 60)
       else String "%" (String c EmptyString))
      ++ strftime d fmt'
  | String c fmt' => String c (strftime d fmt')
  end.

End Datetime.
Import Datetime.

(* ===================================================================== *)
(** * External collaborators and effects                                  *)
(* ===================================================================== *)

(** The request descriptor handed to the page fetcher. *)
Record page_info : Type := mk_page_info
  { url : string; name : string; type : string; season : json }.

(** What the module calls but does not define: [hockey_scraper.utils.shared]
    ([get_season], [get_file], [get_team]), [json.loads], [str.upper] and the
    system clock behind [datetime.today()], which answers the n-th reading
    of a run with [clock n]. *)
Record Env : Type := mk_Env
  { get_season : string -> json;
    get_file : page_info -> result string;
    get_team : string -> string;
    json_loads : string -> result json;
    upper : string -> string;
    clock : nat -> datetime }.

(** What a run leaves behind: the requests sent to the fetcher, oldest
    first, and the number of clock readings taken. *)
Record State : Type := mk_State { fetched : list page_info; ticks : nat }.

Definition M (A : Type) : Type := State -> result A * State.

#[global] Instance Monad_M : Monad M :=
  {| ret := fun _ a s => (Ok a, s);
     bind := fun _ _ m k s =>
       match m s with
       | (Ok a, s') => k a s'
       | (Raise e, s') => (Raise e, s')
       end |}.

Definition lift {A : Type} (r : result A) : M A := fun s => (r, s).

Definition fetch (env : Env) (p : page_info) : M string :=
  fun s => (get_file env p, mk_State (fetched s ++ [p])%list (ticks s)).

Definition today (env : Env) : M datetime :=
  fun s => (Ok (clock env (ticks s)), mk_State (fetched s) (S (ticks s))).

(* ===================================================================== *)
(** * The module                                                          *)
(* ===================================================================== *)

(** The dict [scrape_schedule] appends for a game. *)
Record GameRecord : Type := mk_GameRecord
  { game_id : json;
    date : json;
    start_time : datetime;
    venue : json;
    home_team : string;
    away_team : string;
    home_score : json;
    away_score : json;
    status : json }.

Section Module_.

Variable env : Env.

Definition get_schedule (date_from date_to : string) : M json :=
  let page_info :=
    mk_page_info
      ("https://statsapi.web.nhl.com/api/v1/schedule?startDate=" ++ date_from
         ++ "&endDate=" ++ date_to)
      (date_from ++ "_" ++ date_to)
      "json_schedule"
      (get_season env date_from) in
  text <- fetch env page_info ;;
  lift (json_loads env text).

Definition days_per_call : Z := 100.

Definition chunk_schedule_calls (from_date to_date : string) : M (list json) :=
  from_date <- lift (strptime from_date "%Y-%m-%d") ;;
  to_date <- lift (strptime to_date "%Y-%m-%d") ;;
  let num_days := sub_days to_date from_date + 1 in
  for_each (py_range num_days days_per_call) []
    (fun sched offset =>
       f_date <- lift (delta <- timedelta offset ;; add from_date delta) ;;
       let f_chunk := strftime f_date "%Y-%m-%d" in
       t_date <- lift (delta <- timedelta
                                  (Z.min (num_days - 1)
                                         (offset + days_per_call - 1)) ;;
                       add from_date delta) ;;
       let t_chunk := strftime t_date "%Y-%m-%d" in
       chunk_sched <- get_schedule f_chunk t_chunk ;;
       dates <- lift (getitem chunk_sched "dates") ;;
       ret (sched ++ [dates])%list).

(** The dict built for one game, its entries evaluated in the order they
    are written. *)
Definition game_record (day game : json) : result GameRecord :=
  game_id <- getitem game "gamePk" ;;
  date <- getitem day "date" ;;
  start_time <- (gameDate <- getitem game "gameDate" ;;
                 trimmed <- slice_init gameDate ;;
                 strptime_obj trimmed "%Y-%m-%dT%H:%M:%S") ;;
  venue <- (v <- getitem game "venue" ;; dict_get v "name") ;;
  home_team <- (teams <- getitem game "teams" ;;
                home <- getitem teams "home" ;;
                team <- getitem home "team" ;;
                nm <- getitem team "name" ;;
                match nm with
                | JStr s => ret (get_team env (upper env s))
                | _ => Raise AttributeError
                end) ;;
  away_team <- (teams <- getitem game "teams" ;;
                away <- getitem teams "away" ;;
                team <- getitem away "team" ;;
                nm <- getitem team "name" ;;
                match nm with
                | JStr s => ret (get_team env (upper env s))
                | _ => Raise AttributeError
                end) ;;
  home_score <- (teams <- getitem game "teams" ;;
                 home <- getitem teams "home" ;;
                 dict_get home "score") ;;
  away_score <- (teams <- getitem game "teams" ;;
                 away <- getitem teams "away" ;;
                 dict_get away "score") ;;
  status <- (st <- getitem game "status" ;; getitem st "abstractGameState") ;;
  ret (mk_GameRecord game_id date start_time venue home_team away_team
         home_score away_score status).

(** The body of the innermost loop of [scrape_schedule]. *)
Definition scrape_game (preseason not_over : bool) (day : json)
  (schedule : list GameRecord) (game : json) : result (list GameRecord) :=
  detailedState <- (st <- getitem game "status" ;; getitem st "detailedState") ;;
  if eq_str detailedState "Final" || not_over then
    game_id <- (pk <- getitem game "gamePk" ;;
                py_int (str_drop 5 (py_str pk))) ;;
    if ((20000 <=? game_id) || preseason) && (game_id <? 40000) then
      rec <- game_record day game ;;
      ret (schedule ++ [rec])%list
    else ret schedule
  else ret schedule.

Definition scrape_day (preseason not_over : bool)
  (schedule : list GameRecord) (day : json) : result (list GameRecord) :=
  games <- (g <- getitem day "games" ;; py_iter g) ;;
  for_each games schedule (scrape_game preseason not_over day).

Definition scrape_chunk (preseason not_over : bool)
  (schedule : list GameRecord) (chunk : json) : result (list GameRecord) :=
  days <- py_iter chunk ;;
  for_each days schedule (scrape_day preseason not_over).

Definition scrape_schedule (date_from date_to : string)
  (preseason not_over : bool) : M (list GameRecord) :=
  schedule_json <- chunk_schedule_calls date_from date_to ;;
  lift (for_each schedule_json [] (scrape_chunk preseason not_over)).

Definition get_dates (games : list json) : M (list GameRecord) :=
  let games := sort (map py_str games) in
  date_from <- lift (g <- first games ;;
                     ret (str_join "-" [str_take 4 g; "9"; "1"])) ;;
  year_to <- lift (g <- last_item games ;; ret (str_take 4 g)) ;;
  now <- today env ;;
  date_to <-
    (if eq_str (get_season env (strftime now "%Y-%m-%d")) year_to then
       y <- today env ;; m <- today env ;; d <- today env ;;
       ret (str_join "-" [str_of_int (year y); str_of_int (month m);
                          str_of_int (day d)])
     else
       y <- lift (py_int year_to) ;;
       ret (str_join "-" [str_of_int (y + 1); "7"; "1"])) ;;
  schedule <- scrape_schedule date_from date_to true true ;;
  ret (filter (fun game => str_in (py_str (game_id game)) games) schedule).

End Module_.

(* ===================================================================== *)
(** * A typed view of the upstream response                               *)
(* ===================================================================== *)

(** The fields [scrape_schedule] reads from a schedule response, typed as
    the statsapi schedule endpoint delivers them, and the JSON objects they
    come from.  The score and the venue name may be absent. *)
Module Schema.

Record Side : Type := mk_Side { team_name : string; score : option Z }.

Record Game : Type := mk_Game
  { gamePk : Z;
    gameDate : string;
    detailedState : string;
    abstractGameState : string;
    venue_name : option string;
    home : Side;
    away : Side }.

Record Day : Type := mk_Day { day_date : string; games : list Game }.

Definition optional {A : Type} (key : string) (inj : A -> json)
  (o : option A) : list (string * json) :=
  match o with
  | Some a => [(key, inj a)]
  | None => []
  end.

Definition enc_side (sd : Side) : json :=
  JDict (optional "score" JInt (score sd)
         ++ [("team", JDict [("name", JStr (team_name sd))])])%list.

Definition enc_status (g : Game) : json :=
  JDict [("abstractGameState", JStr (abstractGameState g));
         ("detailedState", JStr (detailedState g))].

Definition enc_teams (g : Game) : json :=
  JDict [("away", enc_side (away g)); ("home", enc_side (home g))].

Definition enc_venue (g : Game) : json :=
  JDict (optional "name" JStr (venue_name g)).

Definition game_entries (g : Game) : list (string * json) :=
  [("gamePk", JInt (gamePk g));
   ("gameDate", JStr (gameDate g));
   ("status", enc_status g);
   ("teams", enc_teams g);
   ("venue", enc_venue g)].

Definition enc_game (g : Game) : json := JDict (game_entries g).

(** A game entry that lacks one of its keys. *)
Definition without (key : string) (g : Game) : json :=
  JDict (filter (fun kv => negb (String.eqb (fst kv) key)) (game_entries g)).

(** A day entry with arbitrary game entries. *)
Definition day_with (date : string) (entries : list json) : json :=
  JDict [("date", JStr date); ("games", JList entries)].

Definition enc_day (d : Day) : json :=
  day_with (day_date d) (map enc_game (games d)).

(** The value under ["dates"] and the whole response. *)
Definition enc_dates (days : list Day) : json := JList (map enc_day days).

Definition enc_response (days : list Day) : json :=
  JDict [("dates", enc_dates days)].

End Schema.
Import Schema.

(** ** What the normalizer does on typed data *)

(** The identifier with its first five characters removed, as
    [scrape_schedule] decodes it. *)
Definition decoded_id (pk : Z) : result Z :=
  py_int (str_drop 5 (py_str (JInt pk))).

Definition is_ok {A : Type} (r : result A) : bool :=
  match r with
  | Ok _ => true
  | Raise _ => false
  end.

Definition game_time (g : Game) : result datetime :=
  strptime (str_init (gameDate g)) "%Y-%m-%dT%H:%M:%S".

(** A game whose identifier can be decoded and whose time stamp parses. *)
Definition well_formed (g : Game) : bool :=
  is_ok (decoded_id (gamePk g)) && is_ok (game_time g).

Definition completed (not_over : bool) (g : Game) : bool :=
  String.eqb (detailedState g) "Final" || not_over.

Definition in_game_type_range (preseason : bool) (g : Game) : bool :=
  match decoded_id (gamePk g) with
  | Ok d => ((20000 <=? d) || preseason) && (d <? 40000)
  | Raise _ => false
  end.

(** The filter as the specification words it. *)
Definition kept (preseason not_over : bool) (g : Game) : bool :=
  completed not_over g && in_game_type_range preseason g.

Definition opt_json {A : Type} (inj : A -> json) (o : option A) : json :=
  match o with
  | Some a => inj a
  | None => JNull
  end.

(** The record the specification describes for a game of the day dated
    [date]. *)
Definition record_of (env : Env) (date : string) (g : Game) (t : datetime)
  : GameRecord :=
  mk_GameRecord
    (JInt (gamePk g))
    (JStr date)
    t
    (opt_json JStr (venue_name g))
    (get_team env (upper env (team_name (home g))))
    (get_team env (upper env (team_name (away g))))
    (opt_json JInt (score (home g)))
    (opt_json JInt (score (away g)))
    (JStr (abstractGameState g)).

Definition records_of_game (env : Env) (preseason not_over : bool)
  (date : string) (g : Game) : list GameRecord :=
  if kept preseason not_over g then
    match game_time g with
    | Ok t => [record_of env date g t]
    | Raise _ => []
    end
  else [].

Definition records_of_day (env : Env) (preseason not_over : bool)
  (d : Day) : list GameRecord :=
  flat_map (records_of_game env preseason not_over (day_date d)) (games d).

Definition records_of (env : Env) (preseason not_over : bool)
  (days : list Day) : list GameRecord :=
  flat_map (records_of_day env preseason not_over) days.

(** The kept game entries of a delivery, each with its day, in the order
    they are delivered. *)
Definition kept_entries (preseason not_over : bool) (days : list Day)
  : list (Day * Game) :=
  flat_map (fun d => map (pair d) (filter (kept preseason not_over) (games d)))
    days.

(* ===================================================================== *)
(** * The vocabulary of the statements                                   *)
(* ===================================================================== *)

(** A day all of whose games are well formed. *)
Definition day_well_formed (d : Day) : bool := forallb well_formed (games d).

(** The time of day a parse has read so far is midnight. *)
Definition at_midnight (f : fields) : Prop :=
  f_hour f = 0 /\ f_minute f = 0 /\ f_second f = 0.

(** ** The date chunker *)

(** The sub-range the loop of [chunk_schedule_calls] computes at an offset:
    its first and its last day. *)
Definition chunk_bounds (from_date : datetime) (num_days offset : Z)
  : datetime * datetime :=
  (mk_datetime (toordinal from_date + offset) (second_of_day from_date),
   mk_datetime
     (toordinal from_date + Z.min (num_days - 1) (offset + days_per_call - 1))
     (second_of_day from_date)).

(** The sub-ranges of a run, in the order the loop visits them. *)
Definition chunks (from_date to_date : datetime) : list (datetime * datetime) :=
  let num_days := sub_days to_date from_date + 1 in
  map (chunk_bounds from_date num_days) (py_range num_days days_per_call).

(** The two dates of a sub-range as they are sent. *)
Definition chunk_from (c : datetime * datetime) : string :=
  strftime (fst c) "%Y-%m-%d".

Definition chunk_to (c : datetime * datetime) : string :=
  strftime (snd c) "%Y-%m-%d".

(** The descriptor [get_schedule] builds for two dates. *)
Definition request_for (env : Env) (date_from date_to : string) : page_info :=
  mk_page_info
    ("https://statsapi.web.nhl.com/api/v1/schedule?startDate=" ++ date_from
       ++ "&endDate=" ++ date_to)
    (date_from ++ "_" ++ date_to)
    "json_schedule"
    (get_season env date_from).

Definition chunk_request (env : Env) (c : datetime * datetime) : page_info :=
  request_for env (chunk_from c) (chunk_to c).

(** What the fetcher and the decoder make of a request. *)
Definition answer (env : Env) (p : page_info) : result json :=
  text <- get_file env p ;; json_loads env text.

(** The upstream answers every schedule request with an object whose
    ["dates"] entry is [dates date_from date_to]. *)
Definition serves (env : Env) (dates : string -> string -> json) : Prop :=
  forall a b : string,
    exists obj : json,
      answer env (request_for env a b) = Ok obj
      /\ getitem obj "dates" = Ok (dates a b).

(** The days [a], [a+1], ..., [b]. *)
Definition day_range (a b : Z) : list Z :=
  map (fun i => a + Z.of_nat i) (seq 0 (Z.to_nat (b - a + 1))).

Definition days_of (c : datetime * datetime) : list Z :=
  day_range (toordinal (fst c)) (toordinal (snd c)).

(** The state after the requests [ps] have been sent. *)
Definition sent (s : State) (ps : list page_info) : State :=
  mk_State (fetched s ++ ps)%list (ticks s).

(** The number of sub-ranges for [num_days] days, and the offset of the
    i-th one: what [range(0, num_days, days_per_call)] enumerates. *)
Definition chunk_count (num_days : Z) : nat :=
  Z.to_nat ((num_days + days_per_call - 1) / days_per_call).

Definition offset_of (i : nat) : Z := Z.of_nat i * days_per_call.

(** The days an upstream that answers with [schedule] delivers for the
    sub-range [c]. *)
Definition days_for (schedule : string -> string -> list Day)
  (c : datetime * datetime) : list Day :=
  schedule (chunk_from c) (chunk_to c).


(** The sub-ranges [cs] split the days from [df] to [dt]: laid end to end
    they are exactly those days in ascending order, each holds between one
    and [days_per_call] days, each starts the day after the previous one
    ends, the first starts at [df] and the last ends at [dt]. *)
Definition partitions_range (cs : list (datetime * datetime))
  (df dt : datetime) : Prop :=
  flat_map days_of cs = day_range (toordinal df) (toordinal dt)
  /\ Forall (fun c => 1 <= toordinal (snd c) - toordinal (fst c) + 1
                      <= days_per_call) cs
  /\ (forall i c1 c2,
        nth_error cs i = Some c1 -> nth_error cs (S i) = Some c2 ->
        toordinal (fst c2) = toordinal (snd c1) + 1)
  /\ (exists rest last_day, cs = (df, last_day) :: rest)
  /\ (exists init first_day, cs = (init ++ [(first_day, dt)])%list).

(** The computation raises an exception of class [cls]. *)
Definition fails_with {A : Type} (r : result A) (cls : string) : Prop :=
  exists e, r = Raise e /\ exc_class e = cls.

(** C5 as the specification states it: an inverted range makes the chunker
    fail with an [InvalidRangeError]. *)
Definition inverted_range_is_rejected (env : Env)
  (from_date to_date : string) (s : State) : Prop :=
  fails_with (fst (chunk_schedule_calls env from_date to_date s))
    "InvalidRangeError".

(** ** The normalizer *)

(** The days the upstream delivers for the sub-ranges of a run, one list
    per sub-range, when it answers a request for two dates with
    [schedule date_from date_to]. *)
Definition delivered (schedule : string -> string -> list Day)
  (df dt : datetime) : list (list Day) :=
  map (fun c => schedule (chunk_from c) (chunk_to c)) (chunks df dt).

(** The identifier of a record with its first five characters removed. *)
Definition decoded (r : GameRecord) : result Z :=
  py_int (str_drop 5 (py_str (game_id r))).

(** The range of decoded identifiers a caller asks for: below 40000, and
    from 20000 on unless the preseason is asked for too. *)
Definition in_requested_range (preseason : bool) (r : GameRecord) : Prop :=
  exists k, decoded r = Ok k /\ k < 40000 /\ (preseason = false -> 20000 <= k).

(** The record [r] holds what the specification lists for game [g] of day
    [d]. *)
Definition built_from (env : Env) (d : Day) (g : Game) (r : GameRecord)
  : Prop :=
  game_id r = JInt (gamePk g)
  /\ date r = JStr (day_date d)
  /\ strptime (str_init (gameDate g)) "%Y-%m-%dT%H:%M:%S" = Ok (start_time r)
  /\ venue r = opt_json JStr (venue_name g)
  /\ home_team r = get_team env (upper env (team_name (home g)))
  /\ away_team r = get_team env (upper env (team_name (away g)))
  /\ home_score r = opt_json JInt (score (home g))
  /\ away_score r = opt_json JInt (score (away g))
  /\ status r = JStr (abstractGameState g).

(** C6 as the specification states it: the run fails with a [SchemaError]
    that carries the identifier of the offending game. *)
Definition schema_error_for {A : Type} (r : result A) (pk : Z) : Prop :=
  exists e, r = Raise e /\ exc_class e = "SchemaError"
            /\ exc_arg e = py_str (JInt pk).

(** ** What a run depends on *)

(** Two environments whose collaborators answer alike; their clocks may
    differ. *)
Definition same_collaborators (e1 e2 : Env) : Prop :=
  (forall d, get_season e1 d = get_season e2 d)
  /\ (forall p, get_file e1 p = get_file e2 p)
  /\ (forall t, get_team e1 t = get_team e2 t)
  /\ (forall x, json_loads e1 x = json_loads e2 x)
  /\ (forall x, upper e1 x = upper e2 x).

(** A computation whose outcome and requests do not depend on the state it
    starts in, and which does not read the clock. *)
Definition oblivious {A : Type} (m : M A) : Prop :=
  exists (r : result A) (ps : list page_info), forall s, m s = (r, sent s ps).

(** ** Chronological order *)

(** The day a date string stands for, as an ordinal. *)
Definition date_ordinal (v : json) : option Z :=
  match strptime_obj v "%Y-%m-%d" with
  | Ok t => Some (toordinal t)
  | Raise _ => None
  end.

(** Both are dates and the first is not after the second. *)
Definition date_le (a b : json) : Prop :=
  exists x y, date_ordinal a = Some x /\ date_ordinal b = Some y /\ x <= y.

Definition day_le (d1 d2 : Day) : Prop :=
  date_le (JStr (day_date d1)) (JStr (day_date d2)).

(** The day [d] is dated within the sub-range [c]. *)
Definition dated_within (c : datetime * datetime) (d : Day) : Prop :=
  exists k, date_ordinal (JStr (day_date d)) = Some k
            /\ toordinal (fst c) <= k <= toordinal (snd c).

(** One sub-range ends before the other starts. *)
Definition before (c1 c2 : datetime * datetime) : Prop :=
  toordinal (snd c1) < toordinal (fst c2).

(** C7 as the specification states it: each sub-range is answered with days
    in ascending date order, and the dates of the returned records never
    decrease. *)
Definition ascending_as_delivered (schedule : string -> string -> list Day)
  (df dt : datetime) : Prop :=
  forall c, In c (chunks df dt) ->
    Sorted day_le (schedule (chunk_from c) (chunk_to c)).

Definition dates_never_decrease (env : Env) (from_date to_date : string)
  (preseason not_over : bool) (s : State) : Prop :=
  exists out,
    fst (scrape_schedule env from_date to_date preseason not_over s) = Ok out
    /\ Sorted date_le (map date out).

(** ** Dates for a set of games *)

(** [x] is in [l] and no string of [l] comes before it. *)
Definition is_least (x : string) (l : list string) : Prop :=
  In x l /\ forall y, In y l -> String.leb x y = true.

Definition is_greatest (x : string) (l : list string) : Prop :=
  In x l /\ forall y, In y l -> String.leb y x = true.

(** September 1 of the season an identifier starts with, and July 1 of the
    year after [y], the way [get_dates] writes them. *)
Definition season_start (id : string) : string := str_take 4 id ++ "-9-1".

Definition season_end (y : Z) : string := str_of_int (y + 1) ++ "-7-1".

(** The date of [d], the way [get_dates] writes today's date. *)
Definition today_string (d : datetime) : string :=
  str_of_int (year d) ++ "-" ++ str_of_int (month d) ++ "-"
  ++ str_of_int (day d).

(** A finished run of [scrape_schedule] cut down to the records whose
    identifier, as a string, is one of [ids]. *)
Definition restricted_to (ids : list string)
  (run : result (list GameRecord) * State) : result (list GameRecord) * State :=
  match run with
  | (Ok schedule, s) =>
      (Ok (filter (fun game => str_in (py_str (game_id game)) ids) schedule), s)
  | (Raise e, s) => (Raise e, s)
  end.

(** The state after [n] more readings of the clock. *)
Definition read_clock (s : State) (n : nat) : State :=
  mk_State (fetched s) (n + ticks s).

(* ===================================================================== *)
(** * The vocabulary of further properties                              *)
(* ===================================================================== *)

(** ** Tables *)

(** [p] holds of [k], [k+1], ..., [k+fuel-1]. *)
Fixpoint all_from (fuel : nat) (k : Z) (p : Z -> bool) : bool :=
  match fuel with
  | O => true
  | S fuel' => p k && all_from fuel' (k + 1) p
  end.

(** The conjunction of [P x] over the [x] of a list. *)
Fixpoint conj_all {A : Type} (P : A -> Prop) (l : list A) : Prop :=
  match l with
  | [] => True
  | x :: l' => P x /\ conj_all P l'
  end.

(** ** The calendar and printed dates *)

(** The day [r] of a 400-year cycle converts to a date of the first cycle
    and back. *)
Definition in_cycle (r : Z) : bool :=
  let '(y, m, d) := _ord2ymd (r + 1) in
  (1 <=? y) && (y <=? 400) && (1 <=? m) && (m <=? 12)
  && (1 <=? d) && (d <=? _days_in_month y m)
  && (_ymd2ord y m d =? r + 1).

(** The value of a string of exactly four digits. *)
Definition four_digits (s : string) : option Z :=
  match s with
  | String a (String b (String c (String e EmptyString))) =>
      if is_digit a && is_digit b && is_digit c && is_digit e
      then Some (1000 * digit_value a + 100 * digit_value b
                 + 10 * digit_value c + digit_value e)
      else None
  | _ => None
  end.

(** The year [y] is printed as the four digits of [y]. *)
Definition year_printed (y : Z) : bool :=
  match four_digits (str_of_int y) with
  | Some v => v =? y
  | None => false
  end.

(** A string of digits. *)
Fixpoint all_digits (s : string) : bool :=
  match s with
  | EmptyString => true
  | String c s' => is_digit c && all_digits s'
  end.

(** [%m] and [%d] print [n] on two characters. *)
Definition two_printed (n : Z) : bool :=
  Nat.eqb (String.length (pad2 n)) 2.

(** The twelve months with days up to 31. *)
Definition months_days : list (Z * Z) :=
  flat_map (fun m => map (fun d => (Z.of_nat m, Z.of_nat d)) (seq 1 31))
    (seq 1 12).

(** Month and day, printed on two digits each around a dash, are read back
    by ["%m-%d"] as the first match, whatever the year read before. *)
Definition month_day_read (y : Z) (md : Z * Z) : Prop :=
  match match_format "%m-%d" (mk_fields y 1 1 0 0 0)
          (pad2 (fst md) ++ "-" ++ pad2 (snd md)) with
  | (f, EmptyString) :: _ => f = mk_fields y (fst md) (snd md) 0 0 0
  | _ => False
  end.

(** ** Printed numbers *)

(** The number a string of decimal digits stands for, read after [acc]. *)
Fixpoint uint_value (acc : Z) (u : Decimal.uint) : Z :=
  match u with
  | Decimal.Nil => acc
  | Decimal.D0 u' => uint_value (10 * acc + 0) u'
  | Decimal.D1 u' => uint_value (10 * acc + 1) u'
  | Decimal.D2 u' => uint_value (10 * acc + 2) u'
  | Decimal.D3 u' => uint_value (10 * acc + 3) u'
  | Decimal.D4 u' => uint_value (10 * acc + 4) u'
  | Decimal.D5 u' => uint_value (10 * acc + 5) u'
  | Decimal.D6 u' => uint_value (10 * acc + 6) u'
  | Decimal.D7 u' => uint_value (10 * acc + 7) u'
  | Decimal.D8 u' => uint_value (10 * acc + 8) u'
  | Decimal.D9 u' => uint_value (10 * acc + 9) u'
  end.

(** The digits left after the first [n]. *)
Fixpoint udrop (n : nat) (u : Decimal.uint) : Decimal.uint :=
  match n with
  | O => u
  | S n' =>
      match u with
      | Decimal.Nil => Decimal.Nil
      | Decimal.D0 u' | Decimal.D1 u' | Decimal.D2 u' | Decimal.D3 u'
      | Decimal.D4 u' | Decimal.D5 u' | Decimal.D6 u' | Decimal.D7 u'
      | Decimal.D8 u' | Decimal.D9 u' => udrop n' u'
      end
  end.

(** The number of digits of a printed number. *)
Definition digit_count (u : Decimal.uint) : Z :=
  Z.of_nat (Decimal.nb_digits u).

(** ** The loop of the chunker *)

(** One turn of the loop of [chunk_schedule_calls] for the sub-range [c]. *)
Definition chunk_step (env : Env) (sched : list json)
  (c : datetime * datetime) : M (list json) :=
  chunk_sched <- get_schedule env (chunk_from c) (chunk_to c) ;;
  dates <- lift (getitem chunk_sched "dates") ;;
  ret (sched ++ [dates])%list.

(** What the upstream makes of the sub-range [c]: the ["dates"] entry of its
    answer, or the exception of the fetcher, of the decoder or of the
    subscript. *)
Definition dates_of (env : Env) (c : datetime * datetime) : result json :=
  obj <- answer env (chunk_request env c) ;; getitem obj "dates".

(** ** Loops that append *)

(** A loop body that only ever appends to what it is given. *)
Definition appends {A R : Type} (body : list R -> A -> result (list R))
  : Prop :=
  forall acc x, body acc x = (out <- body [] x ;; ret (acc ++ out)%list).

(** The records of the sub-range [c], scraped on its own. *)
Definition scraped_alone (env : Env) (preseason not_over : bool) (s : State)
  (c : datetime * datetime) : result (list GameRecord) :=
  fst (scrape_schedule env (chunk_from c) (chunk_to c) preseason not_over s).

(** [l1] is [l2] with some elements left out. *)
Inductive subsequence {A : Type} : list A -> list A -> Prop :=
| subsequence_nil : subsequence [] []
| subsequence_keep (x : A) (l1 l2 : list A) :
    subsequence l1 l2 -> subsequence (x :: l1) (x :: l2)
| subsequence_drop (x : A) (l1 l2 : list A) :
    subsequence l1 l2 -> subsequence l1 (x :: l2).

(** ** Entries passed over, and deliveries with one bad entry *)

(** A game entry the two tests of [scrape_schedule] pass over: its state
    can be read and is not ["Final"] while unfinished games are not asked
    for, or its identifier can be read and decodes outside the range asked
    for. *)
Definition passed_over (preseason not_over : bool) (game : json) : Prop :=
  exists st v,
    getitem game "status" = Ok st /\ getitem st "detailedState" = Ok v
    /\ (eq_str v "Final" || not_over = false
        \/ exists pk k,
             getitem game "gamePk" = Ok pk
             /\ py_int (str_drop 5 (py_str pk)) = Ok k
             /\ ((20000 <=? k) || preseason) && (k <? 40000) = false).

(** A day entry with a list of games that are all passed over. *)
Definition day_passed_over (preseason not_over : bool) (day : json) : Prop :=
  exists games,
    getitem day "games" = Ok (JList games)
    /\ Forall (passed_over preseason not_over) games.

(** The days of a delivery in which the game entry [bad] follows well-formed
    days and games. *)
Definition delivery_with (good_chunks : list (list Day)) (good_days : list Day)
  (date : string) (good_games : list Game) (bad : json)
  (later_games later_days later_chunks : list json) : list json :=
  (map enc_dates good_chunks
   ++ JList (map enc_day good_days
             ++ day_with date (map enc_game good_games ++ bad :: later_games)
                :: later_days)
      :: later_chunks)%list.

(** ** Sets of identifiers *)

(** Two lists of identifiers that print to the same set of strings. *)
Definition same_ids (games1 games2 : list json) : Prop :=
  forall x, In x (map py_str games1) <-> In x (map py_str games2).

(** ** The range [get_dates] asks for *)

(** Month and day, printed without padding around a dash, are read back by
    ["%m-%d"] as the first match, whatever the year read before. *)
Definition month_day_read_plain (y : Z) (md : Z * Z) : Prop :=
  match match_format "%m-%d" (mk_fields y 1 1 0 0 0)
          (str_of_int (fst md) ++ "-" ++ str_of_int (snd md)) with
  | (f, EmptyString) :: _ => f = mk_fields y (fst md) (snd md) 0 0 0
  | _ => False
  end.

(** September 1 and July 1 of the year [y], and the day of [now], at
    midnight. *)
Definition september_1 (y : Z) : datetime := mk_datetime (_ymd2ord y 9 1) 0.

Definition july_1 (y : Z) : datetime := mk_datetime (_ymd2ord y 7 1) 0.

Definition midnight (now : datetime) : datetime :=
  mk_datetime (toordinal now) 0.

(* ===================================================================== *)
(** * A small upstream to run the module against                          *)
(* ===================================================================== *)

Module Demo.

Definition senators_leafs : Game :=
  mk_Game 2016020001 "2016-10-12T23:00:00Z" "Final" "Final"
    (Some "Canadian Tire Centre")
    (mk_Side "Ottawa Senators" (Some 5))
    (mk_Side "Toronto Maple Leafs" (Some 4)).

Definition blues_hawks : Game :=
  mk_Game 2016020002 "2016-10-13T00:00:00Z" "Scheduled" "Preview"
    None
    (mk_Side "Chicago Blackhawks" None)
    (mk_Side "St. Louis Blues" None).

Definition preseason_game : Game :=
  mk_Game 2016010001 "2016-09-25T21:00:00Z" "Final" "Final"
    (Some "Scotiabank Saddledome")
    (mk_Side "Calgary Flames" (Some 2))
    (mk_Side "Edmonton Oilers" (Some 1)).

(** The days the upstream knows, in calendar order. *)
Definition season : list Day :=
  [mk_Day "2016-09-25" [preseason_game];
   mk_Day "2016-10-12" [senators_leafs; blues_hawks]].

(** The days between two dates, the way the endpoint selects them. *)
Definition between (a b : string) (days : list Day) : list Day :=
  filter (fun d => String.leb a (day_date d) && String.leb (day_date d) b) days.

(** The fetcher answers with the name of the request, two dates of ten
    characters around an underscore, and the decoder reads the schedule of
    those dates from it. *)
Definition schedule_of (days : list Day) (a b : string) : list Day :=
  let text := a ++ "_" ++ b in
  between (str_take 10 text) (str_drop 11 text) days.

Definition upper_char (c : ascii) : ascii :=
  let n := nat_of_ascii c in
  if (Nat.leb 97 n && Nat.leb n 122)%bool then ascii_of_nat (n - 32) else c.

Fixpoint ascii_upper (s : string) : string :=
  match s with
  | EmptyString => EmptyString
  | String c s' => String (upper_char c) (ascii_upper s')
  end.

Definition env_serving (response : string -> json) (now : nat -> datetime)
  : Env :=
  mk_Env
    (fun d => JStr (str_take 4 d))
    (fun p => Ok (name p))
    (fun team => team)
    (fun text => Ok (response text))
    ascii_upper
    now.

Definition env_at (days : list Day) (now : nat -> datetime) : Env :=
  env_serving
    (fun text => enc_response
                   (between (str_take 10 text) (str_drop 11 text) days))
    now.

(** An upstream whose only game entry has lost its ["teams"]. *)
Definition env_without_teams : Env :=
  env_serving
    (fun _ => JDict [("dates",
                      JList [JDict [("date", JStr "2016-10-12");
                                    ("games",
                                     JList [without "teams" senators_leafs])]])])
    (fun _ => mk_datetime 736754 43200).

(** The clock stands at 2018-03-01 in [env] and at 2016-10-20 in
    [env_in_season]. *)
Definition env : Env := env_at season (fun _ => mk_datetime 736754 43200).

Definition env_in_season : Env :=
  env_at season (fun _ => mk_datetime 736257 43200).

Definition start : State := mk_State [] 0.

End Demo.

(** Further upstreams: entries stripped down, entries that lack a key or
    hold a value that cannot be read, and an upstream that stops
    answering. *)
Module Cases.

(** Two entries stripped down to what the tests read: a postponed game, and
    a finished all-star game. *)
Definition bare_dates : json :=
  JList
    [JDict
       [("games",
         JList [JDict [("status", JDict [("detailedState", JStr "Postponed")])];
                JDict [("gamePk", JInt 2016040001);
                       ("status", JDict [("detailedState", JStr "Final")])]])]].

Definition env_bare : Env :=
  Demo.env_serving (fun _ => JDict [("dates", bare_dates)])
    (fun _ => mk_datetime 736754 43200).

(** An upstream whose only game entry has lost its ["venue"]. *)
Definition env_without_venue : Env :=
  Demo.env_serving
    (fun _ => JDict [("dates",
                      JList [day_with "2016-10-12"
                               [without "venue" Demo.senators_leafs]])])
    (fun _ => mk_datetime 736754 43200).

(** An upstream whose only game entry has a time stamp that is no time. *)
Definition untimed : Game :=
  mk_Game 2016020001 "2016-10-12 19:00Z" "Final" "Final" None
    (mk_Side "Ottawa Senators" (Some 5))
    (mk_Side "Toronto Maple Leafs" (Some 4)).

Definition env_untimed : Env :=
  Demo.env_serving
    (fun _ => JDict [("dates",
                      JList [day_with "2016-10-12" [enc_game untimed]])])
    (fun _ => mk_datetime 736754 43200).

(** An upstream that answers the first hundred days of 2016 and sends an
    object without ["dates"] for every other request. *)
Definition env_failing : Env :=
  Demo.env_serving
    (fun text => if String.eqb text "2016-01-01_2016-04-09"
                 then enc_response []
                 else JDict [])
    (fun _ => mk_datetime 736754 43200).

(** An upstream that answers the sub-range starting on 2016-09-01 with
    2016-10-12 and every other one with 2016-09-25; it reads the start of
    the sub-range off the name of the request. *)
Definition swapped_days (text : string) : list Day :=
  if String.eqb (str_take 10 text) "2016-09-01"
  then [mk_Day "2016-10-12" [Demo.senators_leafs]]
  else [mk_Day "2016-09-25" [Demo.preseason_game]].

Definition swapped (a b : string) : list Day := swapped_days (a ++ "_" ++ b).

Definition env_swapped : Env :=
  Demo.env_serving (fun text => enc_response (swapped_days text))
    (fun _ => mk_datetime 736754 43200).

End Cases.

(* ===================================================================== *)
(** * The runtime on examples                                            *)
(* ===================================================================== *)

Example strptime_ex1 :
  strptime "2016-9-1" "%Y-%m-%d" = Ok (mk_datetime 736208 0).
Proof. reflexivity. Qed.

Example strptime_ex2 :
  strptime "2016-09-01" "%Y-%m-%d" = Ok (mk_datetime 736208 0)
  /\ strptime "2016-10-12T23:00:00" "%Y-%m-%dT%H:%M:%S"
     = Ok (mk_datetime 736249 82800)
  /\ strptime "2016-02-30" "%Y-%m-%d" = Raise ValueError
  /\ strptime "2016-02-29" "%Y-%m-%d" = Ok (mk_datetime 736023 0)
  /\ strptime "2016-09-011" "%Y-%m-%d" = Raise ValueError
  /\ strptime "16-09-01" "%Y-%m-%d" = Raise ValueError.
Proof. repeat split; reflexivity. Qed.

Example strftime_ex :
  strftime (mk_datetime 736208 0) "%Y-%m-%d" = "2016-09-01"
  /\ strftime (mk_datetime 736338 0) "%Y-%m-%d" = "2017-01-09"
  /\ strftime (mk_datetime _MAXORDINAL 0) "%Y-%m-%d" = "9999-12-31"
  /\ strftime (mk_datetime 1 0) "%Y-%m-%d" = "1-01-01"
  /\ strftime (mk_datetime 365242 0) "%Y-%m-%d" = "1000-12-31".
Proof. repeat split; reflexivity. Qed.

(* ===================================================================== *)
(** * The normalizer on typed data                                        *)
(* ===================================================================== *)

Section Normalizer.

Variable env : Env.
Variables preseason not_over : bool.

Lemma game_record_typed (date : string) (entries : list json) (g : Game)
  (t : datetime) :
  game_time g = Ok t ->
  game_record env (day_with date entries) (enc_game g)
  = Ok (record_of env date g t).
Proof.
  unfold game_time, game_record, record_of.
  destruct g as [pk gd ds ags vn [hn hs] [an aw]].
  cbn [gameDate]. intros Ht.
  destruct vn, hs, aw; cbn -[strptime str_init]; rewrite Ht; reflexivity.
Qed.

Lemma scrape_game_typed (date : string) (entries : list json) (g : Game)
  (schedule : list GameRecord) :
  well_formed g = true ->
  scrape_game env preseason not_over (day_with date entries) schedule
    (enc_game g)
  = Ok (schedule ++ records_of_game env preseason not_over date g)%list.
Proof.
  unfold well_formed. intros Hwf.
  apply andb_prop in Hwf. destruct Hwf as [Hid Htime].
  destruct (decoded_id (gamePk g)) as [k|] eqn:Ek; [|discriminate].
  destruct (game_time g) as [t|] eqn:Et; [|discriminate].
  unfold scrape_game, records_of_game, kept, completed, in_game_type_range.
  cbn [enc_game game_entries enc_status getitem assoc String.eqb Ascii.eqb
       Bool.eqb bind Monad_result ret eq_str].
  fold (decoded_id (gamePk g)). rewrite Ek, Et.
  destruct (String.eqb (detailedState g) "Final" || not_over).
  - cbn [andb].
    destruct (((20000 <=? k) || preseason) && (k <? 40000)).
    + fold (game_entries g). fold (enc_game g).
      rewrite (game_record_typed date entries g t Et). reflexivity.
    + rewrite app_nil_r. reflexivity.
  - cbn [andb]. rewrite app_nil_r. reflexivity.
Qed.

Lemma scrape_games_typed (date : string) (entries : list json)
  (gs : list Game) :
  forall schedule : list GameRecord,
    forallb well_formed gs = true ->
    for_each (map enc_game gs) schedule
      (scrape_game env preseason not_over (day_with date entries))
    = Ok (schedule
          ++ flat_map (records_of_game env preseason not_over date) gs)%list.
Proof.
  induction gs as [|g gs IH]; intros schedule Hwf.
  - simpl. rewrite app_nil_r. reflexivity.
  - simpl in Hwf. apply andb_prop in Hwf. destruct Hwf as [Hg Hgs].
    cbn [map for_each bind Monad_result flat_map].
    rewrite (scrape_game_typed date entries g schedule Hg).
    rewrite (IH _ Hgs), <- app_assoc. reflexivity.
Qed.

Lemma scrape_day_typed (d : Day) (schedule : list GameRecord) :
  day_well_formed d = true ->
  scrape_day env preseason not_over schedule (enc_day d)
  = Ok (schedule ++ records_of_day env preseason not_over d)%list.
Proof.
  intros Hwf. unfold scrape_day, records_of_day, enc_day.
  change (getitem (day_with (day_date d) (map enc_game (games d))) "games")
    with (Ok (JList (map enc_game (games d)))).
  cbn [bind Monad_result py_iter].
  apply scrape_games_typed, Hwf.
Qed.

Lemma scrape_days_typed (days : list Day) :
  forall schedule : list GameRecord,
    forallb day_well_formed days = true ->
    for_each (map enc_day days) schedule (scrape_day env preseason not_over)
    = Ok (schedule ++ records_of env preseason not_over days)%list.
Proof.
  induction days as [|d days IH]; intros schedule Hwf.
  - simpl. rewrite app_nil_r. reflexivity.
  - simpl in Hwf. apply andb_prop in Hwf. destruct Hwf as [Hd Hdays].
    cbn [map for_each bind Monad_result].
    rewrite (scrape_day_typed d schedule Hd).
    rewrite (IH _ Hdays). unfold records_of. cbn [flat_map].
    rewrite <- app_assoc. reflexivity.
Qed.

Lemma scrape_chunk_typed (days : list Day) (schedule : list GameRecord) :
  forallb day_well_formed days = true ->
  scrape_chunk env preseason not_over schedule (enc_dates days)
  = Ok (schedule ++ records_of env preseason not_over days)%list.
Proof.
  intros Hwf. unfold scrape_chunk, enc_dates.
  cbn [bind Monad_result py_iter].
  apply scrape_days_typed, Hwf.
Qed.

Lemma scrape_chunks_typed (chunks : list (list Day)) :
  forall schedule : list GameRecord,
    forallb (forallb day_well_formed) chunks = true ->
    for_each (map enc_dates chunks) schedule
      (scrape_chunk env preseason not_over)
    = Ok (schedule ++ records_of env preseason not_over (List.concat chunks))%list.
Proof.
  induction chunks as [|c chunks IH]; intros schedule Hwf.
  - simpl. rewrite app_nil_r. reflexivity.
  - simpl in Hwf. apply andb_prop in Hwf. destruct Hwf as [Hc Hchunks].
    cbn [map for_each bind Monad_result List.concat].
    rewrite (scrape_chunk_typed c schedule Hc).
    rewrite (IH _ Hchunks). unfold records_of.
    rewrite flat_map_app, <- app_assoc. reflexivity.
Qed.

End Normalizer.

(* ===================================================================== *)
(** * Calendar facts                                                      *)
(* ===================================================================== *)

Section Calendar.

Lemma days_before_next_year (y : Z) :
  _days_before_year (y + 1)
  = _days_before_year y + 365 + (if _is_leap y then 1 else 0).
Proof.
  unfold _days_before_year, _is_leap.
  replace (y + 1 - 1) with y by lia.
  destruct (Z.eqb_spec (y mod 4) 0), (Z.eqb_spec (y mod 100) 0),
    (Z.eqb_spec (y mod 400) 0); cbn [negb andb orb];
    Z.to_euclidean_division_equations; lia.
Qed.

Lemma days_before_year_bounds (y : Z) :
  1 <= y <= 10000 -> 0 <= _days_before_year y <= _MAXORDINAL.
Proof.
  unfold _days_before_year, _MAXORDINAL. intros Hy.
  Z.to_euclidean_division_equations. lia.
Qed.

Lemma day_of_year_bounds (y m d : Z) :
  1 <= m <= 12 -> 1 <= d <= _days_in_month y m ->
  1 <= _days_before_month y m + d <= 365 + (if _is_leap y then 1 else 0).
Proof.
  intros Hm. unfold _days_in_month, _days_before_month.
  assert (Hcases : m = 1 \/ m = 2 \/ m = 3 \/ m = 4 \/ m = 5 \/ m = 6 \/ m = 7
                   \/ m = 8 \/ m = 9 \/ m = 10 \/ m = 11 \/ m = 12) by lia.
  destruct (_is_leap y);
    repeat (destruct Hcases as [->|Hcases]); try subst m;
    repeat match goal with
      | |- context [nth ?n ?l ?x] =>
          let v := eval vm_compute in (nth n l x) in
          change (nth n l x) with v
      end;
    cbn -[Z.add]; lia.
Qed.

Lemma ymd2ord_bounds (y m d : Z) :
  1 <= y <= 9999 -> 1 <= m <= 12 -> 1 <= d <= _days_in_month y m ->
  1 <= _ymd2ord y m d <= _MAXORDINAL.
Proof.
  intros Hy Hm Hd. unfold _ymd2ord.
  pose proof (day_of_year_bounds y m d Hm Hd) as Hdoy.
  pose proof (days_before_next_year y) as Hnext.
  pose proof (days_before_year_bounds y ltac:(lia)) as Hlo.
  pose proof (days_before_year_bounds (y + 1) ltac:(lia)) as Hhi.
  lia.
Qed.

Lemma make_valid (f : fields) (d : datetime) :
  make f = Ok d ->
  1 <= toordinal d <= _MAXORDINAL
  /\ second_of_day d = 3600 * f_hour f + 60 * f_minute f + f_second f.
Proof.
  unfold make.
  destruct (_ && _) eqn:E; [|discriminate].
  intros [= <-]. cbn [toordinal second_of_day].
  repeat (apply andb_prop in E; destruct E as [E ?]).
  split; [|reflexivity].
  apply ymd2ord_bounds; lia.
Qed.

Lemma in_bind {A B : Type} (p : matcher A) (k : A -> matcher B)
  (s : string) (b : B) (s' : string) :
  In (b, s') ((x <- p ;; k x) s) ->
  exists a s1, In (a, s1) (p s) /\ In (b, s') (k a s1).
Proof.
  cbn [bind Monad_matcher]. intros H.
  apply in_flat_map in H. destruct H as [[a s1] [H1 H2]].
  exists a, s1. split; assumption.
Qed.

Lemma in_ret {A : Type} (a b : A) (s s' : string) :
  In (b, s') ((ret a : matcher A) s) -> b = a /\ s' = s.
Proof.
  cbn [ret Monad_matcher]. intros [[= <- <-]|[]]. split; reflexivity.
Qed.

Lemma date_format_at_midnight (f0 f : fields) (data rest : string) :
  at_midnight f0 ->
  In (f, rest) (match_format "%Y-%m-%d" f0 data) ->
  at_midnight f.
Proof.
  intros H0 Hin. cbn [match_format] in Hin.
  apply in_bind in Hin. destruct Hin as (f1 & s1 & HY & Hin).
  apply in_bind in Hin. destruct Hin as ([] & s2 & _ & Hin).
  apply in_bind in Hin. destruct Hin as (f2 & s3 & Hm & Hin).
  apply in_bind in Hin. destruct Hin as ([] & s4 & _ & Hin).
  apply in_bind in Hin. destruct Hin as (f3 & s5 & Hd & Hin).
  apply in_ret in Hin. destruct Hin as [-> ->].
  assert (H1 : at_midnight f1).
  { unfold directive in HY. cbn [Ascii.eqb Bool.eqb] in HY.
    repeat (apply in_bind in HY; destruct HY as (? & ? & _ & HY)).
    apply in_ret in HY. destruct HY as [-> _]. exact H0. }
  assert (H2 : at_midnight f2).
  { unfold directive in Hm. cbn [Ascii.eqb Bool.eqb] in Hm.
    apply in_bind in Hm. destruct Hm as (? & ? & _ & Hm).
    apply in_ret in Hm. destruct Hm as [-> _]. exact H1. }
  unfold directive in Hd. cbn [Ascii.eqb Bool.eqb] in Hd.
  apply in_bind in Hd. destruct Hd as (? & ? & _ & Hd).
  apply in_ret in Hd. destruct Hd as [-> _]. exact H2.
Qed.

(** A date parsed with ["%Y-%m-%d"] is a day of the calendar, at
    midnight. *)
Lemma strptime_date_valid (data : string) (d : datetime) :
  strptime data "%Y-%m-%d" = Ok d ->
  1 <= toordinal d <= _MAXORDINAL /\ second_of_day d = 0.
Proof.
  unfold strptime.
  destruct (match_format "%Y-%m-%d" _ data) as [|[f rest] l] eqn:E;
    [discriminate|].
  destruct rest; [|discriminate].
  intros Hmake.
  assert (Hmid : at_midnight f).
  { apply (date_format_at_midnight (mk_fields 1900 1 1 0 0 0) f data "").
    - repeat split.
    - rewrite E. left. reflexivity. }
  destruct (make_valid f d Hmake) as [Hord Hsec].
  destruct Hmid as (Hh & Hm & Hs).
  split; [exact Hord|]. rewrite Hsec, Hh, Hm, Hs. reflexivity.
Qed.

End Calendar.

Section Chunker.

Variable env : Env.

Lemma sent_nil (s : State) : sent s [] = s.
Proof. destruct s. unfold sent. cbn. rewrite app_nil_r. reflexivity. Qed.

Lemma sent_sent (s : State) (ps qs : list page_info) :
  sent (sent s ps) qs = sent s (ps ++ qs)%list.
Proof. unfold sent. cbn. rewrite app_assoc. reflexivity. Qed.

Lemma get_schedule_run (a b : string) (s : State) :
  get_schedule env a b s
  = (answer env (request_for env a b), sent s [request_for env a b]).
Proof.
  unfold get_schedule, answer, fetch, lift. fold (request_for env a b).
  cbn [bind Monad_M Monad_result].
  destruct (get_file env (request_for env a b)); reflexivity.
Qed.

(** A loop whose body appends one item and sends one request per element. *)
Lemma for_each_sending {A B : Type} (xs : list A)
  (body : list B -> A -> M (list B)) (f : A -> B) (g : A -> page_info) :
  (forall x acc s, In x xs ->
     body acc x s = (Ok (acc ++ [f x])%list, sent s [g x])) ->
  forall acc s,
    for_each xs acc body s = (Ok (acc ++ map f xs)%list, sent s (map g xs)).
Proof.
  induction xs as [|x xs IH]; intros Hbody acc s.
  - cbn. rewrite app_nil_r, sent_nil. reflexivity.
  - cbn [for_each bind Monad_M map].
    rewrite (Hbody x acc s (or_introl eq_refl)).
    rewrite IH by (intros; apply Hbody; right; assumption).
    rewrite sent_sent, <- app_assoc. reflexivity.
Qed.

Lemma py_range_bounds (stop step offset : Z) :
  0 < step -> In offset (py_range stop step) -> 0 <= offset < stop.
Proof.
  unfold py_range. intros Hstep Hin.
  apply in_map_iff in Hin. destruct Hin as (i & <- & Hi).
  apply in_seq in Hi.
  assert (Hk : Z.of_nat i < (stop + step - 1) / step) by lia.
  assert (Hm : Z.of_nat i * step <= stop - 1).
  { assert (Z.of_nat i + 1 <= (stop + step - 1) / step) by lia.
    pose proof (Z.mul_div_le (stop + step - 1) step Hstep).
    nia. }
  lia.
Qed.

Lemma chunk_schedule_calls_run (from_date to_date : string)
  (df dt : datetime) (dates : string -> string -> json) (s : State) :
  strptime from_date "%Y-%m-%d" = Ok df ->
  strptime to_date "%Y-%m-%d" = Ok dt ->
  serves env dates ->
  chunk_schedule_calls env from_date to_date s
  = (Ok (map (fun c => dates (chunk_from c) (chunk_to c)) (chunks df dt)),
     sent s (map (chunk_request env) (chunks df dt))).
Proof.
  intros Hf Ht Hserves.
  destruct (strptime_date_valid _ _ Hf) as [Hfo Hfs].
  destruct (strptime_date_valid _ _ Ht) as [Hto Hts].
  unfold chunk_schedule_calls, lift.
  cbn [bind Monad_M]. rewrite Hf, Ht.
  unfold chunks. rewrite !map_map.
  set (num_days := sub_days dt df + 1).
  assert (Hn : num_days = toordinal dt - toordinal df + 1).
  { unfold num_days, sub_days. rewrite Hfs, Hts.
    replace (86400 * (toordinal dt - toordinal df) + (0 - 0))
      with ((toordinal dt - toordinal df) * 86400) by lia.
    rewrite Z.div_mul by lia. reflexivity. }
  apply (for_each_sending (py_range num_days days_per_call) _
           (fun o => dates (chunk_from (chunk_bounds df num_days o))
                           (chunk_to (chunk_bounds df num_days o)))
           (fun o => chunk_request env (chunk_bounds df num_days o))).
  intros offset acc s0 Hin.
  apply py_range_bounds in Hin; [|reflexivity].
  unfold days_per_call, _MAXORDINAL in *.
  assert (Hadd1 : (delta <- timedelta offset ;; add df delta)
                  = Ok (fst (chunk_bounds df num_days offset))).
  { unfold timedelta, add, chunk_bounds, _MAXORDINAL. cbn [bind Monad_result fst].
    destruct (Z.leb_spec (Z.abs offset) 999999999); [|lia].
    destruct (Z.ltb_spec 0 (toordinal df + offset)); [|lia].
    destruct (Z.leb_spec (toordinal df + offset) 3652059); [|lia].
    reflexivity. }
  assert (Hadd2 : (delta <- timedelta (Z.min (num_days - 1) (offset + 100 - 1)) ;;
                   add df delta)
                  = Ok (snd (chunk_bounds df num_days offset))).
  { unfold timedelta, add, chunk_bounds, days_per_call, _MAXORDINAL.
    cbn [bind Monad_result snd].
    set (e := Z.min (num_days - 1) (offset + 100 - 1)).
    assert (0 <= e <= num_days - 1) by (unfold e; lia).
    destruct (Z.leb_spec (Z.abs e) 999999999); [|lia].
    destruct (Z.ltb_spec 0 (toordinal df + e)); [|lia].
    destruct (Z.leb_spec (toordinal df + e) 3652059); [|lia].
    reflexivity. }
  cbn [bind Monad_M]. rewrite Hadd1. rewrite Hadd2.
  rewrite get_schedule_run.
  fold (chunk_from (chunk_bounds df num_days offset)).
  fold (chunk_to (chunk_bounds df num_days offset)).
  destruct (Hserves (chunk_from (chunk_bounds df num_days offset))
                    (chunk_to (chunk_bounds df num_days offset)))
    as (obj & Hobj & Hdates).
  rewrite Hobj, Hdates. reflexivity.
Qed.

End Chunker.

(** ** The sub-ranges partition the range *)

Section Partition.

Lemma day_range_shift (a : Z) (q : nat) :
  forall p s : nat,
    map (fun i => a + Z.of_nat i) (seq (p + s) q)
    = map (fun i => a + Z.of_nat p + Z.of_nat i) (seq s q).
Proof.
  induction q as [|q IH]; intros p s; cbn [seq map].
  - reflexivity.
  - f_equal; [lia|].
    replace (S (p + s)) with (p + S s)%nat by lia. apply IH.
Qed.

Lemma day_range_app (a b c : Z) :
  a <= b + 1 -> b <= c ->
  (day_range a b ++ day_range (b + 1) c)%list = day_range a c.
Proof.
  intros Hab Hbc. unfold day_range.
  replace (Z.to_nat (c - a + 1))
    with (Z.to_nat (b - a + 1) + Z.to_nat (c - (b + 1) + 1))%nat by lia.
  rewrite seq_app, map_app. f_equal.
  replace (0 + Z.to_nat (b - a + 1))%nat
    with (Z.to_nat (b - a + 1) + 0)%nat by lia.
  rewrite day_range_shift.
  apply map_ext. intros i. lia.
Qed.

Lemma day_range_empty (a b : Z) : b < a -> day_range a b = [].
Proof.
  intros H. unfold day_range.
  replace (Z.to_nat (b - a + 1)) with 0%nat by lia. reflexivity.
Qed.

Variable from_date : datetime.
Variable num_days : Z.
Hypothesis num_days_pos : 1 <= num_days.

Notation a := (toordinal from_date).
Notation count := (chunk_count num_days).

Lemma count_spec :
  (1 <= count)%nat
  /\ 100 * (Z.of_nat count - 1) < num_days <= 100 * Z.of_nat count.
Proof.
  unfold count, days_per_call.
  pose proof (Z.mul_div_le (num_days + 100 - 1) 100 ltac:(lia)).
  pose proof (Z.mul_succ_div_gt (num_days + 100 - 1) 100 ltac:(lia)).
  assert (1 <= (num_days + 100 - 1) / 100).
  { apply Z.div_le_lower_bound; lia. }
  lia.
Qed.

Lemma chunks_cover_prefix (j : nat) :
  (j <= count)%nat ->
  flat_map days_of (map (chunk_bounds from_date num_days)
                        (map offset_of (seq 0 j)))
  = day_range a (a + Z.min num_days (100 * Z.of_nat j) - 1).
Proof.
  destruct count_spec as [_ Hcount].
  induction j as [|j IH]; intros Hj.
  - cbn [seq map flat_map]. rewrite day_range_empty; [reflexivity|lia].
  - rewrite seq_S, !map_app, flat_map_app, IH by lia.
    cbn [map flat_map Nat.add]. rewrite app_nil_r.
    unfold days_of, chunk_bounds, offset_of, days_per_call.
    cbn [fst snd toordinal]. fold a.
    replace (a + Z.of_nat j * 100)
      with (a + Z.min num_days (100 * Z.of_nat j) - 1 + 1) by lia.
    replace (a + Z.min (num_days - 1) (Z.of_nat j * 100 + 100 - 1))
      with (a + Z.min num_days (100 * Z.of_nat (S j)) - 1) by lia.
    apply day_range_app; lia.
Qed.

Lemma chunks_cover :
  flat_map days_of (map (chunk_bounds from_date num_days)
                        (py_range num_days days_per_call))
  = day_range a (a + num_days - 1).
Proof.
  destruct count_spec as [_ Hcount].
  unfold py_range. fold count. fold offset_of.
  rewrite chunks_cover_prefix by lia.
  f_equal. lia.
Qed.

Lemma chunks_span :
  Forall (fun c => 1 <= toordinal (snd c) - toordinal (fst c) + 1 <= 100)
    (map (chunk_bounds from_date num_days) (py_range num_days days_per_call)).
Proof.
  apply Forall_forall. intros c Hin.
  apply in_map_iff in Hin. destruct Hin as (o & <- & Ho).
  apply py_range_bounds in Ho; [|reflexivity].
  unfold chunk_bounds, days_per_call. cbn [fst snd toordinal]. lia.
Qed.

Lemma chunks_first :
  exists rest,
    map (chunk_bounds from_date num_days) (py_range num_days days_per_call)
    = (from_date,
       mk_datetime (a + Z.min (num_days - 1) 99) (second_of_day from_date))
        :: rest.
Proof.
  destruct count_spec as [Hc _].
  unfold py_range. fold count. destruct count as [|k]; [lia|].
  cbn [seq map]. eexists. f_equal.
  unfold chunk_bounds, days_per_call. cbn. fold a.
  destruct from_date as [o sec]. cbn. f_equal. f_equal. lia.
Qed.

Lemma chunks_last :
  exists init first_day,
    map (chunk_bounds from_date num_days) (py_range num_days days_per_call)
    = (init ++ [(first_day,
                 mk_datetime (a + num_days - 1) (second_of_day from_date))])%list.
Proof.
  destruct count_spec as [Hc Hcount].
  unfold py_range. fold count. destruct count as [|k] eqn:Ek; [lia|].
  rewrite seq_S, !map_app. cbn [map Nat.add].
  eexists. eexists. f_equal. f_equal.
  unfold chunk_bounds, days_per_call. cbn [fst snd]. fold a.
  f_equal. f_equal. lia.
Qed.

Lemma chunks_adjacent (i : nat) (c1 c2 : datetime * datetime) :
  let cs := map (chunk_bounds from_date num_days)
                (py_range num_days days_per_call) in
  nth_error cs i = Some c1 -> nth_error cs (S i) = Some c2 ->
  toordinal (fst c2) = toordinal (snd c1) + 1.
Proof.
  destruct count_spec as [_ Hcount].
  cbn zeta. unfold py_range. fold count. rewrite !map_map.
  intros H1 H2.
  assert (Hlt : (S i < count)%nat).
  { apply nth_error_Some_lt in H2 || idtac.
    assert (Hsome : nth_error
      (map (fun x => chunk_bounds from_date num_days (Z.of_nat x * days_per_call))
           (seq 0 count)) (S i) <> None) by congruence.
    apply nth_error_Some in Hsome.
    rewrite length_map, length_seq in Hsome. exact Hsome. }
  rewrite nth_error_map, nth_error_seq in H1, H2.
  destruct (Nat.ltb_spec i count); [|lia].
  destruct (Nat.ltb_spec (S i) count); [|lia].
  cbn [option_map Nat.add] in H1, H2.
  injection H1 as <-. injection H2 as <-.
  unfold chunk_bounds, days_per_call. cbn [fst snd toordinal]. lia.
Qed.

End Partition.

Section ChunkerClaims.

Variable env : Env.

Lemma num_days_of_dates (from_date to_date : string) (df dt : datetime) :
  strptime from_date "%Y-%m-%d" = Ok df ->
  strptime to_date "%Y-%m-%d" = Ok dt ->
  sub_days dt df + 1 = toordinal dt - toordinal df + 1
  /\ second_of_day df = second_of_day dt.
Proof.
  intros Hf Ht.
  destruct (strptime_date_valid _ _ Hf) as [_ Hfs].
  destruct (strptime_date_valid _ _ Ht) as [_ Hts].
  unfold sub_days. rewrite Hfs, Hts. split; [|reflexivity].
  replace (86400 * (toordinal dt - toordinal df) + (0 - 0))
    with ((toordinal dt - toordinal df) * 86400) by lia.
  rewrite Z.div_mul by lia. reflexivity.
Qed.

Lemma chunks_partition (from_date to_date : string) (df dt : datetime) :
  strptime from_date "%Y-%m-%d" = Ok df ->
  strptime to_date "%Y-%m-%d" = Ok dt ->
  toordinal df <= toordinal dt ->
  partitions_range (chunks df dt) df dt.
Proof.
  intros Hf Ht Hle.
  destruct (num_days_of_dates _ _ _ _ Hf Ht) as [Hn Hsec].
  unfold partitions_range, chunks. rewrite Hn.
  set (n := toordinal dt - toordinal df + 1).
  assert (Hpos : 1 <= n) by (unfold n; lia).
  repeat split.
  - rewrite (chunks_cover df n Hpos). f_equal. unfold n. lia.
  - exact (chunks_span df n).
  - exact (chunks_adjacent df n Hpos).
  - destruct (chunks_first df n Hpos) as [rest Hrest].
    rewrite Hrest. eauto.
  - destruct (chunks_last df n Hpos) as (init & first_day & Hlast).
    rewrite Hlast. exists init, first_day. do 3 f_equal.
    destruct dt as [o sec]. cbn [second_of_day toordinal] in *.
    rewrite Hsec. f_equal. unfold n. cbn [toordinal]. lia.
Qed.

Lemma chunks_single_day (d : datetime) : chunks d d = [(d, d)].
Proof.
  unfold chunks, sub_days.
  replace (86400 * (toordinal d - toordinal d)
           + (second_of_day d - second_of_day d)) with 0 by lia.
  change (py_range (0 / 86400 + 1) days_per_call) with [0].
  cbn [map]. unfold chunk_bounds, days_per_call.
  destruct d as [o sec]. cbn [toordinal second_of_day].
  replace (0 / 86400 + 1 - 1) with 0 by reflexivity.
  change (Z.min 0 (0 + 100 - 1)) with 0.
  rewrite Z.add_0_r. reflexivity.
Qed.

Lemma py_range_nonpositive (stop : Z) :
  stop <= 0 -> py_range stop days_per_call = [].
Proof.
  intros H. unfold py_range, days_per_call.
  assert ((stop + 100 - 1) / 100 <= 0).
  { apply Z.lt_succ_r. apply Z.div_lt_upper_bound; lia. }
  replace (Z.to_nat ((stop + 100 - 1) / 100)) with 0%nat by lia.
  reflexivity.
Qed.

(** With the end before the start the loop body never runs. *)
Lemma inverted_range_run (from_date to_date : string) (df dt : datetime)
  (preseason not_over : bool) (s : State) :
  strptime from_date "%Y-%m-%d" = Ok df ->
  strptime to_date "%Y-%m-%d" = Ok dt ->
  toordinal dt < toordinal df ->
  chunk_schedule_calls env from_date to_date s = (Ok [], s)
  /\ scrape_schedule env from_date to_date preseason not_over s = (Ok [], s).
Proof.
  intros Hf Ht Hlt.
  destruct (num_days_of_dates _ _ _ _ Hf Ht) as [Hn _].
  assert (Hchunk : chunk_schedule_calls env from_date to_date s = (Ok [], s)).
  { unfold chunk_schedule_calls, lift. cbn [bind Monad_M].
    rewrite Hf, Ht, Hn, py_range_nonpositive by lia. reflexivity. }
  split; [exact Hchunk|].
  unfold scrape_schedule. cbn [bind Monad_M]. rewrite Hchunk. reflexivity.
Qed.

End ChunkerClaims.

(** C2. For two dates with [date_from <= date_to], [chunk_schedule_calls]
    sends one request per sub-range, in order, and returns the ["dates"]
    entries of the answers in the same order; the sub-ranges split
    [date_from .. date_to] exactly (ascending, no gap, no overlap, first
    starts at [date_from], last ends at [date_to], at most 100 days each);
    equal dates give the single sub-range of that one day. *)
Theorem chunk_schedule_calls_partitions (env : Env)
  (from_date to_date : string) (df dt : datetime)
  (dates : string -> string -> json) (s : State) :
  strptime from_date "%Y-%m-%d" = Ok df ->
  strptime to_date "%Y-%m-%d" = Ok dt ->
  toordinal df <= toordinal dt ->
  serves env dates ->
  chunk_schedule_calls env from_date to_date s
  = (Ok (map (fun c => dates (chunk_from c) (chunk_to c)) (chunks df dt)),
     sent s (map (chunk_request env) (chunks df dt)))
  /\ partitions_range (chunks df dt) df dt
  /\ (df = dt -> chunks df dt = [(df, df)]).
Proof.
  intros Hf Ht Hle Hserves. split; [|split].
  - apply chunk_schedule_calls_run; assumption.
  - apply (chunks_partition from_date to_date); assumption.
  - intros <-. apply chunks_single_day.
Qed.

Lemma demo_serves (days : list Day) (now : nat -> datetime) :
  serves (Demo.env_at days now)
    (fun a b => enc_dates (Demo.schedule_of days a b)).
Proof. intros a b. eexists. split; reflexivity. Qed.

Lemma chunk_schedule_calls_partitions_witness :
  let df := mk_datetime 736208 0 in
  let dt := mk_datetime 736339 0 in
  let dates := fun a b => enc_dates (Demo.schedule_of Demo.season a b) in
  chunk_schedule_calls Demo.env "2016-09-01" "2017-01-10" Demo.start
  = (Ok (map (fun c => dates (chunk_from c) (chunk_to c)) (chunks df dt)),
     sent Demo.start (map (chunk_request Demo.env) (chunks df dt)))
  /\ partitions_range (chunks df dt) df dt
  /\ (df = dt -> chunks df dt = [(df, df)]).
Proof.
  intros df dt dates.
  apply (chunk_schedule_calls_partitions Demo.env "2016-09-01" "2017-01-10").
  - reflexivity.
  - reflexivity.
  - cbn. lia.
  - apply demo_serves.
Defined.

(** The run of the specification's example: two requests, the second one
    ending on 2017-01-10. *)
Example chunk_schedule_calls_two_chunks :
  map (fun p => name p)
    (fetched (snd (chunk_schedule_calls Demo.env "2016-09-01" "2017-01-10"
                     Demo.start)))
  = ["2016-09-01_2016-12-09"; "2016-12-10_2017-01-10"].
Proof. vm_compute. reflexivity. Qed.

Example chunk_schedule_calls_one_day :
  map (fun p => name p)
    (fetched (snd (chunk_schedule_calls Demo.env "2016-09-01" "2016-09-01"
                     Demo.start)))
  = ["2016-09-01_2016-09-01"].
Proof. vm_compute. reflexivity. Qed.

(** C10. For two dates that parse, with [date_from] after [date_to],
    [chunk_schedule_calls] returns the empty list, sends nothing and raises
    nothing, and [scrape_schedule] returns no record. *)
Theorem chunk_schedule_calls_inverted_empty (env : Env)
  (from_date to_date : string) (df dt : datetime)
  (preseason not_over : bool) (s : State) :
  strptime from_date "%Y-%m-%d" = Ok df ->
  strptime to_date "%Y-%m-%d" = Ok dt ->
  toordinal dt < toordinal df ->
  chunk_schedule_calls env from_date to_date s = (Ok [], s)
  /\ scrape_schedule env from_date to_date preseason not_over s = (Ok [], s).
Proof. apply inverted_range_run. Qed.

Lemma chunk_schedule_calls_inverted_empty_witness :
  chunk_schedule_calls Demo.env "2016-10-13" "2016-10-12" Demo.start
  = (Ok [], Demo.start)
  /\ scrape_schedule Demo.env "2016-10-13" "2016-10-12" false false Demo.start
     = (Ok [], Demo.start).
Proof.
  apply (chunk_schedule_calls_inverted_empty Demo.env "2016-10-13" "2016-10-12"
           (mk_datetime 736250 0) (mk_datetime 736249 0)).
  - reflexivity.
  - reflexivity.
  - cbn. lia.
Defined.

(** C5, refuted: asked for 2016-10-13 to 2016-10-12 the chunker returns the
    empty list. *)
Lemma inverted_range_not_rejected :
  ~ inverted_range_is_rejected Demo.env "2016-10-13" "2016-10-12" Demo.start.
Proof.
  unfold inverted_range_is_rejected, fails_with.
  intros (e & He & _). vm_compute in He. discriminate He.
Qed.

(** C5, amended. With [date_from] after [date_to] neither
    [chunk_schedule_calls] nor [scrape_schedule] fails, whatever the class
    of exception: both return normally. *)
Theorem chunk_schedule_calls_inverted_no_error (env : Env)
  (from_date to_date : string) (df dt : datetime)
  (preseason not_over : bool) (s : State) (cls : string) :
  strptime from_date "%Y-%m-%d" = Ok df ->
  strptime to_date "%Y-%m-%d" = Ok dt ->
  toordinal dt < toordinal df ->
  ~ fails_with (fst (chunk_schedule_calls env from_date to_date s)) cls
  /\ ~ fails_with
       (fst (scrape_schedule env from_date to_date preseason not_over s)) cls.
Proof.
  intros Hf Ht Hlt.
  destruct (inverted_range_run env _ _ _ _ preseason not_over s Hf Ht Hlt)
    as [-> ->].
  split; intros (e & He & _); discriminate He.
Qed.

Lemma chunk_schedule_calls_inverted_no_error_witness :
  ~ fails_with
      (fst (chunk_schedule_calls Demo.env "2016-10-13" "2016-10-12" Demo.start))
      "InvalidRangeError"
  /\ ~ fails_with
       (fst (scrape_schedule Demo.env "2016-10-13" "2016-10-12" false false
               Demo.start))
       "InvalidRangeError".
Proof.
  apply (chunk_schedule_calls_inverted_no_error Demo.env "2016-10-13"
           "2016-10-12" (mk_datetime 736250 0) (mk_datetime 736249 0)).
  - reflexivity.
  - reflexivity.
  - cbn. lia.
Defined.

(** C9. Called with no identifier, [get_dates] raises [IndexError] when it
    takes the earliest one: nothing has been fetched and the clock has not
    been read. *)
Theorem get_dates_empty (env : Env) (s : State) :
  get_dates env [] s = (Raise IndexError, s).
Proof. reflexivity. Qed.

Section NormalizerClaims.

Variable env : Env.
Variable schedule : string -> string -> list Day.
Variables preseason not_over : bool.

Lemma scrape_schedule_typed (from_date to_date : string) (df dt : datetime)
  (s : State) :
  strptime from_date "%Y-%m-%d" = Ok df ->
  strptime to_date "%Y-%m-%d" = Ok dt ->
  serves env (fun a b => enc_dates (schedule a b)) ->
  forallb (forallb day_well_formed) (delivered schedule df dt) = true ->
  scrape_schedule env from_date to_date preseason not_over s
  = (Ok (records_of env preseason not_over
           (List.concat (delivered schedule df dt))),
     sent s (map (chunk_request env) (chunks df dt))).
Proof.
  intros Hf Ht Hserves Hwf.
  unfold scrape_schedule. cbn [bind Monad_M].
  rewrite (chunk_schedule_calls_run env _ _ df dt _ s Hf Ht Hserves).
  unfold lift.
  rewrite <- (map_map (fun c => schedule (chunk_from c) (chunk_to c)) enc_dates).
  fold (delivered schedule df dt).
  rewrite (scrape_chunks_typed env preseason not_over _ [] Hwf).
  reflexivity.
Qed.

Lemma records_of_game_kept (d : Day) (g : Game) :
  well_formed g = true ->
  (kept preseason not_over g = true ->
   exists t, game_time g = Ok t
             /\ records_of_game env preseason not_over (day_date d) g
                = [record_of env (day_date d) g t])
  /\ (kept preseason not_over g = false ->
      records_of_game env preseason not_over (day_date d) g = []).
Proof.
  unfold well_formed, records_of_game. intros Hwf.
  apply andb_prop in Hwf. destruct Hwf as [_ Htime].
  destruct (game_time g) as [t|]; [|discriminate].
  split; intros ->; eauto.
Qed.

Lemma in_records_of (days : list Day) (r : GameRecord) :
  In r (records_of env preseason not_over days) ->
  exists d g t,
    In d days /\ In g (games d) /\ kept preseason not_over g = true
    /\ game_time g = Ok t /\ r = record_of env (day_date d) g t.
Proof.
  unfold records_of, records_of_day, records_of_game. intros Hin.
  apply in_flat_map in Hin. destruct Hin as (d & Hd & Hin).
  apply in_flat_map in Hin. destruct Hin as (g & Hg & Hin).
  destruct (kept preseason not_over g) eqn:Hk; [|destruct Hin].
  destruct (game_time g) as [t|] eqn:Ht; [|destruct Hin].
  destruct Hin as [<-|[]]. exists d, g, t. auto.
Qed.

Lemma kept_in_range (g : Game) (r : GameRecord) :
  kept preseason not_over g = true -> game_id r = JInt (gamePk g) ->
  in_requested_range preseason r.
Proof.
  unfold kept, in_game_type_range, in_requested_range, decoded.
  intros Hk ->. apply andb_prop in Hk. destruct Hk as [_ Hk].
  fold (decoded_id (gamePk g)).
  destruct (decoded_id (gamePk g)) as [k|]; [|discriminate].
  apply andb_prop in Hk. destruct Hk as [Hlo Hhi].
  exists k. split; [reflexivity|]. split; [lia|].
  intros ->. rewrite orb_false_r in Hlo. lia.
Qed.

End NormalizerClaims.

(** C1. When the upstream delivers schema-conforming days whose games
    decode and parse, [scrape_schedule] returns, in the order chunk, day,
    game, one record for each game entry with ([detailedState] equal to
    ["Final"] or [not_over]) and (decoded id at least 20000 or [preseason])
    and decoded id below 40000, and nothing for any other entry; so the
    decoded identifier of every record lies in the requested range. *)
Theorem scrape_schedule_filters (env : Env)
  (schedule : string -> string -> list Day) (preseason not_over : bool)
  (from_date to_date : string) (df dt : datetime) (s : State) :
  strptime from_date "%Y-%m-%d" = Ok df ->
  strptime to_date "%Y-%m-%d" = Ok dt ->
  serves env (fun a b => enc_dates (schedule a b)) ->
  forallb (forallb day_well_formed) (delivered schedule df dt) = true ->
  let days := List.concat (delivered schedule df dt) in
  exists out,
    fst (scrape_schedule env from_date to_date preseason not_over s) = Ok out
    /\ out = flat_map
               (fun d => flat_map
                           (records_of_game env preseason not_over (day_date d))
                           (games d)) days
    /\ (forall d g,
          In d days -> In g (games d) ->
          (kept preseason not_over g = true ->
           exists t, records_of_game env preseason not_over (day_date d) g
                     = [record_of env (day_date d) g t])
          /\ (kept preseason not_over g = false ->
              records_of_game env preseason not_over (day_date d) g = []))
    /\ Forall (in_requested_range preseason) out.
Proof.
  intros Hf Ht Hserves Hwf days.
  exists (records_of env preseason not_over days).
  rewrite (scrape_schedule_typed env schedule preseason not_over
             from_date to_date df dt s Hf Ht Hserves Hwf).
  split; [reflexivity|]. split; [reflexivity|]. split.
  - intros d g Hd Hg.
    assert (Hg_wf : well_formed g = true).
    { unfold days in Hd. apply in_concat in Hd. destruct Hd as (c & Hc & Hd).
      rewrite forallb_forall in Hwf. specialize (Hwf c Hc).
      rewrite forallb_forall in Hwf. specialize (Hwf d Hd).
      unfold day_well_formed in Hwf. rewrite forallb_forall in Hwf.
      exact (Hwf g Hg). }
    destruct (records_of_game_kept env preseason not_over d g Hg_wf)
      as [Hyes Hno].
    split; [|exact Hno].
    intros Hk. destruct (Hyes Hk) as (t & _ & Ht'). eauto.
  - apply Forall_forall. intros r Hr.
    apply in_records_of in Hr.
    destruct Hr as (d & g & t & _ & _ & Hk & _ & ->).
    apply (kept_in_range preseason not_over g); [exact Hk|reflexivity].
Qed.

Lemma scrape_schedule_filters_witness :
  let schedule := Demo.schedule_of Demo.season in
  let df := mk_datetime 736232 0 in
  let dt := mk_datetime 736249 0 in
  let days := List.concat (delivered schedule df dt) in
  exists out,
    fst (scrape_schedule Demo.env "2016-09-25" "2016-10-12" false false
           Demo.start) = Ok out
    /\ out = flat_map
               (fun d => flat_map
                           (records_of_game Demo.env false false (day_date d))
                           (games d)) days
    /\ (forall d g,
          In d days -> In g (games d) ->
          (kept false false g = true ->
           exists t, records_of_game Demo.env false false (day_date d) g
                     = [record_of Demo.env (day_date d) g t])
          /\ (kept false false g = false ->
              records_of_game Demo.env false false (day_date d) g = []))
    /\ Forall (in_requested_range false) out.
Proof.
  intros schedule df dt.
  apply (scrape_schedule_filters Demo.env schedule false false
           "2016-09-25" "2016-10-12" df dt Demo.start).
  - reflexivity.
  - reflexivity.
  - apply demo_serves.
  - vm_compute. reflexivity.
Defined.

(** The examples of the specification: of a preseason game, a finished game
    and a game not yet played, the default flags keep the finished one;
    [not_over] adds the one to come and [preseason] the preseason one. *)
Example scrape_schedule_flags :
  let ids := fun pre no =>
    match fst (scrape_schedule Demo.env "2016-09-25" "2016-10-12" pre no
                 Demo.start) with
    | Ok out => map game_id out
    | Raise _ => []
    end in
  ids false false = [JInt 2016020001]
  /\ ids false true = [JInt 2016020001; JInt 2016020002]
  /\ ids true false = [JInt 2016010001; JInt 2016020001]
  /\ ids true true = [JInt 2016010001; JInt 2016020001; JInt 2016020002].
Proof. vm_compute. repeat split; reflexivity. Qed.

Section KeptEntries.

Variable env : Env.
Variables preseason not_over : bool.

Lemma forallb_concat {A : Type} (p : A -> bool) (ls : list (list A)) :
  forallb (forallb p) ls = true -> forallb p (List.concat ls) = true.
Proof.
  induction ls as [|l ls IH]; cbn [forallb List.concat]; intros H;
    [reflexivity|].
  apply andb_prop in H. destruct H as [Hl Hls].
  rewrite forallb_app, Hl, (IH Hls). reflexivity.
Qed.

Lemma built_from_record (d : Day) (g : Game) (t : datetime) :
  game_time g = Ok t -> built_from env d g (record_of env (day_date d) g t).
Proof. intros Ht. repeat split. exact Ht. Qed.

(** One record per kept entry, in the order of the delivery, each built
    from its entry. *)
Lemma records_built (days : list Day) :
  forallb day_well_formed days = true ->
  Forall2 (fun dg r => built_from env (fst dg) (snd dg) r)
    (kept_entries preseason not_over days)
    (records_of env preseason not_over days).
Proof.
  induction days as [|d days IH]; cbn [forallb]; intros Hwf.
  - constructor.
  - apply andb_prop in Hwf. destruct Hwf as [Hd Hdays].
    unfold kept_entries, records_of. cbn [flat_map].
    apply Forall2_app; [|apply IH, Hdays].
    unfold records_of_day, day_well_formed in *.
    induction (games d) as [|g gs IHg]; cbn [filter map flat_map forallb] in *.
    + constructor.
    + apply andb_prop in Hd. destruct Hd as [Hg Hgs].
      unfold records_of_game at 1.
      unfold well_formed in Hg. apply andb_prop in Hg. destruct Hg as [_ Hg].
      destruct (kept preseason not_over g); [|apply IHg, Hgs].
      destruct (game_time g) as [t|] eqn:Et; [|discriminate].
      cbn [map app]. constructor; [|apply IHg, Hgs].
      apply built_from_record, Et.
Qed.

(** The dates of the records are the dates of the days of the kept
    entries. *)
Lemma dates_of_records (days : list Day) :
  forallb day_well_formed days = true ->
  map date (records_of env preseason not_over days)
  = map (fun dg => JStr (day_date (fst dg)))
      (kept_entries preseason not_over days).
Proof.
  intros Hwf. pose proof (records_built days Hwf) as H.
  induction H as [|dg r l l' Hb _ IH]; cbn [map]; [reflexivity|].
  rewrite IH. destruct Hb as (_ & Hdate & _). rewrite Hdate. reflexivity.
Qed.

End KeptEntries.

(** C4. [scrape_schedule] returns one record per kept game entry, in the
    order of the delivery, and the record of the entry [g] of the day [d]
    holds: the raw [gamePk] as [game_id], the day's date string as [date],
    the time stamp without its last character parsed as
    ["%Y-%m-%dT%H:%M:%S"] as [start_time], the venue name or [None], the
    team names uppercased and canonicalized, the scores or [None], and
    [abstractGameState] as [status]. *)
Theorem scrape_schedule_builds_records (env : Env)
  (schedule : string -> string -> list Day) (preseason not_over : bool)
  (from_date to_date : string) (df dt : datetime) (s : State) :
  strptime from_date "%Y-%m-%d" = Ok df ->
  strptime to_date "%Y-%m-%d" = Ok dt ->
  serves env (fun a b => enc_dates (schedule a b)) ->
  forallb (forallb day_well_formed) (delivered schedule df dt) = true ->
  exists out,
    fst (scrape_schedule env from_date to_date preseason not_over s) = Ok out
    /\ Forall2 (fun dg r => built_from env (fst dg) (snd dg) r)
         (kept_entries preseason not_over
            (List.concat (delivered schedule df dt)))
         out.
Proof.
  intros Hf Ht Hserves Hwf.
  rewrite (scrape_schedule_typed env schedule preseason not_over
             from_date to_date df dt s Hf Ht Hserves Hwf).
  eexists. split; [reflexivity|].
  apply records_built, forallb_concat, Hwf.
Qed.

Lemma scrape_schedule_builds_records_witness :
  let schedule := Demo.schedule_of Demo.season in
  exists out,
    fst (scrape_schedule Demo.env "2016-10-12" "2016-10-12" false true
           Demo.start) = Ok out
    /\ Forall2 (fun dg r => built_from Demo.env (fst dg) (snd dg) r)
         (kept_entries false true
            (List.concat (delivered schedule (mk_datetime 736249 0)
                            (mk_datetime 736249 0))))
         out.
Proof.
  intros schedule.
  apply (scrape_schedule_builds_records Demo.env schedule false true
           "2016-10-12" "2016-10-12" (mk_datetime 736249 0)
           (mk_datetime 736249 0) Demo.start).
  - reflexivity.
  - reflexivity.
  - apply demo_serves.
  - vm_compute. reflexivity.
Defined.

(** The record of the finished game of the demo upstream, field by field. *)
Example scrape_schedule_record :
  fst (scrape_schedule Demo.env "2016-10-12" "2016-10-12" false false
         Demo.start)
  = Ok [mk_GameRecord (JInt 2016020001) (JStr "2016-10-12")
          (mk_datetime 736249 82800) (JStr "Canadian Tire Centre")
          "OTTAWA SENATORS" "TORONTO MAPLE LEAFS" (JInt 5) (JInt 4)
          (JStr "Final")].
Proof. vm_compute. reflexivity. Qed.

(* ===================================================================== *)
(** * A game entry that lacks a required key                              *)
(* ===================================================================== *)

Section MissingKey.

Variable env : Env.
Variables preseason not_over : bool.

Lemma for_each_app {A B : Type} (xs ys : list A) (body : B -> A -> result B) :
  forall acc : B,
    for_each (xs ++ ys) acc body
    = (acc' <- for_each xs acc body ;; for_each ys acc' body).
Proof.
  induction xs as [|x xs IH]; intros acc; cbn [app for_each bind Monad_result].
  - reflexivity.
  - destruct (body acc x); [apply IH|reflexivity].
Qed.

Lemma for_each_raises {A B : Type} (xs ys : list A) (x : A)
  (body : B -> A -> result B) (acc acc' : B) (e : exc) :
  for_each xs acc body = Ok acc' -> body acc' x = Raise e ->
  for_each (xs ++ x :: ys) acc body = Raise e.
Proof.
  intros Hxs Hx. rewrite for_each_app, Hxs.
  cbn [bind Monad_result for_each]. rewrite Hx. reflexivity.
Qed.

Lemma scrape_game_without_status (day : json) (g : Game)
  (schedule : list GameRecord) :
  scrape_game env preseason not_over day schedule (without "status" g)
  = Raise (KeyError "status").
Proof. reflexivity. Qed.

Lemma without_teams (g : Game) :
  without "teams" g
  = JDict [("gamePk", JInt (gamePk g)); ("gameDate", JStr (gameDate g));
           ("status", enc_status g); ("venue", enc_venue g)].
Proof. reflexivity. Qed.

Lemma scrape_game_without_teams (date : string) (entries : list json)
  (g : Game) (schedule : list GameRecord) :
  well_formed g = true -> kept preseason not_over g = true ->
  scrape_game env preseason not_over (day_with date entries) schedule
    (without "teams" g)
  = Raise (KeyError "teams").
Proof.
  unfold well_formed, kept, completed, in_game_type_range.
  intros Hwf Hk.
  apply andb_prop in Hwf. destruct Hwf as [_ Htime].
  apply andb_prop in Hk. destruct Hk as [Hdone Hrange].
  destruct (game_time g) as [t|] eqn:Et; [|discriminate].
  destruct (decoded_id (gamePk g)) as [k|] eqn:Ek; [|discriminate].
  unfold game_time in Et.
  unfold scrape_game. rewrite without_teams.
  cbn [enc_status getitem assoc String.eqb Ascii.eqb Bool.eqb bind
       Monad_result ret eq_str].
  fold (decoded_id (gamePk g)). rewrite Hdone, Ek, Hrange.
  unfold game_record, day_with.
  cbn [getitem assoc String.eqb Ascii.eqb Bool.eqb bind Monad_result ret
       slice_init strptime_obj].
  rewrite Et. unfold enc_venue, optional.
  destruct (venue_name g); reflexivity.
Qed.

Lemma scrape_game_without (key date : string) (entries : list json)
  (g : Game) (schedule : list GameRecord) :
  well_formed g = true ->
  key = "status" \/ (key = "teams" /\ kept preseason not_over g = true) ->
  scrape_game env preseason not_over (day_with date entries) schedule
    (without key g)
  = Raise (KeyError key).
Proof.
  intros Hwf [->|[-> Hk]].
  - apply scrape_game_without_status.
  - apply scrape_game_without_teams; assumption.
Qed.

End MissingKey.

(** C6, refuted: the finished game 2016020001 without its ["teams"] stops
    the run with a [KeyError], not with a [SchemaError] naming the game. *)
Lemma missing_teams_no_schema_error :
  ~ schema_error_for
      (fst (scrape_schedule Demo.env_without_teams "2016-10-12" "2016-10-12"
              false false Demo.start))
      2016020001.
Proof.
  unfold schema_error_for. intros (e & He & Hcls & _).
  vm_compute in He. injection He as <-. discriminate Hcls.
Qed.

(** C6, amended. When a delivered game entry that passes both filters lacks
    ["teams"], or any delivered game entry lacks ["status"], and everything
    delivered before it is well formed, [scrape_schedule] fails with the
    [KeyError] of the missing key: the run stops, the game is not skipped,
    and the exception names the key. *)
Theorem scrape_schedule_missing_key (env : Env) (preseason not_over : bool)
  (dates : string -> string -> json)
  (from_date to_date : string) (df dt : datetime) (s : State)
  (good_chunks : list (list Day)) (good_days : list Day)
  (good_games : list Game) (date key : string) (g : Game)
  (later_games later_days later_chunks : list json) :
  strptime from_date "%Y-%m-%d" = Ok df ->
  strptime to_date "%Y-%m-%d" = Ok dt ->
  serves env dates ->
  map (fun c => dates (chunk_from c) (chunk_to c)) (chunks df dt)
  = (map enc_dates good_chunks
     ++ JList (map enc_day good_days
               ++ day_with date
                    (map enc_game good_games ++ without key g :: later_games)
                  :: later_days)
        :: later_chunks)%list ->
  forallb (forallb day_well_formed) good_chunks = true ->
  forallb day_well_formed good_days = true ->
  forallb well_formed good_games = true ->
  well_formed g = true ->
  key = "status" \/ (key = "teams" /\ kept preseason not_over g = true) ->
  fst (scrape_schedule env from_date to_date preseason not_over s)
  = Raise (KeyError key).
Proof.
  intros Hf Ht Hserves Hshape Hchunks Hdays Hgames Hg Hkey.
  unfold scrape_schedule. cbn [bind Monad_M].
  rewrite (chunk_schedule_calls_run env _ _ df dt _ s Hf Ht Hserves).
  unfold lift. cbn [fst]. rewrite Hshape.
  eapply for_each_raises.
  - apply (scrape_chunks_typed env preseason not_over good_chunks [] Hchunks).
  - cbn [app]. unfold scrape_chunk. cbn [py_iter bind Monad_result].
    eapply for_each_raises.
    + apply (scrape_days_typed env preseason not_over good_days _ Hdays).
    + unfold scrape_day.
      change (getitem (day_with date
                         (map enc_game good_games ++ without key g :: later_games))
                "games")
        with (Ok (JList (map enc_game good_games
                         ++ without key g :: later_games)%list)).
      cbn [py_iter bind Monad_result].
      eapply for_each_raises.
      * apply (scrape_games_typed env preseason not_over date _ good_games _
                 Hgames).
      * apply scrape_game_without; assumption.
Qed.

Lemma scrape_schedule_missing_key_witness :
  fst (scrape_schedule Demo.env_without_teams "2016-10-12" "2016-10-12"
         false false Demo.start)
  = Raise (KeyError "teams").
Proof.
  apply (scrape_schedule_missing_key Demo.env_without_teams false false
           (fun _ _ => JList [day_with "2016-10-12"
                                [without "teams" Demo.senators_leafs]])
           "2016-10-12" "2016-10-12" (mk_datetime 736249 0)
           (mk_datetime 736249 0) Demo.start
           [] [] [] "2016-10-12" "teams" Demo.senators_leafs [] [] []).
  - reflexivity.
  - reflexivity.
  - intros a b. eexists. split; reflexivity.
  - reflexivity.
  - reflexivity.
  - reflexivity.
  - reflexivity.
  - reflexivity.
  - right. split; reflexivity.
Defined.

Section Determinism.

Lemma oblivious_ret {A : Type} (a : A) : oblivious (ret a : M A).
Proof.
  exists (Ok a), []. intros s. rewrite sent_nil. reflexivity.
Qed.

Lemma oblivious_lift {A : Type} (r : result A) : oblivious (lift r).
Proof.
  exists r, []. intros s. rewrite sent_nil. reflexivity.
Qed.

Lemma oblivious_bind {A B : Type} (m : M A) (k : A -> M B) :
  oblivious m -> (forall a, oblivious (k a)) -> oblivious (x <- m ;; k x).
Proof.
  intros (r & ps & Hm) Hk. destruct r as [a|e].
  - destruct (Hk a) as (r' & qs & Hka).
    exists r', (ps ++ qs)%list. intros s.
    cbn [bind Monad_M]. rewrite Hm, Hka, sent_sent. reflexivity.
  - exists (Raise e), ps. intros s.
    cbn [bind Monad_M]. rewrite Hm. reflexivity.
Qed.

Lemma oblivious_for_each {A B : Type} (xs : list A) (body : B -> A -> M B) :
  (forall acc x, oblivious (body acc x)) ->
  forall acc, oblivious (for_each xs acc body).
Proof.
  intros Hbody. induction xs as [|x xs IH]; intros acc; cbn [for_each].
  - apply oblivious_ret.
  - apply oblivious_bind; [apply Hbody|exact IH].
Qed.

Lemma oblivious_get_schedule (env : Env) (a b : string) :
  oblivious (get_schedule env a b).
Proof.
  exists (answer env (request_for env a b)), [request_for env a b].
  intros s. apply get_schedule_run.
Qed.

Lemma oblivious_chunk_schedule_calls (env : Env) (from_date to_date : string) :
  oblivious (chunk_schedule_calls env from_date to_date).
Proof.
  unfold chunk_schedule_calls.
  apply oblivious_bind; [apply oblivious_lift|intros df].
  apply oblivious_bind; [apply oblivious_lift|intros dt].
  apply oblivious_for_each. intros acc offset.
  apply oblivious_bind; [apply oblivious_lift|intros f_date].
  apply oblivious_bind; [apply oblivious_lift|intros t_date].
  apply oblivious_bind; [apply oblivious_get_schedule|intros chunk_sched].
  apply oblivious_bind; [apply oblivious_lift|intros dates].
  apply oblivious_ret.
Qed.

Lemma oblivious_scrape_schedule (env : Env) (from_date to_date : string)
  (preseason not_over : bool) :
  oblivious (scrape_schedule env from_date to_date preseason not_over).
Proof.
  unfold scrape_schedule.
  apply oblivious_bind; [apply oblivious_chunk_schedule_calls|intros js].
  apply oblivious_lift.
Qed.

(** *** The clock is not among the things a run looks at *)

Lemma bind_result_ext {A B : Type} (m1 m2 : result A) (f g : A -> result B) :
  m1 = m2 -> (forall a, f a = g a) -> (x <- m1 ;; f x) = (x <- m2 ;; g x).
Proof.
  intros <- Hfg. destruct m1 as [a|e]; cbn [bind Monad_result];
    [apply Hfg|reflexivity].
Qed.

Lemma bind_M_ext {A B : Type} (m1 m2 : M A) (f g : A -> M B) :
  (forall s, m1 s = m2 s) -> (forall a s, f a s = g a s) ->
  forall s, (x <- m1 ;; f x) s = (x <- m2 ;; g x) s.
Proof.
  intros Hm Hfg s. cbn [bind Monad_M]. rewrite Hm.
  destruct (m2 s) as [[a|e] s']; [apply Hfg|reflexivity].
Qed.

Lemma for_each_result_ext {A B : Type} (xs : list A)
  (b1 b2 : B -> A -> result B) :
  (forall acc x, b1 acc x = b2 acc x) ->
  forall acc, for_each xs acc b1 = for_each xs acc b2.
Proof.
  intros Hb. induction xs as [|x xs IH]; intros acc; cbn [for_each].
  - reflexivity.
  - apply bind_result_ext; [apply Hb|exact IH].
Qed.

Lemma for_each_M_ext {A B : Type} (xs : list A) (b1 b2 : B -> A -> M B) :
  (forall acc x s, b1 acc x s = b2 acc x s) ->
  forall acc s, for_each xs acc b1 s = for_each xs acc b2 s.
Proof.
  intros Hb. induction xs as [|x xs IH]; intros acc s; cbn [for_each].
  - reflexivity.
  - apply bind_M_ext; [intros; apply Hb|exact IH].
Qed.

Variables e1 e2 : Env.
Hypothesis alike : same_collaborators e1 e2.

Lemma game_record_ext (day game : json) :
  game_record e1 day game = game_record e2 day game.
Proof.
  destruct alike as (_ & _ & Hteam & _ & Hupper).
  unfold game_record.
  repeat (apply bind_result_ext; [|intros ?]); try reflexivity.
  all: repeat (apply bind_result_ext; [reflexivity|intros ?]).
  all: match goal with
       | |- match ?nm with JStr _ => _ | _ => _ end = _ => destruct nm
       end; try reflexivity.
  all: cbn [ret Monad_result]; rewrite Hupper, Hteam; reflexivity.
Qed.

Lemma scrape_game_ext (preseason not_over : bool) (day : json)
  (schedule : list GameRecord) (game : json) :
  scrape_game e1 preseason not_over day schedule game
  = scrape_game e2 preseason not_over day schedule game.
Proof.
  unfold scrape_game.
  apply bind_result_ext; [reflexivity|intros state].
  destruct (eq_str state "Final" || not_over); [|reflexivity].
  apply bind_result_ext; [reflexivity|intros k].
  destruct (((20000 <=? k) || preseason) && (k <? 40000)); [|reflexivity].
  apply bind_result_ext; [apply game_record_ext|reflexivity].
Qed.

Lemma scrape_chunk_ext (preseason not_over : bool)
  (schedule : list GameRecord) (chunk : json) :
  scrape_chunk e1 preseason not_over schedule chunk
  = scrape_chunk e2 preseason not_over schedule chunk.
Proof.
  unfold scrape_chunk.
  apply bind_result_ext; [reflexivity|intros days].
  apply for_each_result_ext. intros acc day. unfold scrape_day.
  apply bind_result_ext; [reflexivity|intros games].
  apply for_each_result_ext. intros acc' game. apply scrape_game_ext.
Qed.

Lemma get_schedule_ext (a b : string) (s : State) :
  get_schedule e1 a b s = get_schedule e2 a b s.
Proof.
  destruct alike as (Hseason & Hfile & _ & Hloads & _).
  rewrite !get_schedule_run.
  assert (Hreq : request_for e1 a b = request_for e2 a b).
  { unfold request_for. rewrite Hseason. reflexivity. }
  rewrite Hreq. unfold answer. rewrite Hfile.
  destruct (get_file e2 (request_for e2 a b)) as [text|e];
    cbn [bind Monad_result]; [rewrite Hloads|]; reflexivity.
Qed.

Lemma chunk_schedule_calls_ext (from_date to_date : string) (s : State) :
  chunk_schedule_calls e1 from_date to_date s
  = chunk_schedule_calls e2 from_date to_date s.
Proof.
  unfold chunk_schedule_calls. revert s.
  apply bind_M_ext; [reflexivity|intros df].
  apply bind_M_ext; [reflexivity|intros dt].
  apply for_each_M_ext. intros acc offset.
  apply bind_M_ext; [reflexivity|intros f_date].
  apply bind_M_ext; [reflexivity|intros t_date].
  apply bind_M_ext; [apply get_schedule_ext|reflexivity].
Qed.

Lemma scrape_schedule_ext (from_date to_date : string)
  (preseason not_over : bool) (s : State) :
  scrape_schedule e1 from_date to_date preseason not_over s
  = scrape_schedule e2 from_date to_date preseason not_over s.
Proof.
  unfold scrape_schedule. revert s.
  apply bind_M_ext; [apply chunk_schedule_calls_ext|intros js s].
  unfold lift. f_equal.
  apply for_each_result_ext. intros acc chunk. apply scrape_chunk_ext.
Qed.

End Determinism.

(** C8. Two runs of [scrape_schedule] with the same arguments, against
    collaborators that answer alike, return the same result and send the same
    requests, whatever the two clocks show and whatever was fetched or read
    before: the result is a function of the arguments and of the answers. *)
Theorem scrape_schedule_deterministic (e1 e2 : Env)
  (from_date to_date : string) (preseason not_over : bool) (s1 s2 : State) :
  same_collaborators e1 e2 ->
  let run1 := scrape_schedule e1 from_date to_date preseason not_over s1 in
  let run2 := scrape_schedule e2 from_date to_date preseason not_over s2 in
  fst run1 = fst run2
  /\ exists ps, snd run1 = sent s1 ps /\ snd run2 = sent s2 ps.
Proof.
  intros Halike run1 run2. unfold run1, run2.
  rewrite <- (scrape_schedule_ext e1 e2 Halike).
  destruct (oblivious_scrape_schedule e1 from_date to_date preseason not_over)
    as (r & ps & Hrun).
  rewrite !Hrun. split; [reflexivity|]. exists ps. split; reflexivity.
Qed.

Lemma scrape_schedule_deterministic_witness :
  let run1 := scrape_schedule Demo.env "2016-09-25" "2016-10-12" false false
                Demo.start in
  let run2 := scrape_schedule Demo.env_in_season "2016-09-25" "2016-10-12"
                false false
                (mk_State [request_for Demo.env "2016-01-01" "2016-01-02"] 7) in
  fst run1 = fst run2
  /\ exists ps,
       snd run1 = sent Demo.start ps
       /\ snd run2
          = sent (mk_State [request_for Demo.env "2016-01-01" "2016-01-02"] 7)
              ps.
Proof.
  apply (scrape_schedule_deterministic Demo.env Demo.env_in_season).
  repeat split.
Defined.

Section Chronology.

Lemma date_le_trans : Relations_1.Transitive date_le.
Proof.
  intros a b c (x & y & Hx & Hy & Hxy) (y' & z & Hy' & Hz & Hyz).
  rewrite Hy in Hy'. injection Hy' as <-.
  exists x, z. repeat split; try assumption. lia.
Qed.

Lemma day_le_trans : Relations_1.Transitive day_le.
Proof. intros a b c. apply date_le_trans. Qed.

Lemma StronglySorted_app {A : Type} (R : A -> A -> Prop) (l1 l2 : list A) :
  StronglySorted R l1 -> StronglySorted R l2 ->
  (forall x y, In x l1 -> In y l2 -> R x y) ->
  StronglySorted R (l1 ++ l2).
Proof.
  induction l1 as [|a l1 IH]; intros H1 H2 Hcross; cbn [app].
  - exact H2.
  - apply StronglySorted_inv in H1. destruct H1 as [H1 Ha].
    constructor.
    + apply IH; [assumption|assumption|].
      intros x y Hx Hy. apply Hcross; [right|]; assumption.
    + apply Forall_app. split; [exact Ha|].
      apply Forall_forall. intros y Hy. apply Hcross; [left; reflexivity|exact Hy].
Qed.

Lemma StronglySorted_constant {A : Type} (R : A -> A -> Prop) (a : A)
  (l : list A) :
  R a a -> (forall x, In x l -> x = a) -> StronglySorted R l.
Proof.
  intros Hrefl. induction l as [|b l IH]; intros Hall; constructor.
  - apply IH. intros x Hx. apply Hall. right. exact Hx.
  - apply Forall_forall. intros x Hx.
    rewrite (Hall b (or_introl eq_refl)), (Hall x (or_intror Hx)). exact Hrefl.
Qed.

Lemma StronglySorted_map_seq {A : Type} (R : A -> A -> Prop) (f : nat -> A)
  (len : nat) :
  (forall i j, (i < j)%nat -> (j < len)%nat -> R (f i) (f j)) ->
  forall start, (start <= len)%nat ->
    StronglySorted R (map f (seq start (len - start))).
Proof.
  intros Hf start.
  remember (len - start)%nat as n eqn:Hn. revert start Hn.
  induction n as [|n IH]; intros start Hn Hle; cbn [seq map]; constructor.
  - apply IH; lia.
  - apply Forall_forall. intros x Hx.
    apply in_map_iff in Hx. destruct Hx as (j & <- & Hj).
    apply in_seq in Hj. apply Hf; lia.
Qed.

Lemma chunks_in_order (df dt : datetime) :
  StronglySorted before (chunks df dt).
Proof.
  unfold chunks, py_range. rewrite map_map.
  set (n := sub_days dt df + 1).
  set (len := Z.to_nat ((n + days_per_call - 1) / days_per_call)).
  replace len with (len - 0)%nat by lia.
  apply StronglySorted_map_seq; [|lia].
  intros i j Hij _. unfold before, chunk_bounds, days_per_call.
  cbn [fst snd toordinal]. lia.
Qed.

Variable schedule : string -> string -> list Day.

Notation days_for := (days_for schedule).

Lemma delivered_in_order (cs : list (datetime * datetime)) :
  StronglySorted before cs ->
  (forall c, In c cs -> Forall (dated_within c) (days_for c)) ->
  (forall c, In c cs -> Sorted day_le (days_for c)) ->
  StronglySorted day_le (List.concat (map days_for cs)).
Proof.
  induction cs as [|c cs IH]; intros Hcs Hrange Hsorted; cbn [map List.concat].
  - constructor.
  - apply StronglySorted_inv in Hcs. destruct Hcs as [Hcs Hc].
    apply StronglySorted_app.
    + apply (Sorted_StronglySorted day_le_trans).
      apply Hsorted. left. reflexivity.
    + apply IH; [exact Hcs| |]; intros c' Hc'; [apply Hrange|apply Hsorted];
        right; exact Hc'.
    + intros x y Hx Hy.
      apply in_concat in Hy. destruct Hy as (l & Hl & Hy).
      apply in_map_iff in Hl. destruct Hl as (c' & <- & Hc').
      pose proof (Hrange c (or_introl eq_refl)) as Hrc.
      rewrite Forall_forall in Hrc. destruct (Hrc x Hx) as (kx & Hkx & Hbx).
      pose proof (Hrange c' (or_intror Hc')) as Hrc'.
      rewrite Forall_forall in Hrc'. destruct (Hrc' y Hy) as (ky & Hky & Hby).
      rewrite Forall_forall in Hc. specialize (Hc c' Hc'). unfold before in Hc.
      exists kx, ky. repeat split; try assumption. lia.
Qed.

Lemma dated_days (cs : list (datetime * datetime)) :
  (forall c, In c cs -> Forall (dated_within c) (days_for c)) ->
  Forall (fun d => day_le d d) (List.concat (map days_for cs)).
Proof.
  intros Hrange. apply Forall_forall. intros d Hd.
  apply in_concat in Hd. destruct Hd as (l & Hl & Hd).
  apply in_map_iff in Hl. destruct Hl as (c & <- & Hc).
  pose proof (Hrange c Hc) as Hrc. rewrite Forall_forall in Hrc.
  destruct (Hrc d Hd) as (k & Hk & _).
  exists k, k. repeat split; try assumption. lia.
Qed.

Lemma date_of_day_records (env : Env) (preseason not_over : bool) (d : Day)
  (v : json) :
  In v (map date (records_of_day env preseason not_over d)) ->
  v = JStr (day_date d).
Proof.
  unfold records_of_day, records_of_game. intros Hin.
  apply in_map_iff in Hin. destruct Hin as (r & <- & Hr).
  apply in_flat_map in Hr. destruct Hr as (g & _ & Hr).
  destruct (kept preseason not_over g); [|destruct Hr].
  destruct (game_time g); [|destruct Hr].
  destruct Hr as [<-|[]]. reflexivity.
Qed.

Lemma records_in_order (env : Env) (preseason not_over : bool)
  (days : list Day) :
  StronglySorted day_le days -> Forall (fun d => day_le d d) days ->
  StronglySorted date_le (map date (records_of env preseason not_over days)).
Proof.
  induction days as [|d days IH]; intros Hsorted Hrefl.
  - constructor.
  - apply StronglySorted_inv in Hsorted. destruct Hsorted as [Hsorted Hd].
    apply Forall_inv_tail in Hrefl as Htail. apply Forall_inv in Hrefl.
    unfold records_of. cbn [flat_map]. rewrite map_app.
    apply StronglySorted_app.
    + apply (StronglySorted_constant date_le (JStr (day_date d)));
        [exact Hrefl|apply date_of_day_records].
    + apply IH; assumption.
    + intros x y Hx Hy.
      apply date_of_day_records in Hx. subst x.
      apply in_map_iff in Hy. destruct Hy as (r & <- & Hr).
      apply in_flat_map in Hr. destruct Hr as (d' & Hd' & Hr).
      rewrite (date_of_day_records env preseason not_over d' (date r)
                 (in_map date _ r Hr)).
      rewrite Forall_forall in Hd. exact (Hd d' Hd').
Qed.

End Chronology.

(** C7, refuted: every sub-range answered with a single well-formed day,
    the first with 2016-10-12 and the second with 2016-09-25; the records
    come out in that order. *)
Lemma delivery_order_not_chronological :
  let df := mk_datetime 736208 0 in
  let dt := mk_datetime 736339 0 in
  serves Cases.env_swapped (fun a b => enc_dates (Cases.swapped a b))
  /\ forallb (forallb day_well_formed) (delivered Cases.swapped df dt) = true
  /\ ascending_as_delivered Cases.swapped df dt
  /\ ~ dates_never_decrease Cases.env_swapped "2016-09-01" "2017-01-10"
         true true Demo.start.
Proof.
  intros df dt. split; [|split; [|split]].
  - intros a b. eexists. split; reflexivity.
  - vm_compute. reflexivity.
  - intros c [<-|[<-|[]]];
      match goal with
      | |- Sorted _ ?l => let v := eval vm_compute in l in change l with v
      end;
      repeat constructor.
  - intros (out & Hout & Hsorted).
    vm_compute in Hout. injection Hout as <-. cbn [map date] in Hsorted.
    apply Sorted_inv in Hsorted. destruct Hsorted as [_ Hrel].
    apply HdRel_inv in Hrel. destruct Hrel as (x & y & Hx & Hy & Hxy).
    vm_compute in Hx, Hy. injection Hx as <-. injection Hy as <-.
    vm_compute in Hxy. apply Hxy. reflexivity.
Qed.

(** C7, amended. In a run whose chunks are consumed in the order of their
    start, each chunk answered with well-formed days that are dated within
    its own sub-range and come in ascending date order, the dates of the
    returned records are the dates of the days of the kept entries in the
    order of the delivery, and they never decrease. *)
Theorem scrape_schedule_chronological (env : Env)
  (schedule : string -> string -> list Day) (preseason not_over : bool)
  (from_date to_date : string) (df dt : datetime) (s : State) :
  strptime from_date "%Y-%m-%d" = Ok df ->
  strptime to_date "%Y-%m-%d" = Ok dt ->
  serves env (fun a b => enc_dates (schedule a b)) ->
  forallb (forallb day_well_formed) (delivered schedule df dt) = true ->
  (forall c, In c (chunks df dt) ->
     Forall (dated_within c) (schedule (chunk_from c) (chunk_to c))) ->
  (forall c, In c (chunks df dt) ->
     Sorted day_le (schedule (chunk_from c) (chunk_to c))) ->
  exists out,
    fst (scrape_schedule env from_date to_date preseason not_over s) = Ok out
    /\ map date out
       = map (fun dg => JStr (day_date (fst dg)))
           (kept_entries preseason not_over
              (List.concat (delivered schedule df dt)))
    /\ Sorted date_le (map date out).
Proof.
  intros Hf Ht Hserves Hwf Hrange Hsorted.
  rewrite (scrape_schedule_typed env schedule preseason not_over
             from_date to_date df dt s Hf Ht Hserves Hwf).
  eexists. split; [reflexivity|]. split.
  - apply dates_of_records, forallb_concat, Hwf.
  - apply StronglySorted_Sorted, records_in_order.
    + apply delivered_in_order; [apply chunks_in_order| |]; assumption.
    + apply dated_days. assumption.
Qed.

Lemma scrape_schedule_chronological_witness :
  exists out,
    fst (scrape_schedule Demo.env "2016-09-01" "2017-01-10" true true
           Demo.start) = Ok out
    /\ map date out
       = map (fun dg => JStr (day_date (fst dg)))
           (kept_entries true true
              (List.concat (delivered (Demo.schedule_of Demo.season)
                              (mk_datetime 736208 0) (mk_datetime 736339 0))))
    /\ Sorted date_le (map date out).
Proof.
  apply (scrape_schedule_chronological Demo.env
           (Demo.schedule_of Demo.season) true true
           "2016-09-01" "2017-01-10"
           (mk_datetime 736208 0) (mk_datetime 736339 0) Demo.start).
  - reflexivity.
  - reflexivity.
  - apply demo_serves.
  - vm_compute. reflexivity.
  - intros c [<-|[<-|[]]];
      match goal with
      | |- Forall _ ?l => let v := eval vm_compute in l in change l with v
      end;
      repeat (apply Forall_cons; [eexists; split; [reflexivity|]|]);
      try apply Forall_nil; vm_compute; split; discriminate.
  - intros c [<-|[<-|[]]];
      match goal with
      | |- Sorted _ ?l => let v := eval vm_compute in l in change l with v
      end;
      repeat constructor.
    exists 736232, 736249. repeat split. lia.
Defined.

Example scrape_schedule_chronological_dates :
  match fst (scrape_schedule Demo.env "2016-09-01" "2017-01-10" true true
               Demo.start) with
  | Ok out => map date out
  | Raise _ => []
  end
  = [JStr "2016-09-25"; JStr "2016-10-12"; JStr "2016-10-12"].
Proof. vm_compute. reflexivity. Qed.

Section Sorting.

Lemma ascii_compare_trans (x y z : ascii) (c : comparison) :
  Ascii.compare x y = c -> Ascii.compare y z = c -> Ascii.compare x z = c.
Proof.
  unfold Ascii.compare. intros Hxy Hyz.
  destruct c.
  - apply N.compare_eq_iff in Hxy. apply N.compare_eq_iff in Hyz.
    apply N.compare_eq_iff. congruence.
  - apply N.compare_lt_iff in Hxy. apply N.compare_lt_iff in Hyz.
    apply N.compare_lt_iff. exact (N.lt_trans _ _ _ Hxy Hyz).
  - apply N.compare_gt_iff in Hxy. apply N.compare_gt_iff in Hyz.
    apply N.compare_gt_iff. exact (N.lt_trans _ _ _ Hyz Hxy).
Qed.

Lemma string_leb_trans (a b c : string) :
  String.leb a b = true -> String.leb b c = true -> String.leb a c = true.
Proof.
  unfold String.leb. revert b c.
  induction a as [|x a IH]; intros [|y b] [|z c]; cbn; try congruence.
  destruct (Ascii.compare x y) eqn:Hxy, (Ascii.compare y z) eqn:Hyz;
    try congruence.
  - rewrite (ascii_compare_trans x y z Eq Hxy Hyz). apply IH.
  - apply Ascii.compare_eq_iff in Hxy. subst y. rewrite Hyz. reflexivity.
  - apply Ascii.compare_eq_iff in Hyz. subst z. rewrite Hxy. reflexivity.
  - rewrite (ascii_compare_trans x y z Lt Hxy Hyz). reflexivity.
Qed.

Lemma string_leb_refl (a : string) : String.leb a a = true.
Proof. destruct (String.leb_total a a); assumption. Qed.

Lemma in_insert_sorted (x y : string) (l : list string) :
  In y (insert_sorted x l) <-> y = x \/ In y l.
Proof.
  induction l as [|z l IH]; cbn [insert_sorted].
  - cbn. intuition congruence.
  - destruct (String.leb x z); cbn [In].
    + intuition congruence.
    + rewrite IH. intuition congruence.
Qed.

Lemma in_sort (y : string) (l : list string) : In y (sort l) <-> In y l.
Proof.
  unfold sort. induction l as [|x l IH]; cbn [fold_right In].
  - reflexivity.
  - rewrite in_insert_sorted, IH. intuition congruence.
Qed.

Lemma insert_sorted_sorted (x : string) (l : list string) :
  StronglySorted (fun a b => String.leb a b = true) l ->
  StronglySorted (fun a b => String.leb a b = true) (insert_sorted x l).
Proof.
  induction l as [|z l IH]; intros Hl; cbn [insert_sorted].
  - repeat constructor.
  - apply StronglySorted_inv in Hl as Hinv. destruct Hinv as [Hl' Hz].
    destruct (String.leb x z) eqn:Hxz.
    + constructor; [exact Hl|]. constructor; [exact Hxz|].
      rewrite Forall_forall in Hz |- *. intros y Hy.
      apply (string_leb_trans x z y Hxz), Hz, Hy.
    + constructor; [apply IH, Hl'|].
      apply Forall_forall. intros y Hy. apply in_insert_sorted in Hy.
      destruct Hy as [->|Hy].
      * destruct (String.leb_total x z) as [H|H]; congruence.
      * rewrite Forall_forall in Hz. apply Hz, Hy.
Qed.

Lemma sort_sorted (l : list string) :
  StronglySorted (fun a b => String.leb a b = true) (sort l).
Proof.
  unfold sort. induction l as [|x l IH]; cbn [fold_right].
  - constructor.
  - apply insert_sorted_sorted, IH.
Qed.

Lemma first_sort (l : list string) (x : string) :
  first (sort l) = Ok x -> is_least x l.
Proof.
  pose proof (sort_sorted l) as Hs. pose proof (in_sort) as Hin.
  destruct (sort l) as [|a rest] eqn:E; cbn [first]; [discriminate|].
  intros [= <-]. split.
  - apply Hin. rewrite E. left. reflexivity.
  - intros y Hy. apply Hin in Hy. rewrite E in Hy.
    apply StronglySorted_inv in Hs. destruct Hs as [_ Ha].
    destruct Hy as [<-|Hy]; [apply string_leb_refl|].
    rewrite Forall_forall in Ha. apply Ha, Hy.
Qed.

Lemma sorted_last (l : list string) (x : string) :
  StronglySorted (fun a b => String.leb a b = true) l ->
  forall y, In y (l ++ [x]) -> StronglySorted (fun a b => String.leb a b = true) (l ++ [x]) ->
  String.leb y x = true.
Proof.
  intros _ y Hy Hs. induction l as [|a l IH]; cbn [app] in *.
  - destruct Hy as [<-|[]]. apply string_leb_refl.
  - apply StronglySorted_inv in Hs. destruct Hs as [Hs Ha].
    destruct Hy as [<-|Hy].
    + rewrite Forall_forall in Ha. apply Ha. apply in_or_app. right. left.
      reflexivity.
    + apply IH; assumption.
Qed.

Lemma last_item_sort (l : list string) (x : string) :
  last_item (sort l) = Ok x -> is_greatest x l.
Proof.
  pose proof (sort_sorted l) as Hs. pose proof (in_sort) as Hin.
  unfold last_item.
  destruct (rev (sort l)) as [|a rest] eqn:E; [discriminate|].
  intros [= <-].
  assert (Hl : sort l = (rev rest ++ [a])%list).
  { rewrite <- (rev_involutive (sort l)), E. reflexivity. }
  split.
  - apply Hin. rewrite Hl. apply in_or_app. right. left. reflexivity.
  - intros y Hy. apply Hin in Hy. rewrite Hl in Hy, Hs.
    apply (sorted_last (rev rest) a); [|exact Hy|exact Hs].
    clear -Hs. induction (rev rest) as [|b r IH]; [constructor|].
    cbn [app] in Hs. apply StronglySorted_inv in Hs. destruct Hs as [Hs Hb].
    constructor; [apply IH, Hs|].
    apply Forall_app in Hb. apply Hb.
Qed.

Lemma sort_nonempty (l : list string) :
  l <> [] -> exists x rest, sort l = x :: rest.
Proof.
  intros Hne. destruct l as [|a l]; [congruence|].
  destruct (sort (a :: l)) as [|x rest] eqn:E; [|eauto].
  assert (Hin : In a (sort (a :: l))) by (apply in_sort; left; reflexivity).
  rewrite E in Hin. destruct Hin.
Qed.

Lemma str_in_sort (x : string) (l : list string) :
  str_in x (sort l) = str_in x l.
Proof.
  unfold str_in.
  destruct (existsb (String.eqb x) l) eqn:E.
  - apply existsb_exists in E. destruct E as (y & Hy & Hxy).
    apply existsb_exists. exists y. split; [apply in_sort, Hy|exact Hxy].
  - destruct (existsb (String.eqb x) (sort l)) eqn:E'; [|reflexivity].
    apply existsb_exists in E'. destruct E' as (y & Hy & Hxy).
    apply (proj1 (in_sort y l)) in Hy.
    assert (Hl : existsb (String.eqb x) l = true).
    { apply existsb_exists. exists y. split; assumption. }
    congruence.
Qed.

End Sorting.

Section GetDates.

Variable env : Env.

Lemma strftime_date_of_ordinal (d1 d2 : datetime) :
  toordinal d1 = toordinal d2 ->
  strftime d1 "%Y-%m-%d" = strftime d2 "%Y-%m-%d".
Proof.
  intros H. cbn [strftime Ascii.eqb Bool.eqb]. unfold year, month, day.
  rewrite H. reflexivity.
Qed.

Lemma today_string_of_ordinal (y m d now : datetime) :
  toordinal y = toordinal now -> toordinal m = toordinal now ->
  toordinal d = toordinal now ->
  str_join "-" [str_of_int (year y); str_of_int (month m); str_of_int (day d)]
  = today_string now.
Proof.
  intros Hy Hm Hd. unfold today_string, year, month, day.
  rewrite Hy, Hm, Hd. reflexivity.
Qed.

Lemma get_dates_run (games : list json) (s : State)
  (earliest latest : string) :
  first (sort (map py_str games)) = Ok earliest ->
  last_item (sort (map py_str games)) = Ok latest ->
  (forall i, (i < 4)%nat ->
     toordinal (clock env (i + ticks s)) = toordinal (clock env (ticks s))) ->
  let ids := map py_str games in
  let now := clock env (ticks s) in
  let current :=
    eq_str (get_season env (strftime now "%Y-%m-%d")) (str_take 4 latest) in
  (current = true ->
   get_dates env games s
   = restricted_to ids
       (scrape_schedule env (season_start earliest) (today_string now)
          true true (read_clock s 4)))
  /\ (current = false ->
      forall y, py_int (str_take 4 latest) = Ok y ->
        get_dates env games s
        = restricted_to ids
            (scrape_schedule env (season_start earliest) (season_end y)
               true true (read_clock s 1))).
Proof.
  intros Hfirst Hlast Hday ids now current.
  assert (Hfilter : forall schedule : list GameRecord,
             filter (fun game => str_in (py_str (game_id game)) (sort ids))
               schedule
             = filter (fun game => str_in (py_str (game_id game)) ids) schedule).
  { intros schedule. apply filter_ext. intros r. apply str_in_sort. }
  unfold get_dates. fold ids. fold ids in Hfirst, Hlast.
  unfold lift, today. cbn [bind Monad_M Monad_result ret].
  rewrite Hfirst, Hlast. cbn [bind Monad_M Monad_result ret ticks fetched].
  fold now. fold current.
  split; intros Hcur.
  - rewrite Hcur. cbn [bind Monad_M Monad_result ret ticks fetched].
    pose proof (today_string_of_ordinal _ _ _ now
                  (Hday 1%nat ltac:(lia)) (Hday 2%nat ltac:(lia))
                  (Hday 3%nat ltac:(lia))) as Htoday.
    cbn [Nat.add] in Htoday. rewrite Htoday.
    change (str_join "-" [str_take 4 earliest; "9"; "1"])
      with (season_start earliest).
    change (mk_State (fetched s) (S (S (S (S (ticks s))))))
      with (read_clock s 4).
    destruct (scrape_schedule env (season_start earliest) (today_string now)
                true true (read_clock s 4)) as [[schedule|e] s'];
      cbn [restricted_to]; [rewrite Hfilter|]; reflexivity.
  - intros y Hy. rewrite Hcur, Hy.
    cbn [bind Monad_M Monad_result ret ticks fetched].
    change (str_join "-" [str_take 4 earliest; "9"; "1"])
      with (season_start earliest).
    change (str_join "-" [str_of_int (y + 1); "7"; "1"]) with (season_end y).
    change (mk_State (fetched s) (S (ticks s))) with (read_clock s 1).
    destruct (scrape_schedule env (season_start earliest) (season_end y)
                true true (read_clock s 1)) as [[schedule|e] s'];
      cbn [restricted_to]; [rewrite Hfilter|]; reflexivity.
Qed.

End GetDates.



(** The example of the specification.  With the clock in a later season
    the range runs from 2016-09-01 to 2017-07-01; with the clock on
    2016-10-20 it stops that day; either way the one record asked for comes
    back. *)
Example get_dates_2016020001 :
  let run := get_dates Demo.env [JInt 2016020001] Demo.start in
  map (fun p => name p) (fetched (snd run))
  = ["2016-09-01_2016-12-09"; "2016-12-10_2017-03-19";
     "2017-03-20_2017-06-27"; "2017-06-28_2017-07-01"]
  /\ match fst run with
     | Ok out => map (fun r => py_str (game_id r)) out
     | Raise _ => []
     end = ["2016020001"].
Proof. vm_compute. split; reflexivity. Qed.

Example get_dates_2016020001_in_season :
  let run := get_dates Demo.env_in_season [JInt 2016020001] Demo.start in
  map (fun p => name p) (fetched (snd run)) = ["2016-09-01_2016-10-20"]
  /\ match fst run with
     | Ok out => map (fun r => py_str (game_id r)) out
     | Raise _ => []
     end = ["2016020001"].
Proof. vm_compute. split; reflexivity. Qed.

Example season_start_is_september_1 :
  strptime (season_start "2016020001") "%Y-%m-%d"
  = strptime "2016-09-01" "%Y-%m-%d"
  /\ strptime (season_end 2016) "%Y-%m-%d" = strptime "2017-07-01" "%Y-%m-%d".
Proof. vm_compute. split; reflexivity. Qed.

(* ===================================================================== *)
(** * Dates that do not parse                                           *)
(* ===================================================================== *)

Lemma strptime_raises (data fmt : string) (e : exc) :
  strptime data fmt = Raise e -> e = ValueError.
Proof.
  unfold strptime, make.
  destruct (match_format fmt _ data) as [|[f [|c rest]] l].
  - intros [= <-]. reflexivity.
  - destruct (_ && _); [discriminate|]. intros [= <-]. reflexivity.
  - intros [= <-]. reflexivity.
Qed.

Lemma py_int_raises (s : string) (e : exc) :
  py_int s = Raise e -> e = ValueError.
Proof.
  unfold py_int. cbn zeta.
  match goal with
  | |- match ?signed with Some _ => _ | None => _ end = _ -> _ =>
      destruct signed
  end; [discriminate|].
  intros [= <-]. reflexivity.
Qed.

Lemma invalid_date_run (env : Env) (from_date to_date : string)
  (preseason not_over : bool) (s : State) :
  is_ok (strptime from_date "%Y-%m-%d") = false
  \/ is_ok (strptime to_date "%Y-%m-%d") = false ->
  chunk_schedule_calls env from_date to_date s = (Raise ValueError, s)
  /\ scrape_schedule env from_date to_date preseason not_over s
     = (Raise ValueError, s).
Proof.
  intros H.
  assert (Hc : chunk_schedule_calls env from_date to_date s
               = (Raise ValueError, s)).
  { unfold chunk_schedule_calls, lift. cbn [bind Monad_M].
    destruct (strptime from_date "%Y-%m-%d") as [df|e] eqn:Ef.
    - destruct H as [H|H]; [discriminate|].
      destruct (strptime to_date "%Y-%m-%d") as [dt|e] eqn:Et; [discriminate|].
      rewrite (strptime_raises _ _ _ Et). reflexivity.
    - rewrite (strptime_raises _ _ _ Ef). reflexivity. }
  split; [exact Hc|].
  unfold scrape_schedule. cbn [bind Monad_M]. rewrite Hc. reflexivity.
Qed.

(** X1. A start or end date that ["%Y-%m-%d"] does not parse makes
    [chunk_schedule_calls] and [scrape_schedule] raise a [ValueError] before
    any request is sent. *)
Theorem scrape_schedule_invalid_date (env : Env) (from_date to_date : string)
  (preseason not_over : bool) (s : State) :
  is_ok (strptime from_date "%Y-%m-%d") = false
  \/ is_ok (strptime to_date "%Y-%m-%d") = false ->
  chunk_schedule_calls env from_date to_date s = (Raise ValueError, s)
  /\ scrape_schedule env from_date to_date preseason not_over s
     = (Raise ValueError, s).
Proof. apply invalid_date_run. Qed.

Lemma scrape_schedule_invalid_date_witness :
  chunk_schedule_calls Demo.env "2016-02-30" "2016-03-01" Demo.start
  = (Raise ValueError, Demo.start)
  /\ scrape_schedule Demo.env "2016-02-30" "2016-03-01" false false Demo.start
     = (Raise ValueError, Demo.start).
Proof.
  apply (scrape_schedule_invalid_date Demo.env "2016-02-30" "2016-03-01").
  left. vm_compute. reflexivity.
Defined.

(* ===================================================================== *)
(** * Identifiers                                                       *)
(* ===================================================================== *)

Section PrintedNumbers.

Lemma digits_value_printed (u : Decimal.uint) :
  forall acc,
    digits_value acc false (NilEmpty.string_of_uint u) = Some (uint_value acc u).
Proof.
  induction u; intros acc; cbn [NilEmpty.string_of_uint uint_value];
    [reflexivity|..]; apply IHu.
Qed.

Lemma str_drop_printed (n : nat) :
  forall u,
    str_drop n (NilEmpty.string_of_uint u) = NilEmpty.string_of_uint (udrop n u).
Proof.
  induction n as [|n IH]; intros u; [reflexivity|].
  destruct u; cbn [NilEmpty.string_of_uint str_drop udrop];
    [reflexivity|..]; apply IH.
Qed.

Lemma rstrip_printed (u : Decimal.uint) :
  rstrip (NilEmpty.string_of_uint u) = NilEmpty.string_of_uint u.
Proof.
  induction u; cbn [NilEmpty.string_of_uint rstrip]; [reflexivity|..];
    rewrite IHu; destruct (NilEmpty.string_of_uint u); reflexivity.
Qed.

Lemma py_int_printed (u : Decimal.uint) :
  py_int (NilEmpty.string_of_uint u)
  = match u with
    | Decimal.Nil => Raise ValueError
    | _ => Ok (uint_value 0 u)
    end.
Proof.
  unfold py_int.
  replace (lstrip (NilEmpty.string_of_uint u)) with (NilEmpty.string_of_uint u)
    by (destruct u; reflexivity).
  rewrite rstrip_printed.
  pose proof (digits_value_printed u 0) as Hv.
  destruct u; [reflexivity|..];
    cbn [NilEmpty.string_of_uint] in *; unfold unsigned_value;
    cbn [is_digit]; rewrite Hv; reflexivity.
Qed.

Lemma digits_nonneg (u : Decimal.uint) : 0 <= digit_count u.
Proof. unfold digit_count. lia. Qed.

Lemma uint_value_acc (u : Decimal.uint) :
  forall acc, uint_value acc u = acc * 10 ^ digit_count u + uint_value 0 u.
Proof.
  unfold digit_count.
  induction u; intros acc; cbn [uint_value Decimal.nb_digits];
    [cbn; lia|..];
    rewrite Nat2Z.inj_succ, Z.pow_succ_r by lia;
    rewrite (IHu (10 * acc + _)), (IHu (10 * 0 + _)); ring.
Qed.

Lemma uint_value_bounds (u : Decimal.uint) :
  0 <= uint_value 0 u < 10 ^ digit_count u.
Proof.
  unfold digit_count.
  induction u; cbn [uint_value Decimal.nb_digits]; [cbn; lia|..];
    rewrite Nat2Z.inj_succ, Z.pow_succ_r by lia;
    rewrite uint_value_acc; unfold digit_count; lia.
Qed.

Lemma uint_value_drop (n : nat) :
  forall u acc,
    exists q,
      uint_value acc u
      = q * 10 ^ digit_count (udrop n u) + uint_value 0 (udrop n u).
Proof.
  induction n as [|n IH]; intros u acc.
  - exists acc. apply uint_value_acc.
  - destruct u; cbn [udrop uint_value]; [exists acc; cbn; lia|..]; apply IH.
Qed.

Lemma digits_drop (n : nat) :
  forall u, digit_count (udrop n u) = Z.max 0 (digit_count u - Z.of_nat n).
Proof.
  unfold digit_count.
  induction n as [|n IH]; intros u; [cbn [udrop]; lia|].
  destruct u; cbn [udrop Decimal.nb_digits]; [lia|..]; rewrite IH; lia.
Qed.

Lemma to_uint_value (p : positive) : uint_value 0 (Pos.to_uint p) = Z.pos p.
Proof.
  assert (Hacc : forall u acc,
            Z.pos (Pos.of_uint_acc u acc) = uint_value (Z.pos acc) u).
  { induction u; intros acc; cbn [Pos.of_uint_acc uint_value];
      [reflexivity|..]; rewrite IHu; f_equal; lia. }
  assert (Hof : forall u, Z.of_N (Pos.of_uint u) = uint_value 0 u).
  { induction u; cbn [Pos.of_uint uint_value]; [reflexivity|exact IHu|..];
      cbn [Z.of_N]; rewrite Hacc; reflexivity. }
  rewrite <- Hof, DecimalPos.Unsigned.of_to. reflexivity.
Qed.

(** A printed positive number has as many digits as its size asks for. *)
Lemma to_uint_digits (p : positive) :
  10 ^ (digit_count (Pos.to_uint p) - 1) <= Z.pos p < 10 ^ digit_count (Pos.to_uint p).
Proof.
  pose proof (uint_value_bounds (Pos.to_uint p)) as Hb.
  rewrite to_uint_value in Hb. split; [|lia].
  assert (Hnorm : Decimal.unorm (Pos.to_uint p) = Pos.to_uint p).
  { rewrite <- DecimalPos.Unsigned.to_of, DecimalPos.Unsigned.of_to. reflexivity. }
  pose proof (to_uint_value p) as Hv.
  pose proof (DecimalPos.Unsigned.to_uint_nonzero p) as Hnz.
  unfold digit_count.
  destruct (Pos.to_uint p) as [|u|u|u|u|u|u|u|u|u|u];
    cbn [Decimal.nb_digits uint_value] in *;
    [cbn; lia| |
     rewrite Nat2Z.inj_succ; replace (Z.succ (Z.of_nat (Decimal.nb_digits u)) - 1)
       with (Z.of_nat (Decimal.nb_digits u)) by lia;
     rewrite uint_value_acc in Hv;
     pose proof (uint_value_bounds u); unfold digit_count in *; nia ..].
  exfalso. unfold Decimal.unorm in Hnorm. cbn [Decimal.nzhead] in Hnorm.
  destruct (Decimal.nzhead u) eqn:E;
    apply (DecimalFacts.nzhead_nonzero u u); congruence.
Qed.

Lemma pow_10_le (a b : Z) : 0 <= a -> 10 ^ a < 10 ^ b -> a < b.
Proof.
  intros Ha H. destruct (Z_lt_ge_dec a b) as [Hlt|Hge]; [exact Hlt|].
  exfalso. destruct (Z_lt_ge_dec b 0) as [Hneg|Hpos].
  - rewrite (Z.pow_neg_r 10 b Hneg) in H.
    pose proof (Z.pow_pos_nonneg 10 a ltac:(lia) Ha). lia.
  - pose proof (Z.pow_le_mono_r 10 b a ltac:(lia) ltac:(lia)). lia.
Qed.

Lemma printed_positive (p : positive) :
  str_of_int (Z.pos p) = NilEmpty.string_of_uint (Pos.to_uint p).
Proof.
  unfold str_of_int.
  change (NilZero.string_of_int (Z.to_int (Z.pos p)))
    with (NilZero.string_of_uint (Pos.to_uint p)).
  pose proof (DecimalPos.Unsigned.to_uint_nonnil p) as Hnn.
  destruct (Pos.to_uint p); [congruence|..]; reflexivity.
Qed.

Lemma decoded_id_ten_digits (pk : Z) :
  1000000000 <= pk <= 9999999999 -> decoded_id pk = Ok (pk mod 100000).
Proof.
  unfold decoded_id. cbn [py_str]. intros Hpk.
  destruct pk as [|p|p]; try lia.
  rewrite printed_positive, str_drop_printed, py_int_printed.
  pose proof (to_uint_digits p) as Hd.
  assert (Hlen : digit_count (Pos.to_uint p) = 10).
  { pose proof (digits_nonneg (Pos.to_uint p)).
    assert (9 < digit_count (Pos.to_uint p)).
    { apply pow_10_le; [lia|]. change (10 ^ 9) with 1000000000. lia. }
    assert (digit_count (Pos.to_uint p) - 1 < 10).
    { apply pow_10_le; [lia|]. change (10 ^ 10) with 10000000000. lia. }
    lia. }
  pose proof (digits_drop 5 (Pos.to_uint p)) as Hrest.
  rewrite Hlen in Hrest. change (Z.max 0 (10 - Z.of_nat 5)) with 5 in Hrest.
  destruct (uint_value_drop 5 (Pos.to_uint p) 0) as (q & Hq).
  rewrite to_uint_value, Hrest in Hq.
  pose proof (uint_value_bounds (udrop 5 (Pos.to_uint p))) as Hb.
  rewrite Hrest in Hb. change (10 ^ 5) with 100000 in *.
  assert (Hmod : Z.pos p mod 100000 = uint_value 0 (udrop 5 (Pos.to_uint p))).
  { symmetry. apply (Z.mod_unique _ _ q); [left; lia|lia]. }
  rewrite Hmod.
  destruct (udrop 5 (Pos.to_uint p)); [discriminate Hrest|..]; reflexivity.
Qed.

Lemma decoded_id_short (pk : Z) :
  0 <= pk <= 99999 -> decoded_id pk = Raise ValueError.
Proof.
  unfold decoded_id. cbn [py_str]. intros Hpk.
  assert (Hnil : forall p, Z.pos p <= 99999 ->
                   udrop 5 (Pos.to_uint p) = Decimal.Nil).
  { intros p Hp. pose proof (to_uint_digits p) as Hd.
    pose proof (digits_nonneg (Pos.to_uint p)).
    assert (digit_count (Pos.to_uint p) - 1 < 5).
    { apply pow_10_le; [|change (10 ^ 5) with 100000; lia].
      destruct (Z_le_gt_dec 1 (digit_count (Pos.to_uint p))); [lia|].
      exfalso. replace (digit_count (Pos.to_uint p)) with 0 in Hd by lia.
      cbn in Hd. lia. }
    pose proof (digits_drop 5 (Pos.to_uint p)) as Hrest.
    apply DecimalFacts.nb_digits_0. unfold digit_count in *. lia. }
  destruct pk as [|p|p]; try lia; [reflexivity|].
  rewrite printed_positive, str_drop_printed, py_int_printed, Hnil by lia.
  reflexivity.
Qed.

End PrintedNumbers.

(** X9. Of a ten-digit identifier [scrape_schedule] decodes the last five
    digits, so the range test is on [gamePk mod 100000]; a non-negative
    identifier of at most five digits cannot be decoded, [int] of the empty
    string being a [ValueError]. *)
Theorem decoded_id_last_five (pk : Z) :
  (1000000000 <= pk <= 9999999999 -> decoded_id pk = Ok (pk mod 100000))
  /\ (0 <= pk <= 99999 -> decoded_id pk = Raise ValueError).
Proof.
  split; [apply decoded_id_ten_digits|apply decoded_id_short].
Qed.

Lemma decoded_id_last_five_witness :
  decoded_id 2016020001 = Ok 20001 /\ decoded_id 2016 = Raise ValueError.
Proof.
  split.
  - apply (proj1 (decoded_id_last_five 2016020001)). lia.
  - apply (proj2 (decoded_id_last_five 2016)). lia.
Defined.

(* ===================================================================== *)
(** * Dates printed and read again                                      *)
(* ===================================================================== *)

Section Printing.

Lemma all_from_spec (fuel : nat) (p : Z -> bool) :
  forall k, all_from fuel k p = true ->
  forall i, k <= i < k + Z.of_nat fuel -> p i = true.
Proof.
  induction fuel as [|fuel IH]; intros k H i Hi; [lia|].
  cbn [all_from] in H. apply andb_prop in H. destruct H as [Hk Hrest].
  destruct (Z.eq_dec i k) as [->|Hne]; [exact Hk|].
  apply (IH (k + 1) Hrest). lia.
Qed.

Lemma conj_all_In {A : Type} (P : A -> Prop) (l : list A) (x : A) :
  conj_all P l -> In x l -> P x.
Proof.
  induction l as [|y l IH]; intros H Hin; [destruct Hin|].
  destruct H as [Hy Hl]. destruct Hin as [<-|Hin]; [exact Hy|auto].
Qed.

(** *** Ordinals and dates *)

Lemma cycle_table : all_from (Z.to_nat _DI400Y) 0 in_cycle = true.
Proof. vm_compute. reflexivity. Qed.

Lemma days_before_year_shift (y q : Z) :
  _days_before_year (y + 400 * q) = _days_before_year y + _DI400Y * q.
Proof.
  unfold _days_before_year, _DI400Y. cbn zeta.
  replace (y + 400 * q - 1) with (y - 1 + 400 * q) by lia.
  replace ((y - 1 + 400 * q) / 4) with ((y - 1) / 4 + 100 * q)
    by (replace (y - 1 + 400 * q) with (y - 1 + (100 * q) * 4) by lia;
        rewrite Z.div_add by lia; reflexivity).
  replace ((y - 1 + 400 * q) / 100) with ((y - 1) / 100 + 4 * q)
    by (replace (y - 1 + 400 * q) with (y - 1 + (4 * q) * 100) by lia;
        rewrite Z.div_add by lia; reflexivity).
  replace ((y - 1 + 400 * q) / 400) with ((y - 1) / 400 + q)
    by (replace (y - 1 + 400 * q) with (y - 1 + q * 400) by lia;
        rewrite Z.div_add by lia; reflexivity).
  lia.
Qed.

Lemma is_leap_shift (y q : Z) : _is_leap (y + 400 * q) = _is_leap y.
Proof.
  unfold _is_leap.
  replace ((y + 400 * q) mod 4) with (y mod 4)
    by (replace (y + 400 * q) with (y + (100 * q) * 4) by lia;
        rewrite Z.mod_add by lia; reflexivity).
  replace ((y + 400 * q) mod 100) with (y mod 100)
    by (replace (y + 400 * q) with (y + (4 * q) * 100) by lia;
        rewrite Z.mod_add by lia; reflexivity).
  replace ((y + 400 * q) mod 400) with (y mod 400)
    by (replace (y + 400 * q) with (y + q * 400) by lia;
        rewrite Z.mod_add by lia; reflexivity).
  reflexivity.
Qed.

Lemma ymd2ord_shift (y m d q : Z) :
  _ymd2ord (y + 400 * q) m d = _ymd2ord y m d + _DI400Y * q.
Proof.
  unfold _ymd2ord, _days_before_month.
  rewrite days_before_year_shift, is_leap_shift. lia.
Qed.

Lemma days_in_month_shift (y m q : Z) :
  _days_in_month (y + 400 * q) m = _days_in_month y m.
Proof. unfold _days_in_month. rewrite is_leap_shift. reflexivity. Qed.

Lemma ord2ymd_shift (n : Z) :
  let q := (n - 1) / _DI400Y in
  let r := (n - 1) mod _DI400Y in
  _ord2ymd n
  = (let '(y, m, d) := _ord2ymd (r + 1) in (y + 400 * q, m, d)).
Proof.
  intros q r.
  assert (Hr : 0 <= r < _DI400Y) by (apply Z.mod_pos_bound; reflexivity).
  unfold _ord2ymd. cbn zeta.
  replace (r + 1 - 1) with r by lia.
  rewrite (Z.div_small r _DI400Y Hr), (Z.mod_small r _DI400Y Hr).
  fold q. fold r.
  repeat match goal with
    | |- context [if ?b then _ else _] => destruct b
    end; f_equal; try f_equal; lia.
Qed.

Lemma days_before_year_mono (y : Z) :
  10000 <= y -> _MAXORDINAL <= _days_before_year y.
Proof.
  unfold _days_before_year, _MAXORDINAL. intros Hy.
  Z.to_euclidean_division_equations. lia.
Qed.

(** Every ordinal a [datetime] can hold is a date, and converting the date
    back gives the ordinal. *)
Lemma ord2ymd_valid (n : Z) :
  1 <= n <= _MAXORDINAL ->
  let '(y, m, d) := _ord2ymd n in
  1 <= y <= 9999 /\ 1 <= m <= 12 /\ 1 <= d <= _days_in_month y m
  /\ _ymd2ord y m d = n.
Proof.
  intros Hn.
  pose proof (ord2ymd_shift n) as Hshift. cbn zeta in Hshift.
  set (q := (n - 1) / _DI400Y) in *.
  set (r := (n - 1) mod _DI400Y) in *.
  assert (Hr : 0 <= r < _DI400Y) by (apply Z.mod_pos_bound; reflexivity).
  assert (Hq : 0 <= q).
  { apply Z.div_pos; [lia|reflexivity]. }
  assert (Hsplit : n - 1 = _DI400Y * q + r) by (apply Z.div_mod; discriminate).
  pose proof (all_from_spec _ _ 0 cycle_table r) as Htab.
  rewrite Z2Nat.id in Htab by discriminate.
  specialize (Htab ltac:(lia)). unfold in_cycle in Htab.
  rewrite Hshift.
  destruct (_ord2ymd (r + 1)) as [[y m] d].
  repeat (apply andb_prop in Htab; destruct Htab as [Htab ?]).
  rewrite days_in_month_shift, ymd2ord_shift.
  assert (Hord : _ymd2ord y m d = r + 1) by lia.
  assert (Hy : y + 400 * q <= 9999).
  { destruct (Z_le_gt_dec (y + 400 * q) 9999) as [Hle|Hgt]; [exact Hle|].
    exfalso.
    pose proof (days_before_year_mono (y + 400 * q) ltac:(lia)) as Hbig.
    pose proof (ymd2ord_shift y m d q) as Hs.
    unfold _ymd2ord in Hs at 1.
    assert (0 <= _days_before_month (y + 400 * q) m).
    { unfold _days_before_month.
      assert (Hcases : m = 1 \/ m = 2 \/ m = 3 \/ m = 4 \/ m = 5 \/ m = 6
                       \/ m = 7 \/ m = 8 \/ m = 9 \/ m = 10 \/ m = 11
                       \/ m = 12) by lia.
      destruct (_ && _);
        repeat (destruct Hcases as [->|Hcases]); try subst m;
        vm_compute; discriminate. }
    lia. }
  repeat split; lia.
Qed.

Lemma days_in_month_le_31 (y m : Z) :
  1 <= m <= 12 -> _days_in_month y m <= 31.
Proof.
  intros Hm. unfold _days_in_month.
  assert (Hcases : m = 1 \/ m = 2 \/ m = 3 \/ m = 4 \/ m = 5 \/ m = 6
                   \/ m = 7 \/ m = 8 \/ m = 9 \/ m = 10 \/ m = 11
                   \/ m = 12) by lia.
  destruct (_ && _); [lia|].
  repeat (destruct Hcases as [->|Hcases]); try subst m;
    match goal with
    | |- nth ?n ?l ?x <= _ =>
        let v := eval vm_compute in (nth n l x) in
        change (nth n l x) with v
    end; lia.
Qed.

Lemma days_before_year_le (a b : Z) :
  a <= b -> _days_before_year a <= _days_before_year b.
Proof.
  unfold _days_before_year. cbn zeta. intros Hab.
  Z.to_euclidean_division_equations. lia.
Qed.

(** A later day is not of an earlier year. *)
Lemma year_mono (d1 d2 : datetime) :
  1 <= toordinal d1 -> toordinal d1 <= toordinal d2 ->
  toordinal d2 <= _MAXORDINAL -> year d1 <= year d2.
Proof.
  intros H1 H12 H2.
  pose proof (ord2ymd_valid (toordinal d1) ltac:(lia)) as V1.
  pose proof (ord2ymd_valid (toordinal d2) ltac:(lia)) as V2.
  unfold year.
  destruct (_ord2ymd (toordinal d1)) as [[y1 m1] dd1].
  destruct (_ord2ymd (toordinal d2)) as [[y2 m2] dd2].
  cbn [fst].
  destruct V1 as (Hy1 & Hm1 & Hd1 & Hb1), V2 as (Hy2 & Hm2 & Hd2 & Hb2).
  unfold _ymd2ord in Hb1, Hb2.
  pose proof (day_of_year_bounds y1 m1 dd1 Hm1 Hd1) as D1.
  pose proof (day_of_year_bounds y2 m2 dd2 Hm2 Hd2) as D2.
  pose proof (days_before_next_year y2) as N2.
  destruct (Z_le_gt_dec y1 y2) as [Hle|Hgt]; [exact Hle|].
  exfalso.
  pose proof (days_before_year_le (y2 + 1) y1 ltac:(lia)).
  lia.
Qed.

(** *** Digits *)

Lemma year_table : all_from (Z.to_nat 9000) 1000 year_printed = true.
Proof. vm_compute. reflexivity. Qed.

Lemma two_table : all_from (Z.to_nat 31) 1 two_printed = true.
Proof. vm_compute. reflexivity. Qed.

Lemma month_day_table (y : Z) : conj_all (month_day_read y) months_days.
Proof. vm_compute. repeat split. Qed.

Lemma in_months_days (m d : Z) :
  1 <= m <= 12 -> 1 <= d <= 31 -> In (m, d) months_days.
Proof.
  intros Hm Hd. unfold months_days. apply in_flat_map.
  exists (Z.to_nat m). split; [apply in_seq; lia|].
  apply in_map_iff. exists (Z.to_nat d).
  split; [|apply in_seq; lia].
  rewrite !Z2Nat.id by lia. reflexivity.
Qed.

Lemma is_digit_value (c : ascii) :
  is_digit c = true -> (0 <=? digit_value c) && (digit_value c <=? 9) = true.
Proof.
  unfold is_digit, digit_value. cbn zeta. intros H.
  apply andb_prop in H. destruct H as [H1 H2].
  apply Z.leb_le in H1, H2.
  apply andb_true_intro. split; apply Z.leb_le; lia.
Qed.

Lemma digit_any (c : ascii) (rest : string) :
  is_digit c = true -> digit 0 9 (String c rest) = [(digit_value c, rest)].
Proof.
  intros H. unfold digit. rewrite <- andb_assoc, H, (is_digit_value c H).
  reflexivity.
Qed.

Lemma directive_year (s rest : string) (y : Z) (f : fields) :
  four_digits s = Some y ->
  directive "Y" f (s ++ rest)
  = [(mk_fields y (f_month f) (f_day f) (f_hour f) (f_minute f) (f_second f),
      rest)].
Proof.
  destruct s as [|a [|b [|c [|e [|x s]]]]]; try discriminate.
  unfold four_digits.
  destruct (is_digit a) eqn:Ea; [|discriminate].
  destruct (is_digit b) eqn:Eb; [|discriminate].
  destruct (is_digit c) eqn:Ec; [|discriminate].
  destruct (is_digit e) eqn:Ee; [|discriminate].
  intros [= <-].
  unfold directive.
  change (Ascii.eqb "Y" "Y") with true. cbn iota.
  cbn [append bind Monad_matcher ret].
  rewrite (digit_any a _ Ea). cbn [flat_map fst snd app].
  rewrite (digit_any b _ Eb). cbn [flat_map fst snd app].
  rewrite (digit_any c _ Ec). cbn [flat_map fst snd app].
  rewrite (digit_any e _ Ee). cbn [flat_map fst snd app].
  reflexivity.
Qed.

(** A year of four digits, a dash, and a month and a day that ["%m-%d"]
    reads. *)
Lemma strptime_year_then (s tail : string) (y m d : Z) :
  four_digits s = Some y ->
  (match match_format "%m-%d" (mk_fields y 1 1 0 0 0) tail with
   | (f, EmptyString) :: _ => f = mk_fields y m d 0 0 0
   | _ => False
   end) ->
  strptime (s ++ "-" ++ tail) "%Y-%m-%d" = make (mk_fields y m d 0 0 0).
Proof.
  intros Hs Hmd. unfold strptime.
  change (match_format "%Y-%m-%d" (mk_fields 1900 1 1 0 0 0)
            (s ++ "-" ++ tail))
    with (flat_map
            (fun r => flat_map
                        (fun r' => match_format "%m-%d" (fst r) (snd r'))
                        (lit "-" (snd r)))
            (directive "Y" (mk_fields 1900 1 1 0 0 0) (s ++ "-" ++ tail))).
  rewrite (directive_year _ _ y _ Hs).
  cbn [flat_map fst snd f_month f_day f_hour f_minute f_second].
  change (lit "-" ("-" ++ tail)) with [(tt, tail)].
  cbn [flat_map fst snd]. rewrite !app_nil_r.
  destruct (match_format "%m-%d" (mk_fields y 1 1 0 0 0) tail)
    as [|[f [|c rest]] l]; try contradiction.
  rewrite Hmd. reflexivity.
Qed.

Lemma printed_year (y : Z) :
  1000 <= y <= 9999 -> four_digits (str_of_int y) = Some y.
Proof.
  intros Hy.
  pose proof (all_from_spec _ _ 1000 year_table y ltac:(lia)) as Hyear.
  unfold year_printed in Hyear.
  destruct (four_digits (str_of_int y)) as [v|]; [|discriminate].
  apply Z.eqb_eq in Hyear. congruence.
Qed.

(** A date from the year 1000 on, printed by ["%Y-%m-%d"], is read back by
    the same format. *)
Lemma strptime_printed (y m d : Z) :
  1000 <= y <= 9999 -> 1 <= m <= 12 -> 1 <= d <= 31 ->
  strptime (str_of_int y ++ "-" ++ pad2 m ++ "-" ++ pad2 d) "%Y-%m-%d"
  = make (mk_fields y m d 0 0 0).
Proof.
  intros Hy Hm Hd.
  apply (strptime_year_then _ _ y m d (printed_year y Hy)).
  exact (conj_all_In _ _ _ (month_day_table y) (in_months_days m d Hm Hd)).
Qed.

Lemma append_nil_r (s : string) : s ++ "" = s.
Proof. induction s as [|c s IH]; cbn; [|rewrite IH]; reflexivity. Qed.

Lemma append_assoc (a b c : string) : (a ++ b) ++ c = a ++ b ++ c.
Proof. induction a as [|x a IH]; cbn; [|rewrite IH]; reflexivity. Qed.

Lemma strftime_date (d : datetime) :
  strftime d "%Y-%m-%d"
  = str_of_int (year d) ++ "-" ++ pad2 (month d) ++ "-" ++ pad2 (day d).
Proof.
  cbn [strftime Ascii.eqb Bool.eqb].
  change (pad2 (day d) ++ "") with (pad2 (day d) ++ EmptyString).
  rewrite append_nil_r. reflexivity.
Qed.

(** A date at midnight from the year 1000 on, printed and parsed with
    ["%Y-%m-%d"], is itself. *)
Lemma strptime_strftime (d : datetime) :
  1 <= toordinal d <= _MAXORDINAL -> second_of_day d = 0 ->
  1000 <= year d ->
  strptime (strftime d "%Y-%m-%d") "%Y-%m-%d" = Ok d.
Proof.
  intros Hord Hsec Hyear.
  pose proof (ord2ymd_valid (toordinal d) Hord) as Hvalid.
  rewrite strftime_date. unfold year, month, day in *.
  destruct (_ord2ymd (toordinal d)) as [[y m] dd]. cbn [fst snd] in *.
  destruct Hvalid as (Hy & Hm & Hd & Hback).
  pose proof (days_in_month_le_31 y m Hm) as Hd31.
  rewrite strptime_printed by lia.
  unfold make. cbn [f_year f_month f_day f_hour f_minute f_second].
  replace ((1 <=? y) && (y <=? 9999) && (1 <=? m) && (m <=? 12)
           && (1 <=? dd) && (dd <=? _days_in_month y m)) with true.
  - cbn. rewrite Hback. destruct d as [o sod]. cbn in Hsec. subst sod.
    reflexivity.
  - symmetry. repeat (apply andb_true_intro; split); apply Z.leb_le; lia.
Qed.

(** *** Printed dates told apart *)

Lemma length_append (a b : string) :
  String.length (a ++ b) = (String.length a + String.length b)%nat.
Proof. induction a as [|c a IH]; cbn; [reflexivity|rewrite IH; reflexivity]. Qed.

Lemma str_take_append (a b : string) :
  str_take (String.length a) (a ++ b) = a.
Proof. induction a as [|c a IH]; cbn; [destruct b|rewrite IH]; reflexivity. Qed.

Lemma append_cancel (p a b : string) : p ++ a = p ++ b -> a = b.
Proof.
  induction p as [|c p IH]; cbn; intros H; [exact H|].
  injection H as H. exact (IH H).
Qed.

Lemma all_digits_printed (u : Decimal.uint) :
  all_digits (NilEmpty.string_of_uint u) = true.
Proof. induction u; cbn [NilEmpty.string_of_uint all_digits]; auto. Qed.

Lemma digits_split (a b r1 r2 : string) :
  all_digits a = true -> all_digits b = true ->
  a ++ String "-" r1 = b ++ String "-" r2 -> a = b /\ r1 = r2.
Proof.
  revert b. induction a as [|x a IH]; intros [|y b] Ha Hb Heq;
    cbn [append all_digits] in *.
  - injection Heq as <-. split; reflexivity.
  - injection Heq as <- _. discriminate Hb.
  - injection Heq as -> _. discriminate Ha.
  - injection Heq as <- Heq.
    apply andb_prop in Ha, Hb.
    destruct (IH b (proj2 Ha) (proj2 Hb) Heq) as [-> ->].
    split; reflexivity.
Qed.

Lemma printed_year_inj (y1 y2 : Z) :
  0 < y1 -> 0 < y2 -> str_of_int y1 = str_of_int y2 -> y1 = y2.
Proof.
  intros H1 H2 Heq.
  destruct y1 as [|p1|p1]; try lia. destruct y2 as [|p2|p2]; try lia.
  rewrite !printed_positive in Heq.
  pose proof (digits_value_printed (Pos.to_uint p1) 0) as V1.
  pose proof (digits_value_printed (Pos.to_uint p2) 0) as V2.
  rewrite Heq, V2, !to_uint_value in V1. congruence.
Qed.

(** Two days told apart by what follows their printed dates or not at all:
    a printed date is never the beginning of another one. *)
Lemma printed_date_prefix (d1 d2 : datetime) (rest1 rest2 : string) :
  1 <= toordinal d1 <= _MAXORDINAL -> 1 <= toordinal d2 <= _MAXORDINAL ->
  strftime d1 "%Y-%m-%d" ++ rest1 = strftime d2 "%Y-%m-%d" ++ rest2 ->
  toordinal d1 = toordinal d2.
Proof.
  intros H1 H2.
  pose proof (ord2ymd_valid (toordinal d1) H1) as V1.
  pose proof (ord2ymd_valid (toordinal d2) H2) as V2.
  rewrite !strftime_date. unfold year, month, day.
  destruct (_ord2ymd (toordinal d1)) as [[y1 m1] dd1].
  destruct (_ord2ymd (toordinal d2)) as [[y2 m2] dd2].
  cbn [fst snd].
  destruct V1 as (Hy1 & Hm1 & Hd1 & Hb1), V2 as (Hy2 & Hm2 & Hd2 & Hb2).
  pose proof (days_in_month_le_31 y1 m1 Hm1) as L1.
  pose proof (days_in_month_le_31 y2 m2 Hm2) as L2.
  rewrite !append_assoc. intros Heq.
  assert (Hdigits : forall y, 1 <= y -> all_digits (str_of_int y) = true).
  { intros [|p|p] Hp; try lia. rewrite printed_positive.
    apply all_digits_printed. }
  change ("-" ++ ?x) with (String "-" x) in Heq.
  apply digits_split in Heq; [|apply Hdigits; lia|apply Hdigits; lia].
  destruct Heq as [Hyear Htail].
  apply printed_year_inj in Hyear; [|lia|lia]. subst y2.
  rewrite <- !append_assoc in Htail.
  assert (Hlen : forall m d, 1 <= m <= 12 -> 1 <= d <= 31 ->
            String.length (pad2 m ++ "-" ++ pad2 d) = 5%nat).
  { intros m d Hm Hd.
    pose proof (all_from_spec _ _ 1 two_table m ltac:(lia)) as Em.
    pose proof (all_from_spec _ _ 1 two_table d ltac:(lia)) as Ed.
    apply Nat.eqb_eq in Em, Ed.
    rewrite !length_append, Em, Ed. reflexivity. }
  assert (Hmd : pad2 m1 ++ "-" ++ pad2 dd1 = pad2 m2 ++ "-" ++ pad2 dd2).
  { rewrite <- (str_take_append (pad2 m1 ++ "-" ++ pad2 dd1) rest1).
    rewrite <- (str_take_append (pad2 m2 ++ "-" ++ pad2 dd2) rest2).
    rewrite !Hlen by lia. rewrite <- !append_assoc. rewrite Htail.
    reflexivity. }
  pose proof (conj_all_In _ _ _ (month_day_table y1)
                (in_months_days m1 dd1 Hm1 ltac:(lia))) as R1.
  pose proof (conj_all_In _ _ _ (month_day_table y1)
                (in_months_days m2 dd2 Hm2 ltac:(lia))) as R2.
  unfold month_day_read in R1, R2. cbn [fst snd] in R1, R2.
  rewrite Hmd in R1.
  destruct (match_format "%m-%d" (mk_fields y1 1 1 0 0 0)
              (pad2 m2 ++ "-" ++ pad2 dd2)) as [|[f [|c rest]] l];
    try contradiction.
  assert (Hfields : mk_fields y1 m1 dd1 0 0 0 = mk_fields y1 m2 dd2 0 0 0)
    by congruence.
  injection Hfields as -> ->. congruence.
Qed.

Lemma strftime_injective (d1 d2 : datetime) :
  1 <= toordinal d1 <= _MAXORDINAL -> 1 <= toordinal d2 <= _MAXORDINAL ->
  strftime d1 "%Y-%m-%d" = strftime d2 "%Y-%m-%d" ->
  toordinal d1 = toordinal d2.
Proof.
  intros H1 H2 Heq. apply (printed_date_prefix d1 d2 "" "" H1 H2).
  rewrite Heq. reflexivity.
Qed.

End Printing.

(* ===================================================================== *)
(** * The loop of the chunker                                           *)
(* ===================================================================== *)

Section Loops.

Lemma for_each_M_app {A B : Type} (xs ys : list A) (body : B -> A -> M B) :
  forall (acc : B) (s : State),
    for_each (xs ++ ys) acc body s
    = (acc' <- for_each xs acc body ;; for_each ys acc' body) s.
Proof.
  induction xs as [|x xs IH]; intros acc s; cbn [app for_each bind Monad_M].
  - reflexivity.
  - destruct (body acc x s) as [[acc'|e] s']; [apply IH|reflexivity].
Qed.

Lemma for_each_M_map {A A' B : Type} (f : A -> A') (xs : list A)
  (body : B -> A' -> M B) :
  forall (acc : B) (s : State),
    for_each (map f xs) acc body s
    = for_each xs acc (fun b x => body b (f x)) s.
Proof.
  induction xs as [|x xs IH]; intros acc s; cbn [map for_each bind Monad_M].
  - reflexivity.
  - destruct (body acc (f x) s) as [[acc'|e] s']; [apply IH|reflexivity].
Qed.

Lemma for_each_M_ext_in {A B : Type} (xs : list A) (f g : B -> A -> M B) :
  (forall acc x s, In x xs -> f acc x s = g acc x s) ->
  forall (acc : B) (s : State), for_each xs acc f s = for_each xs acc g s.
Proof.
  induction xs as [|x xs IH]; intros H acc s; cbn [for_each bind Monad_M].
  - reflexivity.
  - rewrite (H acc x s (or_introl eq_refl)).
    destruct (g acc x s) as [[acc'|e] s']; [|reflexivity].
    apply IH. intros. apply H. right. assumption.
Qed.

Lemma for_each_result_map {A A' B : Type} (f : A -> A') (xs : list A)
  (body : B -> A' -> result B) :
  forall acc : B,
    for_each (map f xs) acc body = for_each xs acc (fun b x => body b (f x)).
Proof.
  induction xs as [|x xs IH]; intros acc; cbn [map for_each bind Monad_result].
  - reflexivity.
  - destruct (body acc (f x)); [apply IH|reflexivity].
Qed.

Lemma for_each_result_ext_in {A B : Type} (xs : list A)
  (f g : B -> A -> result B) :
  (forall acc x, In x xs -> f acc x = g acc x) ->
  forall acc : B, for_each xs acc f = for_each xs acc g.
Proof.
  induction xs as [|x xs IH]; intros H acc; cbn [for_each bind Monad_result].
  - reflexivity.
  - rewrite (H acc x (or_introl eq_refl)).
    destruct (g acc x); [|reflexivity].
    apply IH. intros. apply H. right. assumption.
Qed.

Lemma for_each_unchanged {A B : Type} (xs : list A) (body : B -> A -> result B) :
  Forall (fun x => forall acc, body acc x = Ok acc) xs ->
  forall acc, for_each xs acc body = Ok acc.
Proof.
  induction 1 as [|x xs Hx _ IH]; intros acc; cbn [for_each bind Monad_result].
  - reflexivity.
  - rewrite Hx. apply IH.
Qed.

Lemma NoDup_map_sorted {A B : Type} (R : A -> A -> Prop) (f : A -> B)
  (l : list A) :
  StronglySorted R l ->
  (forall x y, In x l -> In y l -> R x y -> f x <> f y) ->
  NoDup (map f l).
Proof.
  induction 1 as [|x l Hl IH Hx]; intros Hf; cbn [map]; constructor.
  - intros Hin. apply in_map_iff in Hin. destruct Hin as (y & Hy & Hin).
    rewrite Forall_forall in Hx.
    apply (Hf x y (or_introl eq_refl) (or_intror Hin) (Hx y Hin)).
    symmetry. exact Hy.
  - apply IH. intros a b Ha Hb. apply Hf; right; assumption.
Qed.

End Loops.

Section ChunkerLoop.

Variable env : Env.

Lemma chunk_step_run (sched : list json) (c : datetime * datetime)
  (s : State) :
  chunk_step env sched c s
  = (match dates_of env c with
     | Ok dates => Ok (sched ++ [dates])%list
     | Raise e => Raise e
     end, sent s [chunk_request env c]).
Proof.
  unfold chunk_step, dates_of, lift. cbn [bind Monad_M].
  rewrite get_schedule_run. fold (chunk_request env c).
  destruct (answer env (chunk_request env c)) as [obj|e];
    cbn [bind Monad_result]; [|reflexivity].
  destruct (getitem obj "dates"); reflexivity.
Qed.

(** With both dates parsed, the loop of [chunk_schedule_calls] takes one
    turn per sub-range. *)
Lemma chunk_schedule_calls_loop (from_date to_date : string)
  (df dt : datetime) (s : State) :
  strptime from_date "%Y-%m-%d" = Ok df ->
  strptime to_date "%Y-%m-%d" = Ok dt ->
  chunk_schedule_calls env from_date to_date s
  = for_each (chunks df dt) [] (chunk_step env) s.
Proof.
  intros Hf Ht.
  destruct (strptime_date_valid _ _ Hf) as [Hfo Hfs].
  destruct (strptime_date_valid _ _ Ht) as [Hto Hts].
  destruct (num_days_of_dates _ _ _ _ Hf Ht) as [Hn _].
  unfold chunk_schedule_calls, lift.
  cbn [bind Monad_M]. rewrite Hf, Ht.
  unfold chunks. rewrite for_each_M_map.
  set (num_days := sub_days dt df + 1) in *.
  apply for_each_M_ext_in.
  intros acc offset s0 Hin.
  apply py_range_bounds in Hin; [|reflexivity].
  unfold days_per_call, _MAXORDINAL in *.
  assert (Hadd1 : (delta <- timedelta offset ;; add df delta)
                  = Ok (fst (chunk_bounds df num_days offset))).
  { unfold timedelta, add, chunk_bounds, _MAXORDINAL.
    cbn [bind Monad_result fst].
    destruct (Z.leb_spec (Z.abs offset) 999999999); [|lia].
    destruct (Z.ltb_spec 0 (toordinal df + offset)); [|lia].
    destruct (Z.leb_spec (toordinal df + offset) 3652059); [|lia].
    reflexivity. }
  assert (Hadd2 : (delta <- timedelta (Z.min (num_days - 1) (offset + 100 - 1)) ;;
                   add df delta)
                  = Ok (snd (chunk_bounds df num_days offset))).
  { unfold timedelta, add, chunk_bounds, days_per_call, _MAXORDINAL.
    cbn [bind Monad_result snd].
    set (e := Z.min (num_days - 1) (offset + 100 - 1)).
    assert (0 <= e <= num_days - 1) by (unfold e; lia).
    destruct (Z.leb_spec (Z.abs e) 999999999); [|lia].
    destruct (Z.ltb_spec 0 (toordinal df + e)); [|lia].
    destruct (Z.leb_spec (toordinal df + e) 3652059); [|lia].
    reflexivity. }
  cbn [bind Monad_M]. rewrite Hadd1, Hadd2. reflexivity.
Qed.

Lemma chunk_steps_answered (cs : list (datetime * datetime)) :
  (forall c, In c cs -> is_ok (dates_of env c) = true) ->
  forall (acc : list json) (s : State),
    exists out,
      for_each cs acc (chunk_step env) s
      = (Ok out, sent s (map (chunk_request env) cs)).
Proof.
  induction cs as [|c cs IH]; intros Hok acc s.
  - exists acc. cbn. rewrite sent_nil. reflexivity.
  - cbn [for_each bind Monad_M map]. rewrite chunk_step_run.
    pose proof (Hok c (or_introl eq_refl)) as Hc.
    destruct (dates_of env c) as [dates|e]; [|discriminate].
    destruct (IH (fun c' H => Hok c' (or_intror H)) (acc ++ [dates])%list
                 (sent s [chunk_request env c])) as (out & Hout).
    exists out. rewrite Hout, sent_sent. reflexivity.
Qed.

Lemma chunk_steps_failing (good rest : list (datetime * datetime))
  (c : datetime * datetime) (e : exc) (s : State) :
  (forall c', In c' good -> is_ok (dates_of env c') = true) ->
  dates_of env c = Raise e ->
  for_each (good ++ c :: rest) [] (chunk_step env) s
  = (Raise e, sent s (map (chunk_request env) (good ++ [c]))).
Proof.
  intros Hgood Hc. rewrite for_each_M_app. cbn [bind Monad_M].
  destruct (chunk_steps_answered good Hgood [] s) as (out & Hout).
  rewrite Hout. cbn [for_each bind Monad_M]. rewrite chunk_step_run, Hc.
  rewrite sent_sent, map_app. reflexivity.
Qed.

Lemma chunk_steps_prefix (cs : list (datetime * datetime)) :
  forall (acc : list json) (s : State),
    exists k,
      snd (for_each cs acc (chunk_step env) s)
      = sent s (map (chunk_request env) (firstn k cs)).
Proof.
  induction cs as [|c cs IH]; intros acc s.
  - exists 0%nat. cbn. rewrite sent_nil. reflexivity.
  - cbn [for_each bind Monad_M]. rewrite chunk_step_run.
    destruct (dates_of env c) as [dates|e].
    + destruct (IH (acc ++ [dates])%list (sent s [chunk_request env c]))
        as (k & Hk).
      exists (S k). rewrite Hk, sent_sent. reflexivity.
    + exists 1%nat. reflexivity.
Qed.

Lemma length_chunks (df dt : datetime) :
  List.length (chunks df dt) = chunk_count (sub_days dt df + 1).
Proof.
  unfold chunks, py_range, chunk_count.
  rewrite !length_map, length_seq. reflexivity.
Qed.

Lemma py_range_one_chunk (n : Z) :
  1 <= n <= days_per_call -> py_range n days_per_call = [0].
Proof.
  unfold py_range, days_per_call. intros Hn.
  replace ((n + 100 - 1) / 100) with 1; [reflexivity|].
  apply Z.div_unique with (r := n - 1); lia.
Qed.

(** A sub-range of a run that starts in the year 1000 or later, printed and
    parsed again, is itself the only sub-range of the range it spans. *)
Lemma chunk_self (from_date to_date : string) (df dt : datetime)
  (c : datetime * datetime) :
  strptime from_date "%Y-%m-%d" = Ok df ->
  strptime to_date "%Y-%m-%d" = Ok dt ->
  1000 <= year df ->
  In c (chunks df dt) ->
  strptime (chunk_from c) "%Y-%m-%d" = Ok (fst c)
  /\ strptime (chunk_to c) "%Y-%m-%d" = Ok (snd c)
  /\ chunks (fst c) (snd c) = [c].
Proof.
  intros Hf Ht Hyear Hin.
  destruct (strptime_date_valid _ _ Hf) as [Hfo Hfs].
  destruct (strptime_date_valid _ _ Ht) as [Hto Hts].
  destruct (num_days_of_dates _ _ _ _ Hf Ht) as [Hn _].
  unfold chunks in Hin. apply in_map_iff in Hin.
  destruct Hin as (offset & <- & Ho).
  apply py_range_bounds in Ho; [|reflexivity].
  set (n := sub_days dt df + 1) in *.
  unfold chunk_from, chunk_to, chunk_bounds, days_per_call in *.
  cbn [fst snd].
  set (e := Z.min (n - 1) (offset + 100 - 1)).
  assert (He : offset <= e <= n - 1 /\ e <= offset + 99) by (unfold e; lia).
  assert (Hlater : forall k, 0 <= k <= n - 1 ->
            1000 <= year (mk_datetime (toordinal df + k) (second_of_day df))).
  { intros k Hk.
    pose proof (year_mono df (mk_datetime (toordinal df + k) (second_of_day df)))
      as Hmono.
    cbn [toordinal] in Hmono. specialize (Hmono ltac:(lia) ltac:(lia) ltac:(lia)).
    lia. }
  split; [|split].
  - apply strptime_strftime; cbn [toordinal second_of_day];
      [lia|exact Hfs|apply Hlater; lia].
  - apply strptime_strftime; cbn [toordinal second_of_day];
      [lia|exact Hfs|apply Hlater; lia].
  - unfold chunks, sub_days. cbn [toordinal second_of_day].
    replace (86400 * (toordinal df + e - (toordinal df + offset))
             + (second_of_day df - second_of_day df))
      with ((e - offset) * 86400) by lia.
    rewrite Z.div_mul by lia.
    rewrite py_range_one_chunk by (unfold days_per_call; lia).
    cbn [map]. unfold chunk_bounds, days_per_call.
    cbn [toordinal second_of_day].
    do 3 f_equal; lia.
Qed.

Lemma chunk_in_calendar (from_date to_date : string) (df dt : datetime)
  (c : datetime * datetime) :
  strptime from_date "%Y-%m-%d" = Ok df ->
  strptime to_date "%Y-%m-%d" = Ok dt ->
  In c (chunks df dt) ->
  1 <= toordinal (fst c) <= toordinal (snd c)
  /\ toordinal (snd c) <= _MAXORDINAL.
Proof.
  intros Hf Ht Hin.
  destruct (strptime_date_valid _ _ Hf) as [Hfo _].
  destruct (strptime_date_valid _ _ Ht) as [Hto _].
  destruct (num_days_of_dates _ _ _ _ Hf Ht) as [Hn _].
  unfold chunks in Hin. apply in_map_iff in Hin.
  destruct Hin as (offset & <- & Ho).
  apply py_range_bounds in Ho; [|reflexivity].
  unfold chunk_bounds, days_per_call. cbn [fst snd toordinal]. lia.
Qed.

(** Two sub-ranges of a run that start on different days are requested
    under different names and addresses. *)
Lemma chunk_requests_differ (from_date to_date : string) (df dt : datetime)
  (c1 c2 : datetime * datetime) :
  strptime from_date "%Y-%m-%d" = Ok df ->
  strptime to_date "%Y-%m-%d" = Ok dt ->
  In c1 (chunks df dt) -> In c2 (chunks df dt) -> before c1 c2 ->
  name (chunk_request env c1) <> name (chunk_request env c2)
  /\ url (chunk_request env c1) <> url (chunk_request env c2).
Proof.
  intros Hf Ht H1 H2 Hbefore.
  destruct (chunk_in_calendar _ _ df dt c1 Hf Ht H1) as [Ha1 Hb1].
  destruct (chunk_in_calendar _ _ df dt c2 Hf Ht H2) as [Ha2 Hb2].
  unfold before in Hbefore.
  unfold chunk_request, request_for, chunk_from. cbn [name url]. split.
  - intros Heq. apply printed_date_prefix in Heq; lia.
  - intros Heq. apply append_cancel in Heq.
    apply printed_date_prefix in Heq; lia.
Qed.

End ChunkerLoop.

(** X2. For two dates that parse and an upstream that answers,
    [chunk_schedule_calls] returns one entry and sends one request per
    started block of 100 days of the range, none for an inverted range, and
    does not read the clock. *)
Theorem chunk_schedule_calls_request_count (env : Env)
  (from_date to_date : string) (df dt : datetime)
  (dates : string -> string -> json) (s : State) :
  strptime from_date "%Y-%m-%d" = Ok df ->
  strptime to_date "%Y-%m-%d" = Ok dt ->
  serves env dates ->
  let num_days := toordinal dt - toordinal df + 1 in
  let calls := Z.max 0 ((num_days + 99) / 100) in
  exists sched s',
    chunk_schedule_calls env from_date to_date s = (Ok sched, s')
    /\ Z.of_nat (List.length sched) = calls
    /\ Z.of_nat (List.length (fetched s')) = Z.of_nat (List.length (fetched s)) + calls
    /\ ticks s' = ticks s.
Proof.
  intros Hf Ht Hserves num_days calls.
  destruct (num_days_of_dates _ _ _ _ Hf Ht) as [Hn _].
  eexists. eexists. split.
  - apply (chunk_schedule_calls_run env _ _ df dt dates s Hf Ht Hserves).
  - unfold sent. cbn [fetched ticks].
    rewrite length_app, !length_map, length_chunks, Hn.
    unfold chunk_count, days_per_call, calls, num_days.
    replace (toordinal dt - toordinal df + 1 + 100 - 1)
      with (toordinal dt - toordinal df + 1 + 99) by lia.
    repeat split; lia.
Qed.

Lemma chunk_schedule_calls_request_count_witness :
  exists sched s',
    chunk_schedule_calls Demo.env "2016-09-01" "2017-01-10" Demo.start
    = (Ok sched, s')
    /\ Z.of_nat (List.length sched) = 2
    /\ Z.of_nat (List.length (fetched s')) = 0 + 2
    /\ ticks s' = 0%nat.
Proof.
  apply (chunk_schedule_calls_request_count Demo.env "2016-09-01" "2017-01-10"
           (mk_datetime 736208 0) (mk_datetime 736339 0)
           (fun a b => enc_dates (Demo.schedule_of Demo.season a b))
           Demo.start).
  - reflexivity.
  - reflexivity.
  - apply demo_serves.
Defined.

(** X3. When the upstream fails on a sub-range (the fetcher or the decoder
    raises, or the answer has no ["dates"]) after answering the ones before
    it, [chunk_schedule_calls] and [scrape_schedule] raise that exception;
    the requests up to the failing one have been sent and none after it. *)
Theorem chunk_schedule_calls_stops_at_failure (env : Env)
  (from_date to_date : string) (df dt : datetime)
  (good rest : list (datetime * datetime)) (c : datetime * datetime)
  (e : exc) (preseason not_over : bool) (s : State) :
  strptime from_date "%Y-%m-%d" = Ok df ->
  strptime to_date "%Y-%m-%d" = Ok dt ->
  chunks df dt = (good ++ c :: rest)%list ->
  (forall c', In c' good -> is_ok (dates_of env c') = true) ->
  dates_of env c = Raise e ->
  chunk_schedule_calls env from_date to_date s
  = (Raise e, sent s (map (chunk_request env) (good ++ [c])))
  /\ scrape_schedule env from_date to_date preseason not_over s
     = (Raise e, sent s (map (chunk_request env) (good ++ [c]))).
Proof.
  intros Hf Ht Hsplit Hgood Hc.
  assert (Hrun : chunk_schedule_calls env from_date to_date s
                 = (Raise e, sent s (map (chunk_request env) (good ++ [c])))).
  { rewrite (chunk_schedule_calls_loop env _ _ df dt s Hf Ht), Hsplit.
    apply chunk_steps_failing; assumption. }
  split; [exact Hrun|].
  unfold scrape_schedule. cbn [bind Monad_M]. rewrite Hrun. reflexivity.
Qed.

Lemma chunk_schedule_calls_stops_at_failure_witness :
  let c1 := (mk_datetime 735964 0, mk_datetime 736063 0) in
  let c2 := (mk_datetime 736064 0, mk_datetime 736163 0) in
  chunk_schedule_calls Cases.env_failing "2016-01-01" "2016-12-31" Demo.start
  = (Raise (KeyError "dates"),
     sent Demo.start (map (chunk_request Cases.env_failing) ([c1] ++ [c2])))
  /\ scrape_schedule Cases.env_failing "2016-01-01" "2016-12-31" false false
       Demo.start
     = (Raise (KeyError "dates"),
        sent Demo.start (map (chunk_request Cases.env_failing) ([c1] ++ [c2]))).
Proof.
  intros c1 c2.
  apply (chunk_schedule_calls_stops_at_failure Cases.env_failing
           "2016-01-01" "2016-12-31"
           (mk_datetime 735964 0) (mk_datetime 736329 0)
           [c1] [(mk_datetime 736164 0, mk_datetime 736263 0);
                 (mk_datetime 736264 0, mk_datetime 736329 0)] c2).
  - reflexivity.
  - reflexivity.
  - reflexivity.
  - intros c [<-|[]]. reflexivity.
  - reflexivity.
Defined.

(** X4. Every sub-range of a run that starts in the year 1000 or later is
    requested by two dates that parse back to its first and last day; asked
    for on its own by those dates, it is requested the same way, once, and
    its answer alone is returned. *)
Theorem chunk_schedule_calls_on_chunk (env : Env)
  (dates : string -> string -> json)
  (from_date to_date : string) (df dt : datetime)
  (c : datetime * datetime) (s : State) :
  strptime from_date "%Y-%m-%d" = Ok df ->
  strptime to_date "%Y-%m-%d" = Ok dt ->
  1000 <= year df ->
  serves env dates ->
  In c (chunks df dt) ->
  strptime (chunk_from c) "%Y-%m-%d" = Ok (fst c)
  /\ strptime (chunk_to c) "%Y-%m-%d" = Ok (snd c)
  /\ chunk_schedule_calls env (chunk_from c) (chunk_to c) s
     = (Ok [dates (chunk_from c) (chunk_to c)], sent s [chunk_request env c]).
Proof.
  intros Hf Ht Hyear Hserves Hin.
  destruct (chunk_self _ _ df dt c Hf Ht Hyear Hin) as (Hcf & Hct & Hone).
  split; [exact Hcf|]. split; [exact Hct|].
  rewrite (chunk_schedule_calls_run env _ _ (fst c) (snd c) dates s
             Hcf Hct Hserves), Hone.
  reflexivity.
Qed.

Lemma chunk_schedule_calls_on_chunk_witness :
  chunk_schedule_calls Demo.env "2016-12-10" "2017-01-10" Demo.start
  = (Ok [enc_dates (Demo.schedule_of Demo.season "2016-12-10" "2017-01-10")],
     sent Demo.start
       [request_for Demo.env "2016-12-10" "2017-01-10"]).
Proof.
  apply (chunk_schedule_calls_on_chunk Demo.env
           (fun a b => enc_dates (Demo.schedule_of Demo.season a b))
           "2016-09-01" "2017-01-10"
           (mk_datetime 736208 0) (mk_datetime 736339 0)
           (mk_datetime 736308 0, mk_datetime 736339 0) Demo.start).
  - reflexivity.
  - reflexivity.
  - vm_compute. discriminate.
  - apply demo_serves.
  - vm_compute. right. left. reflexivity.
Defined.

(** X5. Whatever the upstream does, the requests one call of
    [chunk_schedule_calls] sends have pairwise different names and
    addresses. *)
Theorem chunk_schedule_calls_distinct_requests (env : Env)
  (from_date to_date : string) (df dt : datetime) (s : State) :
  strptime from_date "%Y-%m-%d" = Ok df ->
  strptime to_date "%Y-%m-%d" = Ok dt ->
  exists ps,
    snd (chunk_schedule_calls env from_date to_date s) = sent s ps
    /\ NoDup (map name ps) /\ NoDup (map url ps).
Proof.
  intros Hf Ht.
  rewrite (chunk_schedule_calls_loop env _ _ df dt s Hf Ht).
  destruct (chunk_steps_prefix env (chunks df dt) [] s) as (k & Hk).
  exists (map (chunk_request env) (firstn k (chunks df dt))).
  split; [exact Hk|].
  assert (Hall : forall f : page_info -> string,
            (forall c1 c2, In c1 (chunks df dt) -> In c2 (chunks df dt) ->
               before c1 c2 ->
               f (chunk_request env c1) <> f (chunk_request env c2)) ->
            NoDup (map f (map (chunk_request env) (firstn k (chunks df dt))))).
  { intros f Hdiff. rewrite map_map, <- firstn_map.
    apply (NoDup_app_remove_r _ (skipn k (map (fun c => f (chunk_request env c))
                                             (chunks df dt)))).
    rewrite firstn_skipn.
    apply (NoDup_map_sorted before); [apply chunks_in_order|exact Hdiff]. }
  split; apply Hall; intros c1 c2 H1 H2 Hb;
    apply (chunk_requests_differ env _ _ df dt c1 c2 Hf Ht H1 H2 Hb).
Qed.

Lemma chunk_schedule_calls_distinct_requests_witness :
  exists ps,
    snd (chunk_schedule_calls Demo.env "2016-09-01" "2017-01-10" Demo.start)
    = sent Demo.start ps
    /\ NoDup (map name ps) /\ NoDup (map url ps).
Proof.
  apply (chunk_schedule_calls_distinct_requests Demo.env
           "2016-09-01" "2017-01-10"
           (mk_datetime 736208 0) (mk_datetime 736339 0)).
  - reflexivity.
  - reflexivity.
Defined.

(* ===================================================================== *)
(** * The normalizer, sub-range by sub-range                            *)
(* ===================================================================== *)

Section Accumulation.

Variable env : Env.
Variables preseason not_over : bool.

Lemma for_each_appends {A R : Type} (body : list R -> A -> result (list R)) :
  appends body ->
  forall xs acc,
    for_each xs acc body = (out <- for_each xs [] body ;; ret (acc ++ out)%list).
Proof.
  intros Hbody. induction xs as [|x xs IH]; intros acc.
  - cbn. rewrite app_nil_r. reflexivity.
  - cbn [for_each bind Monad_result]. rewrite (Hbody acc x).
    destruct (body [] x) as [o|e]; cbn [bind Monad_result ret]; [|reflexivity].
    rewrite (IH (acc ++ o)%list), (IH o).
    destruct (for_each xs [] body) as [o'|e]; cbn [bind Monad_result ret];
      [|reflexivity].
    rewrite app_assoc. reflexivity.
Qed.

Lemma scrape_game_appends (day : json) :
  appends (scrape_game env preseason not_over day).
Proof.
  intros acc game. unfold scrape_game. cbn [bind Monad_result ret].
  destruct (getitem game "status") as [st|e]; [|reflexivity].
  destruct (getitem st "detailedState") as [v|e]; [|reflexivity].
  destruct (eq_str v "Final" || not_over);
    [|rewrite app_nil_r; reflexivity].
  destruct (getitem game "gamePk") as [pk|e]; [|reflexivity].
  destruct (py_int (str_drop 5 (py_str pk))) as [k|e]; [|reflexivity].
  destruct (((20000 <=? k) || preseason) && (k <? 40000));
    [|rewrite app_nil_r; reflexivity].
  destruct (game_record env day game); reflexivity.
Qed.

Lemma scrape_day_appends : appends (scrape_day env preseason not_over).
Proof.
  intros acc day. unfold scrape_day. cbn [bind Monad_result].
  destruct (getitem day "games") as [g|e]; [|reflexivity].
  destruct (py_iter g) as [games|e]; [|reflexivity].
  apply for_each_appends, scrape_game_appends.
Qed.

Lemma scrape_chunk_appends : appends (scrape_chunk env preseason not_over).
Proof.
  intros acc chunk. unfold scrape_chunk. cbn [bind Monad_result].
  destruct (py_iter chunk) as [days|e]; [|reflexivity].
  apply for_each_appends, scrape_day_appends.
Qed.

End Accumulation.

(** X6. With an upstream that answers, scraping a range that starts in the
    year 1000 or later gives what scraping its sub-ranges one after the
    other and concatenating the results gives, the first exception
    included. *)
Theorem scrape_schedule_by_chunks (env : Env)
  (dates : string -> string -> json) (preseason not_over : bool)
  (from_date to_date : string) (df dt : datetime) (s s0 : State) :
  strptime from_date "%Y-%m-%d" = Ok df ->
  strptime to_date "%Y-%m-%d" = Ok dt ->
  1000 <= year df ->
  serves env dates ->
  fst (scrape_schedule env from_date to_date preseason not_over s)
  = for_each (chunks df dt) []
      (fun schedule c =>
         out <- scraped_alone env preseason not_over s0 c ;;
         ret (schedule ++ out)%list).
Proof.
  intros Hf Ht Hyear Hserves.
  unfold scrape_schedule. cbn [bind Monad_M].
  rewrite (chunk_schedule_calls_run env _ _ df dt dates s Hf Ht Hserves).
  unfold lift. cbn [fst]. rewrite for_each_result_map.
  apply for_each_result_ext_in. intros acc c Hin.
  destruct (chunk_self _ _ df dt c Hf Ht Hyear Hin) as (Hcf & Hct & Hone).
  unfold scraped_alone, scrape_schedule. cbn [bind Monad_M].
  rewrite (chunk_schedule_calls_run env _ _ (fst c) (snd c) dates s0
             Hcf Hct Hserves).
  rewrite Hone. unfold lift. cbn [fst map for_each bind Monad_result].
  rewrite (scrape_chunk_appends env preseason not_over acc).
  destruct (scrape_chunk env preseason not_over [] _); reflexivity.
Qed.

Lemma scrape_schedule_by_chunks_witness :
  fst (scrape_schedule Demo.env "2016-09-01" "2017-01-10" true true Demo.start)
  = for_each (chunks (mk_datetime 736208 0) (mk_datetime 736339 0)) []
      (fun schedule c =>
         out <- scraped_alone Demo.env true true Demo.start c ;;
         ret (schedule ++ out)%list).
Proof.
  apply (scrape_schedule_by_chunks Demo.env
           (fun a b => enc_dates (Demo.schedule_of Demo.season a b))).
  - reflexivity.
  - reflexivity.
  - vm_compute. discriminate.
  - apply demo_serves.
Defined.

(* ===================================================================== *)
(** * What the flags and the tests let through                          *)
(* ===================================================================== *)

Section Relaxing.

Variable env : Env.

Lemma subsequence_refl {A : Type} (l : list A) : subsequence l l.
Proof. induction l; constructor; assumption. Qed.

Lemma subsequence_nil_l {A : Type} (l : list A) : subsequence [] l.
Proof. induction l; constructor; assumption. Qed.

Lemma subsequence_app {A : Type} (l1 l2 k1 k2 : list A) :
  subsequence l1 l2 -> subsequence k1 k2 ->
  subsequence (l1 ++ k1) (l2 ++ k2).
Proof.
  induction 1; intros Hk; cbn [app]; [exact Hk| |];
    constructor; apply IHsubsequence; exact Hk.
Qed.

Lemma subsequence_flat_map {A B : Type} (f g : A -> list B) (l : list A) :
  (forall x, In x l -> subsequence (f x) (g x)) ->
  subsequence (flat_map f l) (flat_map g l).
Proof.
  induction l as [|x l IH]; intros H; cbn [flat_map]; [constructor|].
  apply subsequence_app; [apply H; left; reflexivity|].
  apply IH. intros y Hy. apply H. right. exact Hy.
Qed.

Lemma kept_relax (p1 n1 p2 n2 : bool) (g : Game) :
  implb p1 p2 = true -> implb n1 n2 = true ->
  kept p1 n1 g = true -> kept p2 n2 g = true.
Proof.
  unfold kept, completed, in_game_type_range. intros Hp Hn Hk.
  apply andb_prop in Hk. destruct Hk as [Hdone Hrange].
  destruct (decoded_id (gamePk g)) as [k|]; [|discriminate].
  apply andb_prop in Hrange. destruct Hrange as [Hlo Hhi].
  rewrite Hhi, andb_true_r.
  apply andb_true_intro. split.
  - destruct (String.eqb (detailedState g) "Final"); [reflexivity|].
    destruct n1; [|discriminate]. destruct n2; [reflexivity|discriminate].
  - destruct (20000 <=? k); [reflexivity|].
    destruct p1; [|discriminate]. destruct p2; [reflexivity|discriminate].
Qed.

Lemma records_of_relax (p1 n1 p2 n2 : bool) (days : list Day) :
  implb p1 p2 = true -> implb n1 n2 = true ->
  subsequence (records_of env p1 n1 days) (records_of env p2 n2 days).
Proof.
  intros Hp Hn. unfold records_of, records_of_day.
  apply subsequence_flat_map. intros d _.
  apply subsequence_flat_map. intros g _.
  unfold records_of_game.
  destruct (kept p1 n1 g) eqn:Hk; [|apply subsequence_nil_l].
  rewrite (kept_relax p1 n1 p2 n2 g Hp Hn Hk). apply subsequence_refl.
Qed.

End Relaxing.

(** X7. Setting [preseason] or [not_over] only adds records: what a run
    returns with fewer flags set is what it returns with more flags set with
    some records left out, the order kept. *)
Theorem scrape_schedule_flags_relax (env : Env)
  (schedule : string -> string -> list Day) (p1 n1 p2 n2 : bool)
  (from_date to_date : string) (df dt : datetime) (s : State) :
  strptime from_date "%Y-%m-%d" = Ok df ->
  strptime to_date "%Y-%m-%d" = Ok dt ->
  serves env (fun a b => enc_dates (schedule a b)) ->
  forallb (forallb day_well_formed) (delivered schedule df dt) = true ->
  implb p1 p2 = true -> implb n1 n2 = true ->
  exists out1 out2,
    fst (scrape_schedule env from_date to_date p1 n1 s) = Ok out1
    /\ fst (scrape_schedule env from_date to_date p2 n2 s) = Ok out2
    /\ subsequence out1 out2.
Proof.
  intros Hf Ht Hserves Hwf Hp Hn.
  rewrite (scrape_schedule_typed env schedule p1 n1 from_date to_date df dt s
             Hf Ht Hserves Hwf).
  rewrite (scrape_schedule_typed env schedule p2 n2 from_date to_date df dt s
             Hf Ht Hserves Hwf).
  eexists. eexists. split; [reflexivity|]. split; [reflexivity|].
  apply records_of_relax; assumption.
Qed.

Lemma scrape_schedule_flags_relax_witness :
  exists out1 out2,
    fst (scrape_schedule Demo.env "2016-09-01" "2017-01-10" false false
           Demo.start) = Ok out1
    /\ fst (scrape_schedule Demo.env "2016-09-01" "2017-01-10" true true
              Demo.start) = Ok out2
    /\ subsequence out1 out2.
Proof.
  apply (scrape_schedule_flags_relax Demo.env (Demo.schedule_of Demo.season)
           false false true true "2016-09-01" "2017-01-10"
           (mk_datetime 736208 0) (mk_datetime 736339 0) Demo.start).
  - reflexivity.
  - reflexivity.
  - apply demo_serves.
  - vm_compute. reflexivity.
  - reflexivity.
  - reflexivity.
Defined.

Section PassingOver.

Variable env : Env.
Variables preseason not_over : bool.

Lemma scrape_game_passed_over (day game : json) (acc : list GameRecord) :
  passed_over preseason not_over game ->
  scrape_game env preseason not_over day acc game = Ok acc.
Proof.
  intros (st & v & Hst & Hv & Hcase). unfold scrape_game.
  cbn [bind Monad_result]. rewrite Hst, Hv.
  destruct Hcase as [Hskip|(pk & k & Hpk & Hk & Hrange)].
  - rewrite Hskip. reflexivity.
  - destruct (eq_str v "Final" || not_over); [|reflexivity].
    rewrite Hpk, Hk, Hrange. reflexivity.
Qed.

Lemma scrape_day_passed_over (day : json) (acc : list GameRecord) :
  day_passed_over preseason not_over day ->
  scrape_day env preseason not_over acc day = Ok acc.
Proof.
  intros (games & Hgames & Hall). unfold scrape_day.
  cbn [bind Monad_result]. rewrite Hgames. cbn [py_iter].
  apply for_each_unchanged.
  apply Forall_forall. intros g Hg acc'.
  apply scrape_game_passed_over.
  rewrite Forall_forall in Hall. exact (Hall g Hg).
Qed.

Lemma scrape_chunk_passed_over (days : list json) (acc : list GameRecord) :
  Forall (day_passed_over preseason not_over) days ->
  scrape_chunk env preseason not_over acc (JList days) = Ok acc.
Proof.
  intros Hall. unfold scrape_chunk. cbn [py_iter bind Monad_result].
  apply for_each_unchanged.
  apply Forall_forall. intros d Hd acc'.
  apply scrape_day_passed_over.
  rewrite Forall_forall in Hall. exact (Hall d Hd).
Qed.

End PassingOver.

(** X8. Game entries the two tests pass over are not looked at any further:
    when every delivered game is passed over, the run returns no record and
    raises nothing, whatever else the game and day entries hold or lack. *)
Theorem scrape_schedule_passes_over (env : Env)
  (dates : string -> string -> json) (preseason not_over : bool)
  (from_date to_date : string) (df dt : datetime) (s : State) :
  strptime from_date "%Y-%m-%d" = Ok df ->
  strptime to_date "%Y-%m-%d" = Ok dt ->
  serves env dates ->
  (forall c, In c (chunks df dt) ->
     exists days,
       dates (chunk_from c) (chunk_to c) = JList days
       /\ Forall (day_passed_over preseason not_over) days) ->
  fst (scrape_schedule env from_date to_date preseason not_over s) = Ok [].
Proof.
  intros Hf Ht Hserves Hall.
  unfold scrape_schedule. cbn [bind Monad_M].
  rewrite (chunk_schedule_calls_run env _ _ df dt dates s Hf Ht Hserves).
  unfold lift. cbn [fst].
  apply for_each_unchanged.
  apply Forall_forall. intros chunk Hin acc.
  apply in_map_iff in Hin. destruct Hin as (c & <- & Hc).
  destruct (Hall c Hc) as (days & -> & Hdays).
  apply scrape_chunk_passed_over, Hdays.
Qed.

Lemma scrape_schedule_passes_over_witness :
  fst (scrape_schedule Cases.env_bare "2016-10-12" "2016-10-12" false false
         Demo.start) = Ok [].
Proof.
  apply (scrape_schedule_passes_over Cases.env_bare (fun _ _ => Cases.bare_dates)
           false false "2016-10-12" "2016-10-12"
           (mk_datetime 736249 0) (mk_datetime 736249 0)).
  - reflexivity.
  - reflexivity.
  - intros a b. eexists. split; reflexivity.
  - intros c _. eexists. split; [reflexivity|].
    constructor; [|constructor].
    eexists. split; [reflexivity|].
    constructor; [|constructor; [|constructor]].
    + exists (JDict [("detailedState", JStr "Postponed")]), (JStr "Postponed").
      split; [reflexivity|]. split; [reflexivity|]. left. reflexivity.
    + exists (JDict [("detailedState", JStr "Final")]), (JStr "Final").
      split; [reflexivity|]. split; [reflexivity|]. right.
      exists (JInt 2016040001), 40001. repeat split.
Defined.

(* ===================================================================== *)
(** * Entries that cannot be read                                       *)
(* ===================================================================== *)

Section Stopping.

Variable env : Env.
Variables preseason not_over : bool.

(** The run stops at the first game entry the loop body raises on. *)
Lemma normalizer_stops_at (dates : string -> string -> json)
  (from_date to_date : string) (df dt : datetime) (s : State)
  (good_chunks : list (list Day)) (good_days : list Day)
  (good_games : list Game) (date : string) (bad : json) (e : exc)
  (later_games later_days later_chunks : list json) :
  strptime from_date "%Y-%m-%d" = Ok df ->
  strptime to_date "%Y-%m-%d" = Ok dt ->
  serves env dates ->
  map (fun c => dates (chunk_from c) (chunk_to c)) (chunks df dt)
  = delivery_with good_chunks good_days date good_games bad
      later_games later_days later_chunks ->
  forallb (forallb day_well_formed) good_chunks = true ->
  forallb day_well_formed good_days = true ->
  forallb well_formed good_games = true ->
  (forall entries acc,
     scrape_game env preseason not_over (day_with date entries) acc bad
     = Raise e) ->
  fst (scrape_schedule env from_date to_date preseason not_over s) = Raise e.
Proof.
  intros Hf Ht Hserves Hshape Hchunks Hdays Hgames Hbad.
  unfold scrape_schedule. cbn [bind Monad_M].
  rewrite (chunk_schedule_calls_run env _ _ df dt _ s Hf Ht Hserves).
  unfold lift. cbn [fst]. rewrite Hshape. unfold delivery_with.
  eapply for_each_raises.
  - apply (scrape_chunks_typed env preseason not_over good_chunks [] Hchunks).
  - cbn [app]. unfold scrape_chunk. cbn [py_iter bind Monad_result].
    eapply for_each_raises.
    + apply (scrape_days_typed env preseason not_over good_days _ Hdays).
    + unfold scrape_day.
      change (getitem (day_with date
                         (map enc_game good_games ++ bad :: later_games))
                "games")
        with (Ok (JList (map enc_game good_games ++ bad :: later_games)%list)).
      cbn [py_iter bind Monad_result].
      eapply for_each_raises.
      * apply (scrape_games_typed env preseason not_over date _ good_games _
                 Hgames).
      * apply Hbad.
Qed.

Lemma scrape_game_short_identifier (day : json) (g : Game)
  (acc : list GameRecord) :
  0 <= gamePk g <= 99999 -> completed not_over g = true ->
  scrape_game env preseason not_over day acc (enc_game g) = Raise ValueError.
Proof.
  unfold completed. intros Hpk Hdone.
  pose proof (decoded_id_short (gamePk g) Hpk) as Hid.
  unfold scrape_game.
  cbn [enc_game game_entries enc_status getitem assoc String.eqb Ascii.eqb
       Bool.eqb bind Monad_result ret eq_str].
  fold (decoded_id (gamePk g)). rewrite Hdone, Hid. reflexivity.
Qed.

Lemma scrape_game_untimed (date : string) (entries : list json) (g : Game)
  (acc : list GameRecord) :
  kept preseason not_over g = true -> is_ok (game_time g) = false ->
  scrape_game env preseason not_over (day_with date entries) acc (enc_game g)
  = Raise ValueError.
Proof.
  unfold kept, completed, in_game_type_range. intros Hk Htime.
  apply andb_prop in Hk. destruct Hk as [Hdone Hrange].
  destruct (decoded_id (gamePk g)) as [k|] eqn:Ek; [|discriminate].
  destruct (game_time g) as [t|e] eqn:Et; [discriminate|].
  unfold game_time in Et. pose proof (strptime_raises _ _ _ Et) as ->.
  unfold scrape_game.
  cbn [enc_game game_entries enc_status getitem assoc String.eqb Ascii.eqb
       Bool.eqb bind Monad_result ret eq_str].
  fold (decoded_id (gamePk g)). rewrite Hdone, Ek, Hrange.
  unfold game_record, day_with.
  cbn [enc_game game_entries getitem assoc String.eqb Ascii.eqb Bool.eqb bind
       Monad_result ret slice_init strptime_obj].
  rewrite Et. reflexivity.
Qed.

Lemma scrape_game_without_gamePk (day : json) (g : Game)
  (acc : list GameRecord) :
  completed not_over g = true ->
  scrape_game env preseason not_over day acc (without "gamePk" g)
  = Raise (KeyError "gamePk").
Proof.
  unfold completed. intros Hdone. unfold scrape_game.
  change (without "gamePk" g)
    with (JDict [("gameDate", JStr (gameDate g)); ("status", enc_status g);
                 ("teams", enc_teams g); ("venue", enc_venue g)]).
  cbn [enc_status getitem assoc String.eqb Ascii.eqb Bool.eqb bind
       Monad_result ret eq_str].
  rewrite Hdone. reflexivity.
Qed.

Lemma scrape_game_without_gameDate (date : string) (entries : list json)
  (g : Game) (acc : list GameRecord) :
  kept preseason not_over g = true ->
  scrape_game env preseason not_over (day_with date entries) acc
    (without "gameDate" g)
  = Raise (KeyError "gameDate").
Proof.
  unfold kept, completed, in_game_type_range. intros Hk.
  apply andb_prop in Hk. destruct Hk as [Hdone Hrange].
  destruct (decoded_id (gamePk g)) as [k|] eqn:Ek; [|discriminate].
  unfold scrape_game.
  change (without "gameDate" g)
    with (JDict [("gamePk", JInt (gamePk g)); ("status", enc_status g);
                 ("teams", enc_teams g); ("venue", enc_venue g)]).
  cbn [enc_status getitem assoc String.eqb Ascii.eqb Bool.eqb bind
       Monad_result ret eq_str].
  fold (decoded_id (gamePk g)). rewrite Hdone, Ek, Hrange.
  reflexivity.
Qed.

Lemma scrape_game_without_venue (date : string) (entries : list json)
  (g : Game) (acc : list GameRecord) :
  well_formed g = true -> kept preseason not_over g = true ->
  scrape_game env preseason not_over (day_with date entries) acc
    (without "venue" g)
  = Raise (KeyError "venue").
Proof.
  unfold well_formed, kept, completed, in_game_type_range. intros Hwf Hk.
  apply andb_prop in Hwf. destruct Hwf as [_ Htime].
  apply andb_prop in Hk. destruct Hk as [Hdone Hrange].
  destruct (game_time g) as [t|] eqn:Et; [|discriminate].
  destruct (decoded_id (gamePk g)) as [k|] eqn:Ek; [|discriminate].
  unfold game_time in Et.
  unfold scrape_game.
  change (without "venue" g)
    with (JDict [("gamePk", JInt (gamePk g)); ("gameDate", JStr (gameDate g));
                 ("status", enc_status g); ("teams", enc_teams g)]).
  cbn [enc_status getitem assoc String.eqb Ascii.eqb Bool.eqb bind
       Monad_result ret eq_str].
  fold (decoded_id (gamePk g)). rewrite Hdone, Ek, Hrange.
  unfold game_record, day_with.
  cbn [getitem assoc String.eqb Ascii.eqb Bool.eqb bind Monad_result ret
       slice_init strptime_obj].
  rewrite Et. reflexivity.
Qed.

End Stopping.

(** X10. A delivered game entry that passes the state test and whose
    identifier has at most five digits, or that passes both tests and whose
    time stamp does not parse, makes the run fail with a [ValueError]. *)
Theorem scrape_schedule_malformed_game (env : Env) (preseason not_over : bool)
  (dates : string -> string -> json)
  (from_date to_date : string) (df dt : datetime) (s : State)
  (good_chunks : list (list Day)) (good_days : list Day)
  (good_games : list Game) (date : string) (g : Game)
  (later_games later_days later_chunks : list json) :
  strptime from_date "%Y-%m-%d" = Ok df ->
  strptime to_date "%Y-%m-%d" = Ok dt ->
  serves env dates ->
  map (fun c => dates (chunk_from c) (chunk_to c)) (chunks df dt)
  = delivery_with good_chunks good_days date good_games (enc_game g)
      later_games later_days later_chunks ->
  forallb (forallb day_well_formed) good_chunks = true ->
  forallb day_well_formed good_days = true ->
  forallb well_formed good_games = true ->
  (0 <= gamePk g <= 99999 /\ completed not_over g = true)
  \/ (kept preseason not_over g = true /\ is_ok (game_time g) = false) ->
  fst (scrape_schedule env from_date to_date preseason not_over s)
  = Raise ValueError.
Proof.
  intros Hf Ht Hserves Hshape Hchunks Hdays Hgames Hbad.
  apply (normalizer_stops_at env preseason not_over dates from_date to_date
           df dt s good_chunks good_days good_games date (enc_game g)
           ValueError later_games later_days later_chunks);
    try assumption.
  intros entries acc.
  destruct Hbad as [[Hpk Hdone]|[Hk Htime]].
  - apply scrape_game_short_identifier; assumption.
  - apply scrape_game_untimed; assumption.
Qed.

Lemma scrape_schedule_malformed_game_witness :
  fst (scrape_schedule Cases.env_untimed "2016-10-12" "2016-10-12"
         false false Demo.start)
  = Raise ValueError.
Proof.
  apply (scrape_schedule_malformed_game Cases.env_untimed false false
           (fun _ _ => JList [day_with "2016-10-12" [enc_game Cases.untimed]])
           "2016-10-12" "2016-10-12" (mk_datetime 736249 0)
           (mk_datetime 736249 0) Demo.start
           [] [] [] "2016-10-12" Cases.untimed [] [] []).
  - reflexivity.
  - reflexivity.
  - intros a b. eexists. split; reflexivity.
  - reflexivity.
  - reflexivity.
  - reflexivity.
  - reflexivity.
  - right. split; reflexivity.
Defined.

(** X11. A delivered game entry that lacks ["gamePk"] and passes the state
    test, or lacks ["gameDate"] or ["venue"] and passes both tests, makes
    the run fail with the [KeyError] of that key. *)
Theorem scrape_schedule_missing_field (env : Env) (preseason not_over : bool)
  (dates : string -> string -> json)
  (from_date to_date : string) (df dt : datetime) (s : State)
  (good_chunks : list (list Day)) (good_days : list Day)
  (good_games : list Game) (date key : string) (g : Game)
  (later_games later_days later_chunks : list json) :
  strptime from_date "%Y-%m-%d" = Ok df ->
  strptime to_date "%Y-%m-%d" = Ok dt ->
  serves env dates ->
  map (fun c => dates (chunk_from c) (chunk_to c)) (chunks df dt)
  = delivery_with good_chunks good_days date good_games (without key g)
      later_games later_days later_chunks ->
  forallb (forallb day_well_formed) good_chunks = true ->
  forallb day_well_formed good_days = true ->
  forallb well_formed good_games = true ->
  well_formed g = true ->
  (key = "gamePk" /\ completed not_over g = true)
  \/ ((key = "gameDate" \/ key = "venue")
      /\ kept preseason not_over g = true) ->
  fst (scrape_schedule env from_date to_date preseason not_over s)
  = Raise (KeyError key).
Proof.
  intros Hf Ht Hserves Hshape Hchunks Hdays Hgames Hg Hkey.
  apply (normalizer_stops_at env preseason not_over dates from_date to_date
           df dt s good_chunks good_days good_games date (without key g)
           (KeyError key) later_games later_days later_chunks);
    try assumption.
  intros entries acc.
  destruct Hkey as [[-> Hdone]|[[->| ->] Hk]].
  - apply scrape_game_without_gamePk, Hdone.
  - apply scrape_game_without_gameDate, Hk.
  - apply scrape_game_without_venue; assumption.
Qed.

Lemma scrape_schedule_missing_field_witness :
  fst (scrape_schedule Cases.env_without_venue "2016-10-12" "2016-10-12"
         false false Demo.start)
  = Raise (KeyError "venue").
Proof.
  apply (scrape_schedule_missing_field Cases.env_without_venue false false
           (fun _ _ => JList [day_with "2016-10-12"
                                [without "venue" Demo.senators_leafs]])
           "2016-10-12" "2016-10-12" (mk_datetime 736249 0)
           (mk_datetime 736249 0) Demo.start
           [] [] [] "2016-10-12" "venue" Demo.senators_leafs [] [] []).
  - reflexivity.
  - reflexivity.
  - intros a b. eexists. split; reflexivity.
  - reflexivity.
  - reflexivity.
  - reflexivity.
  - reflexivity.
  - reflexivity.
  - right. split; [right; reflexivity|reflexivity].
Defined.

(* ===================================================================== *)
(** * Identifiers as a set                                              *)
(* ===================================================================== *)

Section IdentifierSets.

Lemma least_unique (x y : string) (l : list string) :
  is_least x l -> is_least y l -> x = y.
Proof.
  intros [Hx Hlx] [Hy Hly]. apply String.leb_antisym; auto.
Qed.

Lemma greatest_unique (x y : string) (l : list string) :
  is_greatest x l -> is_greatest y l -> x = y.
Proof.
  intros [Hx Hlx] [Hy Hly]. apply String.leb_antisym; auto.
Qed.

Lemma sort_nil (l : list string) : sort l = [] -> l = [].
Proof.
  intros H. destruct l as [|a l]; [reflexivity|].
  destruct (sort_nonempty (a :: l)) as (x & rest & Hs); [discriminate|].
  congruence.
Qed.

Lemma same_elements_nil (l1 l2 : list string) :
  (forall x, In x l1 <-> In x l2) -> l1 = [] -> l2 = [].
Proof.
  intros H ->. destruct l2 as [|a l2]; [reflexivity|].
  destruct (proj2 (H a) (or_introl eq_refl)).
Qed.

Lemma first_sort_same (l1 l2 : list string) :
  (forall x, In x l1 <-> In x l2) -> first (sort l1) = first (sort l2).
Proof.
  intros H.
  destruct (first (sort l1)) as [x|e] eqn:E1.
  - destruct (first (sort l2)) as [y|e] eqn:E2.
    + f_equal. apply (least_unique x y l2); [|apply first_sort, E2].
      destruct (first_sort l1 x E1) as [Hin Hle]. split.
      * apply H, Hin.
      * intros z Hz. apply Hle, H, Hz.
    + exfalso. destruct (sort l2) eqn:E; [|discriminate].
      apply sort_nil in E.
      assert (l1 = []).
      { apply (same_elements_nil l2 l1); [|exact E].
        intros z. symmetry. apply H. }
      subst l1. discriminate.
  - destruct (sort l1) eqn:E; [|discriminate].
    apply sort_nil in E. rewrite (same_elements_nil l1 l2 H E).
    injection E1 as <-. subst l1. reflexivity.
Qed.

Lemma last_item_nil {A : Type} (l : list A) (e : exc) :
  last_item l = Raise e -> l = [] /\ e = IndexError.
Proof.
  unfold last_item. destruct (rev l) eqn:E; [|discriminate].
  intros [= <-]. split; [|reflexivity].
  rewrite <- (rev_involutive l), E. reflexivity.
Qed.

Lemma last_sort_same (l1 l2 : list string) :
  (forall x, In x l1 <-> In x l2) ->
  last_item (sort l1) = last_item (sort l2).
Proof.
  intros H.
  destruct (last_item (sort l1)) as [x|e] eqn:E1.
  - destruct (last_item (sort l2)) as [y|e] eqn:E2.
    + f_equal. apply (greatest_unique x y l2); [|apply last_item_sort, E2].
      destruct (last_item_sort l1 x E1) as [Hin Hle]. split.
      * apply H, Hin.
      * intros z Hz. apply Hle, H, Hz.
    + exfalso. apply last_item_nil in E2. destruct E2 as [E _].
      apply sort_nil in E.
      assert (l1 = []).
      { apply (same_elements_nil l2 l1); [|exact E].
        intros z. symmetry. apply H. }
      subst l1. discriminate.
  - apply last_item_nil in E1. destruct E1 as [E ->].
    apply sort_nil in E. rewrite (same_elements_nil l1 l2 H E).
    reflexivity.
Qed.

Lemma str_in_same (l1 l2 : list string) (x : string) :
  (forall y, In y l1 <-> In y l2) -> str_in x l1 = str_in x l2.
Proof.
  intros H. unfold str_in.
  destruct (existsb (String.eqb x) l2) eqn:E2.
  - apply existsb_exists in E2. destruct E2 as (y & Hy & Hxy).
    apply existsb_exists. exists y. split; [apply H, Hy|exact Hxy].
  - destruct (existsb (String.eqb x) l1) eqn:E1; [|reflexivity].
    apply existsb_exists in E1. destruct E1 as (y & Hy & Hxy).
    assert (existsb (String.eqb x) l2 = true).
    { apply existsb_exists. exists y. split; [apply H, Hy|exact Hxy]. }
    congruence.
Qed.

End IdentifierSets.

(** X12. [get_dates] looks at the identifiers as a set of strings: two
    lists that print to the same strings, in any order, with any
    repetitions, as numbers or as strings, give the same run. *)
Theorem get_dates_same_ids (env : Env) (games1 games2 : list json)
  (s : State) :
  same_ids games1 games2 ->
  get_dates env games1 s = get_dates env games2 s.
Proof.
  unfold same_ids. intros H.
  unfold get_dates. cbn [bind Monad_M]. unfold lift.
  rewrite (first_sort_same _ _ H), (last_sort_same _ _ H).
  destruct (first (sort (map py_str games2))) as [earliest|e];
    cbn [bind Monad_result ret]; [|reflexivity].
  destruct (last_item (sort (map py_str games2))) as [latest|e];
    cbn [bind Monad_result ret]; [|reflexivity].
  unfold today. cbn [bind Monad_M ret].
  assert (Hfilter : forall out,
            filter (fun game => str_in (py_str (game_id game))
                                  (sort (map py_str games1))) out
            = filter (fun game => str_in (py_str (game_id game))
                                    (sort (map py_str games2))) out).
  { intros out. apply filter_ext. intros r.
    rewrite !str_in_sort. apply str_in_same, H. }
  destruct (eq_str _ _).
  - cbn [bind Monad_M ret].
    destruct (scrape_schedule env _ _ true true _) as [[out|e] s'];
      [|reflexivity].
    rewrite Hfilter. reflexivity.
  - cbn [bind Monad_M ret].
    destruct (py_int (str_take 4 latest)) as [y|e]; [|reflexivity].
    destruct (scrape_schedule env _ _ true true _) as [[out|e] s'];
      [|reflexivity].
    rewrite Hfilter. reflexivity.
Qed.

Lemma get_dates_same_ids_witness :
  get_dates Demo.env [JInt 2016020002; JStr "2016020001"; JInt 2016020002]
    Demo.start
  = get_dates Demo.env [JInt 2016020001; JInt 2016020002] Demo.start.
Proof.
  apply (get_dates_same_ids Demo.env).
  intros x. cbn. tauto.
Defined.

(** X13. When the earliest identifier does not start with the four digits
    of a year, [get_dates] fails with a [ValueError] and has sent no
    request. *)
Theorem get_dates_invalid_ids (env : Env) (games : list json)
  (earliest : string) (s : State) :
  is_least earliest (map py_str games) ->
  is_ok (strptime (season_start earliest) "%Y-%m-%d") = false ->
  fst (get_dates env games s) = Raise ValueError
  /\ fetched (snd (get_dates env games s)) = fetched s.
Proof.
  intros Hleast Hbad.
  assert (Hne : map py_str games <> []).
  { destruct Hleast as [Hin _]. intros E. rewrite E in Hin. destruct Hin. }
  destruct (sort_nonempty _ Hne) as (x & rest & Hsort).
  assert (Hfirst : first (sort (map py_str games)) = Ok x)
    by (rewrite Hsort; reflexivity).
  pose proof (least_unique _ _ _ (first_sort _ _ Hfirst) Hleast) as ->.
  assert (Hlast : exists latest,
            last_item (sort (map py_str games)) = Ok latest).
  { destruct (last_item (sort (map py_str games))) as [l|e] eqn:E; [eauto|].
    apply last_item_nil in E. destruct E as [E _]. congruence. }
  destruct Hlast as (latest & Hlast).
  assert (Hrun : forall date_to s',
            scrape_schedule env (season_start earliest) date_to true true s'
            = (Raise ValueError, s')).
  { intros date_to s'.
    apply (invalid_date_run env (season_start earliest) date_to).
    left. exact Hbad. }
  unfold get_dates. cbn [bind Monad_M]. unfold lift.
  rewrite Hfirst, Hlast. cbn [bind Monad_result ret].
  change (str_join "-" [str_take 4 earliest; "9"; "1"])
    with (season_start earliest).
  unfold today. cbn [bind Monad_M ret].
  destruct (eq_str _ _); cbn [bind Monad_M ret].
  - rewrite Hrun. split; reflexivity.
  - destruct (py_int (str_take 4 latest)) as [y|e] eqn:Ey.
    + rewrite Hrun. split; reflexivity.
    + rewrite (py_int_raises _ _ Ey). split; reflexivity.
Qed.

Lemma get_dates_invalid_ids_witness :
  fst (get_dates Demo.env [JInt 42] Demo.start) = Raise ValueError
  /\ fetched (snd (get_dates Demo.env [JInt 42] Demo.start))
     = fetched Demo.start.
Proof.
  apply (get_dates_invalid_ids Demo.env [JInt 42] "42").
  - split; [left; reflexivity|].
    intros y [<-|[]]. reflexivity.
  - reflexivity.
Defined.

(* ===================================================================== *)
(** * The range get_dates asks for                                      *)
(* ===================================================================== *)

Section RangeOfGetDates.

Variable env : Env.

Lemma month_day_plain_table (y : Z) :
  conj_all (month_day_read_plain y) months_days.
Proof. vm_compute. repeat split. Qed.

Lemma four_digits_bounds (s : string) (y : Z) :
  four_digits s = Some y -> 0 <= y <= 9999.
Proof.
  destruct s as [|a [|b [|c [|e [|x s]]]]]; try discriminate.
  unfold four_digits.
  destruct (is_digit a) eqn:Ea; [|discriminate].
  destruct (is_digit b) eqn:Eb; [|discriminate].
  destruct (is_digit c) eqn:Ec; [|discriminate].
  destruct (is_digit e) eqn:Ee; [|discriminate].
  intros H. cbn [andb] in H.
  assert (Hy : 1000 * digit_value a + 100 * digit_value b
               + 10 * digit_value c + digit_value e = y) by congruence.
  clear H.
  pose proof (is_digit_value a Ea) as Ha.
  pose proof (is_digit_value b Eb) as Hb.
  pose proof (is_digit_value c Ec) as Hc.
  pose proof (is_digit_value e Ee) as He.
  apply andb_prop in Ha, Hb, Hc, He.
  destruct Ha as [Ha1 Ha2], Hb as [Hb1 Hb2], Hc as [Hc1 Hc2], He as [He1 He2].
  apply Z.leb_le in Ha1, Ha2, Hb1, Hb2, Hc1, Hc2, He1, He2. lia.
Qed.

Lemma make_date (y m d : Z) :
  1 <= y <= 9999 -> 1 <= m <= 12 -> 1 <= d <= _days_in_month y m ->
  make (mk_fields y m d 0 0 0) = Ok (mk_datetime (_ymd2ord y m d) 0).
Proof.
  intros Hy Hm Hd. unfold make.
  cbn [f_year f_month f_day f_hour f_minute f_second].
  replace ((1 <=? y) && (y <=? 9999) && (1 <=? m) && (m <=? 12)
           && (1 <=? d) && (d <=? _days_in_month y m)) with true.
  - reflexivity.
  - symmetry. repeat (apply andb_true_intro; split); apply Z.leb_le; lia.
Qed.

Lemma strptime_season_start (id : string) (y : Z) :
  four_digits (str_take 4 id) = Some y -> 1 <= y ->
  strptime (season_start id) "%Y-%m-%d" = Ok (september_1 y).
Proof.
  intros Hid Hy. pose proof (four_digits_bounds _ _ Hid) as Hb.
  unfold season_start.
  change "-9-1" with ("-" ++ "9-1").
  rewrite (strptime_year_then _ "9-1" y 9 1 Hid).
  - apply make_date; [lia|lia|]. vm_compute. split; discriminate.
  - vm_compute. reflexivity.
Qed.

Lemma strptime_season_end (y : Z) :
  999 <= y <= 9998 ->
  strptime (season_end y) "%Y-%m-%d" = Ok (july_1 (y + 1)).
Proof.
  intros Hy. unfold season_end.
  change "-7-1" with ("-" ++ "7-1").
  rewrite (strptime_year_then _ "7-1" (y + 1) 7 1
             (printed_year (y + 1) ltac:(lia))).
  - apply make_date; [lia|lia|]. vm_compute. split; discriminate.
  - vm_compute. reflexivity.
Qed.

Lemma strptime_today_string (now : datetime) :
  1 <= toordinal now <= _MAXORDINAL -> 1000 <= year now ->
  strptime (today_string now) "%Y-%m-%d" = Ok (midnight now).
Proof.
  intros Hord Hyear.
  pose proof (ord2ymd_valid (toordinal now) Hord) as Hvalid.
  unfold today_string, midnight. unfold year, month, day in *.
  destruct (_ord2ymd (toordinal now)) as [[y m] d]. cbn [fst snd] in *.
  destruct Hvalid as (Hy & Hm & Hd & Hback).
  pose proof (days_in_month_le_31 y m Hm) as H31.
  pose proof (conj_all_In _ _ _ (month_day_plain_table y)
                (in_months_days m d Hm ltac:(lia))) as Hmd.
  unfold month_day_read_plain in Hmd. cbn [fst snd] in Hmd.
  rewrite (strptime_year_then _ _ y m d (printed_year y ltac:(lia)) Hmd).
  rewrite make_date by lia. rewrite Hback. reflexivity.
Qed.

Lemma snd_restricted_to (ids : list string)
  (run : result (list GameRecord) * State) :
  snd (restricted_to ids run) = snd run.
Proof. destruct run as [[out|e] s]; reflexivity. Qed.

Lemma scrape_schedule_requests (dates : string -> string -> json)
  (from_date to_date : string) (df dt : datetime)
  (preseason not_over : bool) (s : State) :
  strptime from_date "%Y-%m-%d" = Ok df ->
  strptime to_date "%Y-%m-%d" = Ok dt ->
  serves env dates ->
  snd (scrape_schedule env from_date to_date preseason not_over s)
  = sent s (map (chunk_request env) (chunks df dt)).
Proof.
  intros Hf Ht Hserves. unfold scrape_schedule. cbn [bind Monad_M].
  rewrite (chunk_schedule_calls_run env _ _ df dt dates s Hf Ht Hserves).
  unfold lift. reflexivity.
Qed.

Lemma extremes_of_sort (ids : list string) (earliest latest : string) :
  is_least earliest ids -> is_greatest latest ids ->
  first (sort ids) = Ok earliest /\ last_item (sort ids) = Ok latest.
Proof.
  intros Hleast Hgreatest.
  assert (Hne : ids <> []).
  { destruct Hleast as [Hin _]. intros E. rewrite E in Hin. destruct Hin. }
  destruct (sort_nonempty _ Hne) as (x & rest & Hsort).
  assert (Hfirst : first (sort ids) = Ok x) by (rewrite Hsort; reflexivity).
  split.
  - rewrite Hfirst. f_equal.
    apply (least_unique x earliest ids); [apply first_sort, Hfirst|exact Hleast].
  - destruct (last_item (sort ids)) as [l|e] eqn:E.
    + f_equal.
      apply (greatest_unique l latest ids);
        [apply last_item_sort, E|exact Hgreatest].
    + apply last_item_nil in E. destruct E as [E _]. congruence.
Qed.

End RangeOfGetDates.

(** X14. With an upstream that answers and a clock that stays on one day,
    [get_dates] asks for the days from September 1 of the year the earliest
    identifier starts with, to today when the latest identifier is of the
    current season and to July 1 of the year after the one it starts with
    otherwise; the dates it writes without padding are read as those days,
    and the range is requested in sub-ranges of 100 days. *)
Theorem get_dates_requests (env : Env) (dates : string -> string -> json)
  (games : list json) (earliest latest : string) (y1 : Z) (s : State) :
  is_least earliest (map py_str games) ->
  is_greatest latest (map py_str games) ->
  four_digits (str_take 4 earliest) = Some y1 -> 1 <= y1 ->
  (forall i, (i < 4)%nat ->
     toordinal (clock env (i + ticks s)) = toordinal (clock env (ticks s))) ->
  serves env dates ->
  let now := clock env (ticks s) in
  let current :=
    eq_str (get_season env (strftime now "%Y-%m-%d")) (str_take 4 latest) in
  (current = true ->
   1 <= toordinal now <= _MAXORDINAL -> 1000 <= year now ->
   snd (get_dates env games s)
   = sent (read_clock s 4)
       (map (chunk_request env) (chunks (september_1 y1) (midnight now))))
  /\ (current = false ->
      forall y2, py_int (str_take 4 latest) = Ok y2 -> 999 <= y2 <= 9998 ->
        snd (get_dates env games s)
        = sent (read_clock s 1)
            (map (chunk_request env)
               (chunks (september_1 y1) (july_1 (y2 + 1))))).
Proof.
  intros Hleast Hgreatest Hy1 Hpos Hday Hserves now current.
  destruct (extremes_of_sort _ _ _ Hleast Hgreatest) as [Hfirst Hlast].
  destruct (get_dates_run env games s earliest latest Hfirst Hlast Hday)
    as [Hin Hoff].
  pose proof (strptime_season_start earliest y1 Hy1 Hpos) as Hfrom.
  split.
  - intros Hcur Hnow Hyear. rewrite (Hin Hcur), snd_restricted_to.
    apply (scrape_schedule_requests env dates); [exact Hfrom| |exact Hserves].
    apply strptime_today_string; assumption.
  - intros Hcur y2 Hy2 Hrange. rewrite (Hoff Hcur y2 Hy2), snd_restricted_to.
    apply (scrape_schedule_requests env dates); [exact Hfrom| |exact Hserves].
    apply strptime_season_end, Hrange.
Qed.

Lemma get_dates_requests_witness :
  snd (get_dates Demo.env [JInt 2016020001] Demo.start)
  = sent (read_clock Demo.start 1)
      (map (chunk_request Demo.env) (chunks (september_1 2016) (july_1 2017))).
Proof.
  apply (proj2 (get_dates_requests Demo.env
                  (fun a b => enc_dates (Demo.schedule_of Demo.season a b))
                  [JInt 2016020001] "2016020001" "2016020001" 2016 Demo.start
                  ltac:(split; [left; reflexivity|intros y [<-|[]]; reflexivity])
                  ltac:(split; [left; reflexivity|intros y [<-|[]]; reflexivity])
                  eq_refl ltac:(lia) ltac:(intros; reflexivity)
                  (demo_serves Demo.season _))
           eq_refl 2016 eq_refl ltac:(lia)).
Defined.

